(** * GLEC API: the emissions calculation engine

    A shallow embedding of the calculation pipeline of the API gateway:
    the abstract [EmissionCalculator] with its template method
    [calculate], the four transport-mode calculators (road, rail, sea,
    air), the calculator factory and the [/batch] route handler.

    Conventions of the embedding.
    - A JavaScript [number] is a value of a carrier [num] with the
      operations the engine uses (class [JsNumber]).  Two carriers are
      given: [Exact], the rationals with exact arithmetic, in which the
      algebraic properties are proved, and [Binary64], the IEEE 754
      double-precision numbers the program really runs on, in which
      concrete runs are evaluated.
    - An optional property ([distance?: number]) is an [option]; the
      truthiness tests of the source ([if (x)], [!x], [x || d]) are
      written out with [truthy] and [orElse]: an absent value and the
      number zero are both falsy.
    - A string is a sequence of code units from U+0000 to U+00FF, one
      to a character of [string]; [toLowerCase] is that of JavaScript on
      these.
    - An object literal indexed by a string ([table[key]]) is an
      association list searched among its own keys.  Under a member
      name of [Object.prototype] ([constructor], [__proto__] and the
      like) the literal of the source answers with the inherited member,
      a function or an object, which no carrier of numbers holds:
      [inherited] tells these keys, and what is proved of a value read
      out of a table is proved for the keys that are none of them.
    - The database client, the clock and the random generator are the
      boundary of the engine: they are arguments ([FactorProvider],
      [Env]). *)

From Stdlib Require Import ZArith QArith Qfield Bool String Ascii List Lia.
From Stdlib Require PrimFloat Uint63.
Import ListNotations.

(** ** Numbers *)

Class JsNumber (num : Type) : Type := {
  (** a numeric literal of the source, written in decimal *)
  lit : Q -> num;
  (** the result of arithmetic on [undefined] *)
  NaN : num;
  plus : num -> num -> num;
  times : num -> num -> num;
  divide : num -> num -> num;
  Math_max : num -> num -> num;
  (** [a < b] and [a <= b] *)
  less : num -> num -> bool;
  lessEq : num -> num -> bool;
  (** ToBoolean: false on zero and on NaN *)
  ToBoolean : num -> bool
}.

Arguments lit {num _} q%_Q.

Declare Scope js_scope.
Delimit Scope js_scope with js.
Notation "a + b" := (plus a b) : js_scope.
Notation "a * b" := (times a b) : js_scope.
Notation "a / b" := (divide a b) : js_scope.
Notation "a <? b" := (less a b) : js_scope.
Notation "a <=? b" := (lessEq a b) : js_scope.
Notation "a >? b" := (less b a) (at level 70) : js_scope.

(** Exact arithmetic on the rationals.  There is no NaN among them: the
    engine reads [distance!] and [weight!] only after validation has
    established that they are present, so the value standing for it is
    never produced by [calculate]. *)
#[export] Instance Exact : JsNumber Q := {|
  lit q := q;
  NaN := 0;
  plus := Qplus;
  times := Qmult;
  divide := Qdiv;
  Math_max a b := if Qle_bool a b then b else a;
  less a b := negb (Qle_bool b a);
  lessEq := Qle_bool;
  ToBoolean x := negb (Qeq_bool x 0)
|}.

Module F64.

Definition of_Z (z : Z) : PrimFloat.float :=
  match z with
  | Z0 => PrimFloat.zero
  | Zpos _ => PrimFloat.of_uint63 (Uint63.of_Z z)
  | Zneg p => PrimFloat.opp (PrimFloat.of_uint63 (Uint63.of_Z (Zpos p)))
  end.

(** A decimal literal [m / 10^k]: numerator and denominator are exact
    doubles and the division rounds to nearest, which is the double the
    JavaScript parser gives the literal. *)
Definition lit (q : Q) : PrimFloat.float :=
  PrimFloat.div (of_Z (Qnum q)) (of_Z (Zpos (Qden q))).

Definition ToBoolean (x : PrimFloat.float) : bool :=
  PrimFloat.ltb x PrimFloat.zero || PrimFloat.ltb PrimFloat.zero x.

Definition Math_max (a b : PrimFloat.float) : PrimFloat.float :=
  if PrimFloat.is_nan a || PrimFloat.is_nan b then PrimFloat.nan
  else if PrimFloat.ltb a b then b
  else if PrimFloat.ltb b a then a
  else if PrimFloat.is_zero a then PrimFloat.add a b
  else a.

End F64.

#[export] Instance Binary64 : JsNumber PrimFloat.float := {|
  lit := F64.lit;
  NaN := PrimFloat.nan;
  plus := PrimFloat.add;
  times := PrimFloat.mul;
  divide := PrimFloat.div;
  Math_max := F64.Math_max;
  less := PrimFloat.ltb;
  lessEq := PrimFloat.leb;
  ToBoolean := F64.ToBoolean
|}.

(** ** Truthiness and strings *)

Section Truthiness.
Context {num : Type} {N : JsNumber num}.

(** [if (x)] on an optional number *)
Definition truthy (x : option num) : bool :=
  match x with
  | Some v => ToBoolean v
  | None => false
  end.

(** [x || d] on an optional number *)
Definition orElse (x : option num) (d : num) : num :=
  match x with
  | Some v => if ToBoolean v then v else d
  | None => d
  end.

(** [x!] read as a number *)
Definition the (x : option num) : num :=
  match x with
  | Some v => v
  | None => NaN
  end.

End Truthiness.

(** [if (s)] on a string: the empty string is falsy *)
Definition truthyS (s : string) : bool :=
  match s with
  | EmptyString => false
  | String _ _ => true
  end.

Definition truthyOS (s : option string) : bool :=
  match s with
  | Some v => truthyS v
  | None => false
  end.

(** [b ? .. : ..] on an optional boolean *)
Definition truthyB (b : option bool) : bool :=
  match b with
  | Some v => v
  | None => false
  end.

Definition isSome {A : Type} (x : option A) : bool :=
  match x with
  | Some _ => true
  | None => false
  end.

(** [toLowerCase] on a code unit up to U+00FF: A to Z and the capital
    letters of Latin-1, U+00C0 to U+00DE without the multiplication
    sign U+00D7, go to the letter 32 places on; nothing else changes. *)
Definition toLowerCase_char (c : ascii) : ascii :=
  let n := nat_of_ascii c in
  if (65 <=? n)%nat && (n <=? 90)%nat
     || (192 <=? n)%nat && (n <=? 222)%nat && negb (n =? 215)%nat
  then ascii_of_nat (n + 32) else c.

(** [toUpperCase] on the letters a to z; the engine applies it to the
    names of the modes only. *)
Definition toUpperCase_char (c : ascii) : ascii :=
  let n := nat_of_ascii c in
  if (97 <=? n)%nat && (n <=? 122)%nat then ascii_of_nat (n - 32) else c.

Fixpoint mapString (f : ascii -> ascii) (s : string) : string :=
  match s with
  | EmptyString => EmptyString
  | String c r => String (f c) (mapString f r)
  end.

Definition toLowerCase : string -> string := mapString toLowerCase_char.
Definition toUpperCase : string -> string := mapString toUpperCase_char.

(** The member names of [Object.prototype], which every object literal
    answers to besides its own keys. *)
Definition objectPrototypeNames : list string :=
  [ "constructor"; "__proto__"; "hasOwnProperty"; "isPrototypeOf";
    "propertyIsEnumerable"; "toLocaleString"; "toString"; "valueOf";
    "__defineGetter__"; "__defineSetter__"; "__lookupGetter__";
    "__lookupSetter__" ]%string.

Definition inherited (key : string) : bool :=
  existsb (String.eqb key) objectPrototypeNames.

(** [table[key]] on an object literal, for a key that is not
    [inherited]: the value under the key when the literal has it, and
    undefined otherwise. *)
Fixpoint lookup {V : Type} (key : string) (table : list (string * V)) : option V :=
  match table with
  | [] => None
  | (k, v) :: rest => if String.eqb key k then Some v else lookup key rest
  end.

(** [array.push(x)] *)
Definition push {A : Type} (l : list A) (x : A) : list A := l ++ [x].

(** [strings.join(sep)] *)
Fixpoint join (sep : string) (l : list string) : string :=
  match l with
  | [] => EmptyString
  | [s] => s
  | s :: rest => (s ++ sep ++ join sep rest)%string
  end.

(** [array.sort(compare)]: a stable sort; [compare a b] negative or zero
    keeps [a] before [b]. *)
Fixpoint sortInsert {A : Type} (compare : A -> A -> Z) (x : A) (sorted : list A) : list A :=
  match sorted with
  | [] => [x]
  | y :: rest =>
    if (compare x y <=? 0)%Z then x :: y :: rest
    else y :: sortInsert compare x rest
  end.

Definition sort {A : Type} (compare : A -> A -> Z) (l : list A) : list A :=
  fold_right (sortInsert compare) [] l.

(** ** Data model (shared/types/glec) *)

Inductive TransportMode : Set := road | rail | sea | air.

Inductive RouteType : Set := highway | urban | mixed | international.

Inductive EnergyUnit : Set := liters | kwh | kg.

Inductive Scope : Set := ttw | wtw.

Definition TransportMode_eqb (a b : TransportMode) : bool :=
  match a, b with
  | road, road | rail, rail | sea, sea | air, air => true
  | _, _ => false
  end.

Definition Scope_eqb (a b : Scope) : bool :=
  match a, b with
  | ttw, ttw | wtw, wtw => true
  | _, _ => false
  end.

(** the string a mode is at run time *)
Definition modeString (m : TransportMode) : string :=
  match m with
  | road => "road"
  | rail => "rail"
  | sea => "sea"
  | air => "air"
  end.

Module Capacity.
Record t {num : Type} : Type := mk {
  weight : option num;
  volume : option num;
  passengers : option num
}.
Arguments t : clear implicits.
Arguments mk {num}.
End Capacity.

(** [FuelType] is a union of string literals; it is kept a string, so
    that the unknown and the empty fuel types the engine guards against
    can be written. *)
Module VehicleCategory.
Record t {num : Type} : Type := mk {
  type : string;
  subType : option string;
  capacity : option (Capacity.t num);
  fuelType : string
}.
Arguments t : clear implicits.
Arguments mk {num}.
End VehicleCategory.

Module ActivityData.
Record t {num : Type} : Type := mk {
  transportMode : TransportMode;
  vehicle : VehicleCategory.t num;
  distance : option num;
  weight : option num;
  volume : option num;
  loadFactor : option num;
  emptyReturn : option bool;
  origin : option string;
  destination : option string;
  routeType : option RouteType;
  fuelConsumed : option num;
  energyUnit : option EnergyUnit
}.
Arguments t : clear implicits.
Arguments mk {num}.

(** [{ ...data, loadFactor: l }] *)
Definition with_loadFactor {num : Type} (data : t num) (l : option num) : t num :=
  mk (transportMode data) (vehicle data) (distance data) (weight data)
     (volume data) l (emptyReturn data) (origin data) (destination data)
     (routeType data) (fuelConsumed data) (energyUnit data).

(** [{ ...data, vehicle: v }] *)
Definition with_vehicle {num : Type} (data : t num) (v : VehicleCategory.t num) : t num :=
  mk (transportMode data) v (distance data) (weight data)
     (volume data) (loadFactor data) (emptyReturn data) (origin data)
     (destination data) (routeType data) (fuelConsumed data) (energyUnit data).
End ActivityData.

(** [unit] is cast from the database column ([as any]): a string. *)
Module EmissionFactor.
Record t {num : Type} : Type := mk {
  id : string;
  transportMode : TransportMode;
  vehicleType : string;
  fuelType : string;
  co2Factor : num;
  ch4Factor : option num;
  n2oFactor : option num;
  unit : string;
  scope : Scope;
  source : string;
  version : string;
  region : option string;
  updatedAt : Z
}.
Arguments t : clear implicits.
Arguments mk {num}.
End EmissionFactor.

Module CalculationError.
Record t : Type := mk {
  code : string;
  message : string;
  field : option string;
  suggestion : option string
}.
End CalculationError.

Module CalculationOptions.
Record t {num : Type} : Type := mk {
  includeIndirectEmissions : option bool;
  roundingPrecision : option num;
  includeBiogenic : option bool
}.
Arguments t : clear implicits.
Arguments mk {num}.
End CalculationOptions.

Module CalculationRequest.
Record t {num : Type} : Type := mk {
  activityData : ActivityData.t num;
  options : option (CalculationOptions.t num)
}.
Arguments t : clear implicits.
Arguments mk {num}.
End CalculationRequest.

Inductive Confidence : Set := high | medium | low.

(** The object [calculateEmissions] returns.  [buildResult] also reads
    [fuelProduction] and [fuelTransport] from it, which no calculator
    sets. *)
Module Emissions.
Record t {num : Type} : Type := mk {
  co2 : num;
  ch4 : option num;
  n2o : option num;
  total : num;
  directEmissions : num;
  indirectEmissions : num;
  fuelProduction : option num;
  fuelTransport : option num
}.
Arguments t : clear implicits.
Arguments mk {num}.
End Emissions.

Module Result.
Record input {num : Type} : Type := mkInput {
  activityData : ActivityData.t num;
  emissionFactor : EmissionFactor.t num;
  calculationMethod : string
}.
Record emissions {num : Type} : Type := mkEmissions {
  co2 : num;
  ch4 : option num;
  n2o : option num;
  total : num
}.
Record breakdown {num : Type} : Type := mkBreakdown {
  directEmissions : num;
  indirectEmissions : num;
  fuelProduction : num;
  fuelTransport : num
}.
Record metrics {num : Type} : Type := mkMetrics {
  emissionIntensity : num;
  fuelEfficiency : option num;
  loadUtilization : num
}.
Record metadata : Type := mkMetadata {
  calculatedAt : Z;
  calculationId : string;
  glecVersion : string;
  confidence : Confidence;
  assumptions : list string
}.
Arguments input : clear implicits.
Arguments mkInput {num}.
Arguments emissions : clear implicits.
Arguments mkEmissions {num}.
Arguments breakdown : clear implicits.
Arguments mkBreakdown {num}.
Arguments metrics : clear implicits.
Arguments mkMetrics {num}.
(** [EmissionCalculationResult] *)
Record t {num : Type} : Type := mk {
  Input : input num;
  Emissions : emissions num;
  Breakdown : breakdown num;
  Metrics : metrics num;
  Metadata : metadata
}.
Arguments t : clear implicits.
Arguments mk {num}.
End Result.

(** ** The boundary: factor store, clock, random generator *)

(** A row of the [emission_factors] table. *)
Module FactorRow.
Record t {num : Type} : Type := mk {
  id : string;
  vehicle_type : string;
  fuel_type : string;
  emission_factor_co2 : num;
  emission_factor_ch4 : option num;
  emission_factor_n2o : option num;
  unit : string;
  source : string;
  version : string;
  region : option string;
  updated_at : Z
}.
Arguments t : clear implicits.
Arguments mk {num}.
End FactorRow.

(** The [.eq(column, value)] filters of a select on [emission_factors]. *)
Record Query : Type := mkQuery {
  transport_mode : string;
  vehicle_type : option string;
  fuel_type : option string
}.

(** What awaiting the select gives: the call rejects, or it resolves to
    [{ data, error }]. *)
Inductive DbResponse {num : Type} : Type :=
| Rejected
| Resolved (data : option (list (FactorRow.t num))) (error : option string).
Arguments DbResponse : clear implicits.

Definition FactorProvider (num : Type) : Type := Query -> DbResponse num.

(** [new Date()], [Date.now().toString(36)] and
    [Math.random().toString(36)] at the time of a calculation. *)
Record Env : Type := mkEnv {
  now : Z;
  now_base36 : string;
  random_base36 : string
}.

(** A call either returns or throws [new Error(message)]. *)
Inductive Completion {A : Type} : Type :=
| Returned (value : A)
| Threw (message : string).
Arguments Completion : clear implicits.

(** ** GLEC_CONSTANTS *)

Module GLEC_CONSTANTS.
Section Constants.
Context {num : Type} {N : JsNumber num}.
Definition VERSION : string := "3.1".
Definition GWP_CO2 : num := lit 1.
Definition GWP_CH4 : num := lit 28.
Definition GWP_N2O : num := lit 265.
Definition DEFAULT_LOAD_FACTORS (m : TransportMode) : num :=
  match m with
  | road => lit 0.7
  | rail => lit 0.8
  | sea => lit 0.85
  | air => lit 0.8
  end.
End Constants.
End GLEC_CONSTANTS.

(** ** EmissionCalculator: the abstract base class

    An instance is its transport mode and the methods the subclass
    supplies; the methods of the base class take it as [this]. *)

Module EmissionCalculator.

Record t {num : Type} : Type := mk {
  transportMode : TransportMode;
  validateInput : ActivityData.t num -> list CalculationError.t;
  getEmissionFactor :
    Env -> FactorProvider num -> ActivityData.t num -> EmissionFactor.t num;
  normalizeActivityData : ActivityData.t num -> ActivityData.t num;
  calculateEmissions :
    ActivityData.t num -> EmissionFactor.t num ->
    option (CalculationOptions.t num) -> Emissions.t num;
  getAssumptions : ActivityData.t num -> list string
}.
Arguments t : clear implicits.
Arguments mk {num}.

Section Base.
Context {num : Type} {N : JsNumber num}.

(** [calculateIntensity]: kg CO2e per tkm, per km, or the total *)
Definition calculateIntensity (totalEmissions : num) (data : ActivityData.t num) : num :=
  if truthy (ActivityData.weight data) && truthy (ActivityData.distance data) then
    (totalEmissions / (the (ActivityData.weight data) * the (ActivityData.distance data)))%js
  else if truthy (ActivityData.distance data) then
    (totalEmissions / the (ActivityData.distance data))%js
  else totalEmissions.

Definition calculateFuelEfficiency (data : ActivityData.t num) : option num :=
  if truthy (ActivityData.fuelConsumed data) && truthy (ActivityData.distance data) then
    Some (the (ActivityData.distance data) / the (ActivityData.fuelConsumed data))%js
  else None.

Definition getLoadUtilization (mode : TransportMode) (data : ActivityData.t num) : num :=
  orElse (ActivityData.loadFactor data) (GLEC_CONSTANTS.DEFAULT_LOAD_FACTORS mode).

(** [assessConfidence]; [score] is its local variable *)
Definition confidenceScore (data : ActivityData.t num) (factor : EmissionFactor.t num) : nat :=
  let score := 0%nat in
  let score := if truthy (ActivityData.weight data) then (score + 2)%nat else score in
  let score := if truthy (ActivityData.distance data) then (score + 2)%nat else score in
  let score := if truthy (ActivityData.loadFactor data) then (score + 1)%nat else score in
  let score := if truthy (ActivityData.fuelConsumed data) then (score + 2)%nat else score in
  let score := if Scope_eqb (EmissionFactor.scope factor) wtw then (score + 1)%nat else score in
  let score := if truthyOS (EmissionFactor.region factor) then (score + 1)%nat else score in
  score.

Definition assessConfidence (data : ActivityData.t num) (factor : EmissionFactor.t num) : Confidence :=
  let score := confidenceScore data factor in
  if (7 <=? score)%nat then high
  else if (4 <=? score)%nat then medium
  else low.

(** The template literal
    [`Load factor assumed: ${DEFAULT_LOAD_FACTORS[mode] * 100}%`]: the
    products 0.7 * 100, 0.8 * 100 and 0.85 * 100 print as 70, 80 and 85. *)
Definition loadFactorAssumed (mode : TransportMode) : string :=
  match mode with
  | road => "Load factor assumed: 70%"
  | rail => "Load factor assumed: 80%"
  | sea => "Load factor assumed: 85%"
  | air => "Load factor assumed: 80%"
  end.

(** [getAssumptions] of the base class *)
Definition super_getAssumptions (mode : TransportMode) (data : ActivityData.t num) : list string :=
  let assumptions := [] in
  let assumptions :=
    if negb (truthy (ActivityData.loadFactor data))
    then push assumptions (loadFactorAssumed mode) else assumptions in
  let assumptions :=
    if negb (truthyB (ActivityData.emptyReturn data))
    then push assumptions "No empty return trip assumed"%string else assumptions in
  assumptions.

Definition generateCalculationId (mode : TransportMode) (env : Env) : string :=
  let timestamp := now_base36 env in
  let random := String.substring 2 5 (random_base36 env) in
  (modeString mode ++ "_" ++ timestamp ++ "_" ++ random)%string.

(** [convertToCO2e] *)
Definition convertToCO2e (co2 : num) (ch4 n2o : option num) : num :=
  let total := (co2 * GLEC_CONSTANTS.GWP_CO2)%js in
  let total := if truthy ch4 then (total + the ch4 * GLEC_CONSTANTS.GWP_CH4)%js else total in
  let total := if truthy n2o then (total + the n2o * GLEC_CONSTANTS.GWP_N2O)%js else total in
  total.

Definition buildResult (this : t num) (env : Env)
    (activityData : ActivityData.t num) (emissionFactor : EmissionFactor.t num)
    (emissions : Emissions.t num) (request : CalculationRequest.t num) : Result.t num :=
  let calculationId := generateCalculationId (transportMode this) env in
  let now := now env in
  Result.mk
    (Result.mkInput activityData emissionFactor
       ("GLEC_" ++ toUpperCase (modeString (transportMode this)) ++ "_v"
          ++ GLEC_CONSTANTS.VERSION)%string)
    (Result.mkEmissions (Emissions.co2 emissions) (Emissions.ch4 emissions)
       (Emissions.n2o emissions) (Emissions.total emissions))
    (Result.mkBreakdown (Emissions.directEmissions emissions)
       (Emissions.indirectEmissions emissions)
       (orElse (Emissions.fuelProduction emissions) (lit 0))
       (orElse (Emissions.fuelTransport emissions) (lit 0)))
    (Result.mkMetrics (calculateIntensity (Emissions.total emissions) activityData)
       (calculateFuelEfficiency activityData)
       (getLoadUtilization (transportMode this) activityData))
    (Result.mkMetadata now calculationId GLEC_CONSTANTS.VERSION
       (assessConfidence activityData emissionFactor)
       (getAssumptions this activityData)).

(** [calculate]: the template method *)
Definition calculate (this : t num) (env : Env) (db : FactorProvider num)
    (request : CalculationRequest.t num) : Completion (Result.t num) :=
  let validationErrors := validateInput this (CalculationRequest.activityData request) in
  if (0 <? length validationErrors)%nat then
    Threw ("Validation failed: "
             ++ join ", " (map CalculationError.message validationErrors))%string
  else
    let emissionFactor := getEmissionFactor this env db (CalculationRequest.activityData request) in
    let normalizedData := normalizeActivityData this (CalculationRequest.activityData request) in
    let emissions :=
      calculateEmissions this normalizedData emissionFactor (CalculationRequest.options request) in
    Returned (buildResult this env normalizedData emissionFactor emissions request).

End Base.
End EmissionCalculator.

(** ** RoadTransportCalculator *)

Module RoadTransportCalculator.
Section Methods.
Context {num : Type} {N : JsNumber num}.

Definition error (code message field : string) (suggestion : option string) :=
  CalculationError.mk code message (Some field) suggestion.

(** [vehicle] is a required property of [ActivityData], so the tests
    [!data.vehicle] and [data.vehicle?.] see an object; a [type] or
    [fuelType] that is missing is the empty string here. *)
Definition validateInput (data : ActivityData.t num) : list CalculationError.t :=
  let errors := [] in
  let errors :=
    if negb (truthy (ActivityData.distance data))
       || (the (ActivityData.distance data) <=? lit 0)%js
    then push errors
           (error "INVALID_DISTANCE" "Distance must be provided and greater than 0"
              "distance" (Some "Provide distance in kilometers"%string))
    else errors in
  let errors :=
    if negb (truthyS (VehicleCategory.type (ActivityData.vehicle data)))
    then push errors
           (error "INVALID_VEHICLE" "Vehicle type must be specified"
              "vehicle.type" (Some "Use truck, van, car, motorcycle, etc."%string))
    else errors in
  let errors :=
    if negb (truthyS (VehicleCategory.fuelType (ActivityData.vehicle data)))
    then push errors
           (error "INVALID_FUEL_TYPE" "Fuel type must be specified"
              "vehicle.fuelType" (Some "Use diesel, petrol, electric, hybrid, etc."%string))
    else errors in
  let errors :=
    if isSome (ActivityData.weight data)
       && (the (ActivityData.weight data) <? lit 0)%js
    then push errors
           (error "INVALID_WEIGHT" "Weight cannot be negative" "weight" None)
    else errors in
  let errors :=
    if isSome (ActivityData.loadFactor data)
       && ((the (ActivityData.loadFactor data) <? lit 0)%js
           || (the (ActivityData.loadFactor data) >? lit 1)%js)
    then push errors
           (error "INVALID_LOAD_FACTOR" "Load factor must be between 0 and 1"
              "loadFactor" (Some "Use decimal format (e.g., 0.7 for 70%)"%string))
    else errors in
  errors.

Definition defaultFactors : list (string * (num * string)) :=
  [ ("truck", (lit 0.079, "km"));
    ("van", (lit 0.195, "km"));
    ("car", (lit 0.171, "km"));
    ("motorcycle", (lit 0.084, "km"));
    ("heavy_truck", (lit 0.125, "km"));
    ("light_truck", (lit 0.065, "km")) ]%string.

(** [getDefaultFactor]; the fallback is [defaultFactors['truck']] *)
Definition getDefaultFactor (env : Env) (vehicle : VehicleCategory.t num) : EmissionFactor.t num :=
  let factorData :=
    match lookup (toLowerCase (VehicleCategory.type vehicle)) defaultFactors with
    | Some d => d
    | None => (lit 0.079, "km"%string)
    end in
  EmissionFactor.mk "default_road" road (VehicleCategory.type vehicle)
    (VehicleCategory.fuelType vehicle) (fst factorData) None None (snd factorData)
    wtw "GLEC Framework v3.1 - Default Values" "3.1" None (now env).

(** the comparator of the sort: most recently updated first *)
Definition byUpdatedAtDesc (a b : FactorRow.t num) : Z :=
  (FactorRow.updated_at b - FactorRow.updated_at a)%Z.

Definition getEmissionFactor (env : Env) (db : FactorProvider num)
    (data : ActivityData.t num) : EmissionFactor.t num :=
  match db (mkQuery "road"
              (Some (toLowerCase (VehicleCategory.type (ActivityData.vehicle data))))
              (Some (toLowerCase (VehicleCategory.fuelType (ActivityData.vehicle data))))) with
  | Rejected => getDefaultFactor env (ActivityData.vehicle data)
  | Resolved _ (Some _) =>
    (* throw new Error(`Database error: ...`), caught below *)
    getDefaultFactor env (ActivityData.vehicle data)
  | Resolved None None => getDefaultFactor env (ActivityData.vehicle data)
  | Resolved (Some factors) None =>
    match sort byUpdatedAtDesc factors with
    | [] => getDefaultFactor env (ActivityData.vehicle data)
    | latestFactor :: _ =>
      EmissionFactor.mk (FactorRow.id latestFactor) road
        (FactorRow.vehicle_type latestFactor) (FactorRow.fuel_type latestFactor)
        (FactorRow.emission_factor_co2 latestFactor)
        (Some (orElse (FactorRow.emission_factor_ch4 latestFactor) (lit 0)))
        (Some (orElse (FactorRow.emission_factor_n2o latestFactor) (lit 0)))
        (FactorRow.unit latestFactor) wtw (FactorRow.source latestFactor)
        (FactorRow.version latestFactor) (FactorRow.region latestFactor)
        (FactorRow.updated_at latestFactor)
    end
  end.

Definition loadFactors : list (string * num) :=
  [ ("truck", lit 0.7);
    ("van", lit 0.6);
    ("car", lit 1.0);
    ("motorcycle", lit 1.0);
    ("heavy_truck", lit 0.75);
    ("light_truck", lit 0.65) ]%string.

Definition getDefaultLoadFactor (vehicleType : string) : num :=
  orElse (lookup (toLowerCase vehicleType) loadFactors) (lit 0.7).

Definition typeMap : list (string * string) :=
  [ ("truck", "truck");
    ("lorry", "truck");
    ("van", "van");
    ("car", "car");
    ("automobile", "car");
    ("motorcycle", "motorcycle");
    ("motorbike", "motorcycle");
    ("heavy_truck", "heavy_truck");
    ("heavy_goods_vehicle", "heavy_truck");
    ("hgv", "heavy_truck");
    ("light_truck", "light_truck");
    ("light_goods_vehicle", "light_truck");
    ("lgv", "light_truck") ]%string.

Definition normalizeVehicleType (vehicleType : string) : string :=
  match lookup (toLowerCase vehicleType) typeMap with
  | Some mapped => if truthyS mapped then mapped else vehicleType
  | None => vehicleType
  end.

Definition normalizeActivityData (data : ActivityData.t num) : ActivityData.t num :=
  let normalized := data in
  let normalized :=
    if negb (truthy (ActivityData.loadFactor normalized))
    then ActivityData.with_loadFactor normalized
           (Some (getDefaultLoadFactor (VehicleCategory.type (ActivityData.vehicle data))))
    else normalized in
  let normalized :=
    ActivityData.with_vehicle normalized
      (VehicleCategory.mk
         (normalizeVehicleType (VehicleCategory.type (ActivityData.vehicle normalized)))
         (VehicleCategory.subType (ActivityData.vehicle normalized))
         (VehicleCategory.capacity (ActivityData.vehicle normalized))
         (VehicleCategory.fuelType (ActivityData.vehicle normalized))) in
  normalized.

(** the Well-to-Wheel ratios [(direct, indirect)] by fuel type *)
Definition wtwRatios : list (string * (num * num)) :=
  [ ("diesel", (lit 0.74, lit 0.26));
    ("petrol", (lit 0.76, lit 0.24));
    ("electric", (lit 0.0, lit 1.0));
    ("hybrid", (lit 0.5, lit 0.5));
    ("biodiesel", (lit 0.8, lit 0.2));
    ("hfo", (lit 0.72, lit 0.28));
    ("mgo", (lit 0.73, lit 0.27));
    ("lng", (lit 0.8, lit 0.2));
    ("jet_fuel", (lit 0.75, lit 0.25));
    ("hydrogen", (lit 0.0, lit 1.0)) ]%string.

(** [calculateWTWBreakdown]: [(directEmissions, indirectEmissions)];
    the fallback is [wtwRatios.diesel] *)
Definition calculateWTWBreakdown (totalEmissions : num) (fuelType : string) : num * num :=
  let ratios :=
    match lookup fuelType wtwRatios with
    | Some r => r
    | None => (lit 0.74, lit 0.26)
    end in
  ((totalEmissions * fst ratios)%js, (totalEmissions * snd ratios)%js).

Definition calculateEmissions (data : ActivityData.t num) (factor : EmissionFactor.t num)
    (options : option (CalculationOptions.t num)) : Emissions.t num :=
  let distance := the (ActivityData.distance data) in
  let loadFactor := orElse (ActivityData.loadFactor data) (lit 0.7) in
  let baseEmissions :=
    if String.eqb (EmissionFactor.unit factor) "km" then
      (distance * EmissionFactor.co2Factor factor)%js
    else if String.eqb (EmissionFactor.unit factor) "tkm"
            && truthy (ActivityData.weight data) then
      (distance * the (ActivityData.weight data) * EmissionFactor.co2Factor factor)%js
    else
      (distance * EmissionFactor.co2Factor factor)%js in
  let loadAdjustedEmissions := (baseEmissions / Math_max loadFactor (lit 0.1))%js in
  let totalEmissions :=
    if truthyB (ActivityData.emptyReturn data)
    then (loadAdjustedEmissions * lit 1.5)%js
    else loadAdjustedEmissions in
  let breakdown :=
    calculateWTWBreakdown totalEmissions
      (VehicleCategory.fuelType (ActivityData.vehicle data)) in
  let ch4Emissions :=
    if truthy (EmissionFactor.ch4Factor factor)
    then Some (distance * the (EmissionFactor.ch4Factor factor) * loadFactor)%js
    else None in
  let n2oEmissions :=
    if truthy (EmissionFactor.n2oFactor factor)
    then Some (distance * the (EmissionFactor.n2oFactor factor) * loadFactor)%js
    else None in
  let totalCO2e :=
    EmissionCalculator.convertToCO2e totalEmissions ch4Emissions n2oEmissions in
  Emissions.mk totalEmissions ch4Emissions n2oEmissions totalCO2e
    (fst breakdown) (snd breakdown) None None.

Definition getAssumptions (data : ActivityData.t num) : list string :=
  let assumptions := EmissionCalculator.super_getAssumptions road data in
  let assumptions :=
    if negb (isSome (ActivityData.routeType data))
    then push assumptions "Mixed highway/urban route assumed"%string else assumptions in
  let assumptions :=
    if String.eqb (VehicleCategory.type (ActivityData.vehicle data)) "truck"
       && negb (isSome (VehicleCategory.capacity (ActivityData.vehicle data)))
    then push assumptions "Medium truck capacity assumed"%string else assumptions in
  let assumptions :=
    if negb (truthy (ActivityData.fuelConsumed data))
    then push assumptions "Standard fuel efficiency assumed for vehicle type"%string
    else assumptions in
  assumptions.

(** [new RoadTransportCalculator()] *)
Definition new : EmissionCalculator.t num :=
  EmissionCalculator.mk road validateInput getEmissionFactor normalizeActivityData
    calculateEmissions getAssumptions.

End Methods.
End RoadTransportCalculator.

(** ** Rail, sea and air calculators

    The three share their shape: distance and weight are required, the
    first row the store returns is taken, and the emissions are
    tonne-kilometres times the factor, divided by the load factor. *)

Section TonneKmModes.
Context {num : Type} {N : JsNumber num}.

(** the row-to-factor conversion common to the three *)
Definition factorOfRow (mode : TransportMode) (factor : FactorRow.t num) : EmissionFactor.t num :=
  EmissionFactor.mk (FactorRow.id factor) mode (FactorRow.vehicle_type factor)
    (FactorRow.fuel_type factor) (FactorRow.emission_factor_co2 factor) None None
    (FactorRow.unit factor) wtw (FactorRow.source factor) (FactorRow.version factor)
    None (FactorRow.updated_at factor).

(** [if (!error && factors && factors.length > 0) return ...factors[0]],
    inside a [try] whose [catch] only logs *)
Definition firstRow (response : DbResponse num) : option (FactorRow.t num) :=
  match response with
  | Resolved (Some (factor :: _)) None => Some factor
  | _ => None
  end.

End TonneKmModes.

Module RailTransportCalculator.
Section Methods.
Context {num : Type} {N : JsNumber num}.

Definition validateInput (data : ActivityData.t num) : list CalculationError.t :=
  let errors := [] in
  let errors :=
    if negb (truthy (ActivityData.distance data))
       || (the (ActivityData.distance data) <=? lit 0)%js
    then push errors
           (CalculationError.mk "INVALID_DISTANCE"
              "Distance must be provided and greater than 0" (Some "distance"%string) None)
    else errors in
  let errors :=
    if negb (truthy (ActivityData.weight data))
       || (the (ActivityData.weight data) <=? lit 0)%js
    then push errors
           (CalculationError.mk "INVALID_WEIGHT"
              "Weight (cargo tonnage) must be provided for rail transport"
              (Some "weight"%string) (Some "Provide cargo weight in tonnes"%string))
    else errors in
  errors.

Definition defaultFactor (env : Env) : EmissionFactor.t num :=
  EmissionFactor.mk "default_rail" rail "freight_train" "electric" (lit 0.028) None None
    "tkm" wtw "GLEC Framework v3.1 - Default Values" "3.1" None (now env).

Definition getEmissionFactor (env : Env) (db : FactorProvider num)
    (data : ActivityData.t num) : EmissionFactor.t num :=
  let fuel := VehicleCategory.fuelType (ActivityData.vehicle data) in
  match firstRow (db (mkQuery "rail" None
                        (Some (if truthyS fuel then fuel else "electric"%string)))) with
  | Some factor => factorOfRow rail factor
  | None => defaultFactor env
  end.

Definition normalizeActivityData (data : ActivityData.t num) : ActivityData.t num :=
  ActivityData.with_loadFactor data (Some (orElse (ActivityData.loadFactor data) (lit 0.8))).

Definition calculateEmissions (data : ActivityData.t num) (factor : EmissionFactor.t num)
    (options : option (CalculationOptions.t num)) : Emissions.t num :=
  let distance := the (ActivityData.distance data) in
  let weight := the (ActivityData.weight data) in
  let tonneKm := (distance * weight)%js in
  let baseEmissions := (tonneKm * EmissionFactor.co2Factor factor)%js in
  let loadFactor := orElse (ActivityData.loadFactor data) (lit 0.8) in
  let adjustedEmissions := (baseEmissions / loadFactor)%js in
  Emissions.mk adjustedEmissions None None adjustedEmissions
    (adjustedEmissions * lit 0.1)%js (adjustedEmissions * lit 0.9)%js None None.

Definition new : EmissionCalculator.t num :=
  EmissionCalculator.mk rail validateInput getEmissionFactor normalizeActivityData
    calculateEmissions (EmissionCalculator.super_getAssumptions rail).

End Methods.
End RailTransportCalculator.

Module SeaTransportCalculator.
Section Methods.
Context {num : Type} {N : JsNumber num}.

Definition validateInput (data : ActivityData.t num) : list CalculationError.t :=
  let errors := [] in
  let errors :=
    if negb (truthy (ActivityData.distance data))
       || (the (ActivityData.distance data) <=? lit 0)%js
    then push errors
           (CalculationError.mk "INVALID_DISTANCE"
              "Distance must be provided and greater than 0" (Some "distance"%string) None)
    else errors in
  let errors :=
    if negb (truthy (ActivityData.weight data))
       || (the (ActivityData.weight data) <=? lit 0)%js
    then push errors
           (CalculationError.mk "INVALID_WEIGHT"
              "Weight (cargo tonnage) must be provided for sea transport"
              (Some "weight"%string) None)
    else errors in
  errors.

Definition defaultFactor (env : Env) : EmissionFactor.t num :=
  EmissionFactor.mk "default_sea" sea "container_ship" "hfo" (lit 0.011) None None
    "tkm" wtw "GLEC Framework v3.1 - Default Values" "3.1" None (now env).

Definition getEmissionFactor (env : Env) (db : FactorProvider num)
    (data : ActivityData.t num) : EmissionFactor.t num :=
  match firstRow (db (mkQuery "sea" None None)) with
  | Some factor => factorOfRow sea factor
  | None => defaultFactor env
  end.

Definition normalizeActivityData (data : ActivityData.t num) : ActivityData.t num :=
  ActivityData.with_loadFactor data (Some (orElse (ActivityData.loadFactor data) (lit 0.85))).

Definition calculateEmissions (data : ActivityData.t num) (factor : EmissionFactor.t num)
    (options : option (CalculationOptions.t num)) : Emissions.t num :=
  let distance := the (ActivityData.distance data) in
  let weight := the (ActivityData.weight data) in
  let tonneKm := (distance * weight)%js in
  let baseEmissions := (tonneKm * EmissionFactor.co2Factor factor)%js in
  let loadFactor := orElse (ActivityData.loadFactor data) (lit 0.85) in
  let adjustedEmissions := (baseEmissions / loadFactor)%js in
  Emissions.mk adjustedEmissions None None adjustedEmissions
    (adjustedEmissions * lit 0.72)%js (adjustedEmissions * lit 0.28)%js None None.

Definition new : EmissionCalculator.t num :=
  EmissionCalculator.mk sea validateInput getEmissionFactor normalizeActivityData
    calculateEmissions (EmissionCalculator.super_getAssumptions sea).

End Methods.
End SeaTransportCalculator.

Module AirTransportCalculator.
Section Methods.
Context {num : Type} {N : JsNumber num}.

Definition validateInput (data : ActivityData.t num) : list CalculationError.t :=
  let errors := [] in
  let errors :=
    if negb (truthy (ActivityData.distance data))
       || (the (ActivityData.distance data) <=? lit 0)%js
    then push errors
           (CalculationError.mk "INVALID_DISTANCE"
              "Distance must be provided and greater than 0" (Some "distance"%string) None)
    else errors in
  let errors :=
    if negb (truthy (ActivityData.weight data))
       || (the (ActivityData.weight data) <=? lit 0)%js
    then push errors
           (CalculationError.mk "INVALID_WEIGHT"
              "Weight (cargo tonnage) must be provided for air transport"
              (Some "weight"%string) None)
    else errors in
  errors.

Definition defaultFactor (env : Env) : EmissionFactor.t num :=
  EmissionFactor.mk "default_air" air "cargo_plane" "jet_fuel" (lit 0.602) None None
    "tkm" wtw "GLEC Framework v3.1 - Default Values" "3.1" None (now env).

Definition getEmissionFactor (env : Env) (db : FactorProvider num)
    (data : ActivityData.t num) : EmissionFactor.t num :=
  match firstRow (db (mkQuery "air" None None)) with
  | Some factor => factorOfRow air factor
  | None => defaultFactor env
  end.

Definition normalizeActivityData (data : ActivityData.t num) : ActivityData.t num :=
  ActivityData.with_loadFactor data (Some (orElse (ActivityData.loadFactor data) (lit 0.8))).

(** [rfi]: the Radiative Forcing Index *)
Definition calculateEmissions (data : ActivityData.t num) (factor : EmissionFactor.t num)
    (options : option (CalculationOptions.t num)) : Emissions.t num :=
  let distance := the (ActivityData.distance data) in
  let weight := the (ActivityData.weight data) in
  let tonneKm := (distance * weight)%js in
  let rfi := lit 1.9 in
  let baseEmissions := (tonneKm * EmissionFactor.co2Factor factor * rfi)%js in
  let loadFactor := orElse (ActivityData.loadFactor data) (lit 0.8) in
  let adjustedEmissions := (baseEmissions / loadFactor)%js in
  Emissions.mk adjustedEmissions None None adjustedEmissions
    (adjustedEmissions * lit 0.75)%js (adjustedEmissions * lit 0.25)%js None None.

Definition new : EmissionCalculator.t num :=
  EmissionCalculator.mk air validateInput getEmissionFactor normalizeActivityData
    calculateEmissions (EmissionCalculator.super_getAssumptions air).

End Methods.
End AirTransportCalculator.

(** ** CalculatorFactory

    [getCalculator] builds the calculator of a mode on first use and
    keeps it in a map; the calculators hold no state besides their mode,
    so the one kept and a new one are the same value. *)

Module CalculatorFactory.
Section Factory.
Context {num : Type} {N : JsNumber num}.

Definition createCalculator (mode : TransportMode) : EmissionCalculator.t num :=
  match mode with
  | road => RoadTransportCalculator.new
  | rail => RailTransportCalculator.new
  | sea => SeaTransportCalculator.new
  | air => AirTransportCalculator.new
  end.

Definition getCalculator (mode : TransportMode) : EmissionCalculator.t num :=
  createCalculator mode.

End Factory.
End CalculatorFactory.

(** ** The [/batch] route

    The handler after authentication.  The request body is taken at its
    TypeScript type; [schema] is what [batchCalculationSchema.safeParse]
    checks of such a value.  The [i]-th calculation runs against the
    clock, the random generator and the factor store as they are at
    that moment: [env i] and [db i]. *)

Module BatchRoute.

Record options : Type := mkOptions {
  aggregateResults : option bool;
  includeDetailedBreakdown : option bool
}.

(** [BatchCalculationRequest] *)
Record request {num : Type} : Type := mkRequest {
  calculations : list (CalculationRequest.t num);
  batchOptions : option options
}.
Arguments request : clear implicits.
Arguments mkRequest {num}.

Record aggregate {num : Type} : Type := mkAggregate {
  totalEmissions : num;
  averageIntensity : num;
  totalDistance : num;
  totalWeight : num;
  calculationCount : nat
}.
Arguments aggregate : clear implicits.
Arguments mkAggregate {num}.

Record summary : Type := mkSummary {
  totalRequests : nat;
  successful : nat;
  failed : nat
}.

(** the JSON of the 200 response; [errors] is left out when empty *)
Record body {num : Type} : Type := mkBody {
  success : bool;
  individual : list (Result.t num);
  Aggregate : option (aggregate num);
  errors : option (list (nat * string));
  Summary : summary
}.
Arguments body : clear implicits.
Arguments mkBody {num}.

Inductive response {num : Type} : Type :=
| Status400
| Status200 (json : body num).
Arguments response : clear implicits.

Section Handler.
Context {num : Type} {N : JsNumber num}.

Definition fuelTypes : list string :=
  [ "diesel"; "petrol"; "electric"; "hybrid"; "hfo"; "mgo"; "lng"; "jet_fuel";
    "biodiesel"; "hydrogen" ]%string.

(** [z.number().nonnegative().optional()] *)
Definition nonnegativeOptional (x : option num) : bool :=
  match x with
  | Some v => (lit 0 <=? v)%js
  | None => true
  end.

Definition vehicleSchema (v : VehicleCategory.t num) : bool :=
  (1 <=? String.length (VehicleCategory.type v))%nat
  && existsb (String.eqb (VehicleCategory.fuelType v)) fuelTypes.

Definition activityDataSchema (data : ActivityData.t num) : bool :=
  vehicleSchema (ActivityData.vehicle data)
  && match ActivityData.distance data with
     | Some d => (d >? lit 0)%js
     | None => false
     end
  && nonnegativeOptional (ActivityData.weight data)
  && nonnegativeOptional (ActivityData.volume data)
  && match ActivityData.loadFactor data with
     | Some l => (lit 0 <=? l)%js && (l <=? lit 1)%js
     | None => true
     end
  && nonnegativeOptional (ActivityData.fuelConsumed data).

Definition calculationRequestSchema (r : CalculationRequest.t num) : bool :=
  activityDataSchema (CalculationRequest.activityData r)
  && match CalculationRequest.options r with
     | Some o =>
       match CalculationOptions.roundingPrecision o with
       | Some p => (lit 0 <=? p)%js && (p <=? lit 6)%js
       | None => true
       end
     | None => true
     end.

Definition schema (b : request num) : bool :=
  forallb calculationRequestSchema (calculations b)
  && (1 <=? length (calculations b))%nat
  && (length (calculations b) <=? 100)%nat.

(** the [for] loop from index [i] on, over the calculations left *)
Fixpoint processFrom (env : nat -> Env) (db : nat -> FactorProvider num) (i : nat)
    (rest : list (CalculationRequest.t num))
    (results : list (nat * Result.t num)) (errors : list (nat * string))
  : list (nat * Result.t num) * list (nat * string) :=
  match rest with
  | [] => (results, errors)
  | request :: rest' =>
    let calculator :=
      CalculatorFactory.getCalculator
        (ActivityData.transportMode (CalculationRequest.activityData request)) in
    match EmissionCalculator.calculate calculator (env i) (db i) request with
    | Returned result =>
      processFrom env db (S i) rest' (push results (i, result)) errors
    | Threw message =>
      processFrom env db (S i) rest' results (push errors (i, message))
    end
  end.

(** [results.reduce((sum, r) => sum + f(r.result), 0)] *)
Definition sumOver (f : Result.t num -> num) (results : list (nat * Result.t num)) : num :=
  fold_left (fun sum r => (sum + f (snd r))%js) results (lit 0).

Definition ofLength (n : nat) : num := lit (inject_Z (Z.of_nat n)).

(** the handler once the body has passed the schema: the loop, the
    aggregate and the JSON of the response *)
Definition calculateBatch (env : nat -> Env) (db : nat -> FactorProvider num)
    (batchRequest : request num) : body num :=
  let '(results, errors) := processFrom env db 0 (calculations batchRequest) [] [] in
  let aggregate :=
    if match batchOptions batchRequest with
       | Some o => truthyB (aggregateResults o)
       | None => false
       end && (0 <? length results)%nat
    then
      Some (mkAggregate
              (sumOver (fun r => Result.total (Result.Emissions r)) results)
              (sumOver (fun r => Result.emissionIntensity (Result.Metrics r)) results
                 / ofLength (length results))%js
              (sumOver (fun r =>
                 orElse (ActivityData.distance (Result.activityData (Result.Input r)))
                   (lit 0)) results)
              (sumOver (fun r =>
                 orElse (ActivityData.weight (Result.activityData (Result.Input r)))
                   (lit 0)) results)
              (length results))
    else None in
  mkBody true (map snd results) aggregate
    (if (0 <? length errors)%nat then Some errors else None)
    (mkSummary (length (calculations batchRequest)) (length results) (length errors)).

Definition handler (env : nat -> Env) (db : nat -> FactorProvider num)
    (batchRequest : request num) : response num :=
  if negb (schema batchRequest) then Status400
  else Status200 (calculateBatch env db batchRequest).

End Handler.
End BatchRoute.

(** ** The specified quantities

    What the specification says of the results, written from its words;
    the theorems below compare them with the code. *)

Section Specified.
Context {num : Type} {N : JsNumber num}.

(** the mass of a gas, an absent gas counting for nothing *)
Definition massOrZero (mass : option num) : num :=
  match mass with
  | Some m => m
  | None => lit 0
  end.

(** The road formula: the base emissions by the unit of the factor,
    divided by the load factor floored at 0.1, times 1.5 on an empty
    return.  [present] says when the weight counts as present. *)
Definition roadCO2 (present : option num -> bool)
    (data : ActivityData.t num) (factor : EmissionFactor.t num) : num :=
  let distance := the (ActivityData.distance data) in
  let co2Factor := EmissionFactor.co2Factor factor in
  let base :=
    if String.eqb (EmissionFactor.unit factor) "km" then (distance * co2Factor)%js
    else if String.eqb (EmissionFactor.unit factor) "tkm" && present (ActivityData.weight data)
    then (distance * the (ActivityData.weight data) * co2Factor)%js
    else (distance * co2Factor)%js in
  let adjusted := (base / Math_max (the (ActivityData.loadFactor data)) (lit 0.1))%js in
  if truthyB (ActivityData.emptyReturn data) then (adjusted * lit 1.5)%js else adjusted.

(** The tonne-kilometres of an activity and the base emissions they
    give with a factor. *)
Definition tonneKm (data : ActivityData.t num) : num :=
  (the (ActivityData.distance data) * the (ActivityData.weight data))%js.

Definition baseEmissions (data : ActivityData.t num) (factor : EmissionFactor.t num) : num :=
  (tonneKm data * EmissionFactor.co2Factor factor)%js.

(** The point system of the confidence label.  [present] says when a
    number counts as present, [hasRegion] when the factor has a region. *)
Definition points (b : bool) (n : nat) : nat := if b then n else 0%nat.

Definition pointScore (present : option num -> bool) (hasRegion : option string -> bool)
    (data : ActivityData.t num) (factor : EmissionFactor.t num) : nat :=
  (points (present (ActivityData.weight data)) 2
   + points (present (ActivityData.distance data)) 2
   + points (present (ActivityData.fuelConsumed data)) 2
   + points (present (ActivityData.loadFactor data)) 1
   + points (Scope_eqb (EmissionFactor.scope factor) wtw) 1
   + points (hasRegion (EmissionFactor.region factor)) 1)%nat.

Definition labelOf (score : nat) : Confidence :=
  if (7 <=? score)%nat then high
  else if (4 <=? score)%nat then medium
  else low.

(** The default load factor of a mode; on the road, by vehicle type. *)
Definition defaultLoadFactor (mode : TransportMode) (vehicleType : string) : num :=
  match mode with
  | road =>
    let type := toLowerCase vehicleType in
    if String.eqb type "truck" then lit 0.7
    else if String.eqb type "van" then lit 0.6
    else if String.eqb type "car" then lit 1.0
    else if String.eqb type "motorcycle" then lit 1.0
    else if String.eqb type "heavy_truck" then lit 0.75
    else if String.eqb type "light_truck" then lit 0.65
    else lit 0.7
  | rail => lit 0.8
  | sea => lit 0.85
  | air => lit 0.8
  end.

(** The factor store gives no factor: the call failed, it reported an
    error, or it returned no row. *)
Definition noFactor (response : DbResponse num) : bool :=
  match response with
  | Resolved (Some (_ :: _)) None => false
  | _ => true
  end.

(** The outcome of every item of a batch, with its index: item [i] is
    calculated on its own, by the calculator of its mode. *)
Definition outcomes (env : nat -> Env) (db : nat -> FactorProvider num) (first : nat)
    (calculations : list (CalculationRequest.t num))
  : list (nat * Completion (Result.t num)) :=
  map (fun ir : nat * CalculationRequest.t num =>
         (fst ir,
          EmissionCalculator.calculate
            (CalculatorFactory.getCalculator
               (ActivityData.transportMode (CalculationRequest.activityData (snd ir))))
            (env (fst ir)) (db (fst ir)) (snd ir)))
      (combine (seq first (length calculations)) calculations).

Definition successes (l : list (nat * Completion (Result.t num))) : list (nat * Result.t num) :=
  flat_map (fun io => match snd io with
                      | Returned r => [(fst io, r)]
                      | Threw _ => []
                      end) l.

Definition failures (l : list (nat * Completion (Result.t num))) : list (nat * string) :=
  flat_map (fun io => match snd io with
                      | Returned _ => []
                      | Threw message => [(fst io, message)]
                      end) l.

(** a string occurs within another *)
Definition occursIn (part whole : string) : Prop :=
  exists before after : string, whole = (before ++ part ++ after)%string.


(** what [calculate] returns when it returns *)
Definition resultOf (this : EmissionCalculator.t num) (env : Env) (db : FactorProvider num)
    (request : CalculationRequest.t num) : Result.t num :=
  let data := CalculationRequest.activityData request in
  let factor := EmissionCalculator.getEmissionFactor this env db data in
  let normalized := EmissionCalculator.normalizeActivityData this data in
  EmissionCalculator.buildResult this env normalized factor
    (EmissionCalculator.calculateEmissions this normalized factor
       (CalculationRequest.options request))
    request.

End Specified.

(** ** Inputs of the examples *)

Section Examples.
Context {num : Type} {N : JsNumber num}.

Definition vehicleOf (type fuelType : string) : VehicleCategory.t num :=
  VehicleCategory.mk type None None fuelType.

(** an activity with the given mode, vehicle, distance, weight, load
    factor, empty-return flag and fuel consumption, and nothing else *)
Definition activity (mode : TransportMode) (v : VehicleCategory.t num)
    (distance weight loadFactor : option num) (emptyReturn : option bool)
    (fuelConsumed : option num) : ActivityData.t num :=
  ActivityData.mk mode v distance weight None loadFactor emptyReturn None None None
    fuelConsumed None.

Definition requestOf (data : ActivityData.t num) : CalculationRequest.t num :=
  CalculationRequest.mk data None.

(** a factor store that cannot be reached *)
Definition unreachable : FactorProvider num := fun _ => Rejected.

(** a factor store holding one road factor per tonne-kilometre, with
    methane and nitrous oxide factors *)
Definition tkmRow : FactorRow.t num :=
  FactorRow.mk "f-1" "truck" "diesel" (lit 0.05) (Some (lit 0.001)) (Some (lit 0.0001))
    "tkm" "GLEC" "3.1" (Some "EU"%string) 1700000000000.

Definition tkmStore : FactorProvider num := fun _ => Resolved (Some [tkmRow]) None.

Definition env0 : Env := mkEnv 1700000000000 "loyw3v28" "0.4fzyo82mvyr".

Definition run (db : FactorProvider num) (data : ActivityData.t num)
  : Completion (Result.t num) :=
  EmissionCalculator.calculate
    (CalculatorFactory.getCalculator (ActivityData.transportMode data)) env0 db
    (requestOf data).

(** road: a truck carrying nothing for 100 km at half load *)
Definition emptyTruck : ActivityData.t num :=
  activity road (vehicleOf "truck" "diesel") (Some (lit 100)) (Some (lit 0))
    (Some (lit 0.5)) None None.

(** road: a truck carrying 10 t for 100 km at half load, returning empty *)
Definition loadedTruck : ActivityData.t num :=
  activity road (vehicleOf "truck" "diesel") (Some (lit 100)) (Some (lit 10))
    (Some (lit 0.5)) (Some true) None.

(** road: a car over 100 km, nothing else given *)
Definition carTrip : ActivityData.t num :=
  activity road (vehicleOf "car" "petrol") (Some (lit 100)) None None None None.

(** road: a truck carrying nothing for 100 km at half load, 5 l consumed *)
Definition meteredTruck : ActivityData.t num :=
  activity road (vehicleOf "truck" "diesel") (Some (lit 100)) (Some (lit 0))
    (Some (lit 0.5)) None (Some (lit 5)).

(** road: neither a distance nor a vehicle type *)
Definition blankTrip : ActivityData.t num :=
  activity road (vehicleOf "" "diesel") None None None None None.

(** rail: 50 t over 300 km (scenario B of the specification) *)
Definition railScenario : ActivityData.t num :=
  activity rail (vehicleOf "freight_train" "electric") (Some (lit 300)) (Some (lit 50))
    None None None.

(** rail: 2 t over 300 km *)
Definition lightTrain : ActivityData.t num :=
  activity rail (vehicleOf "freight_train" "electric") (Some (lit 300)) (Some (lit 2))
    None None None.

(** rail: 50 t over 300 km, returning empty *)
Definition returningTrain : ActivityData.t num :=
  activity rail (vehicleOf "freight_train" "electric") (Some (lit 300)) (Some (lit 50))
    None (Some true) None.

(** rail: no weight *)
Definition unweighedTrain : ActivityData.t num :=
  activity rail (vehicleOf "freight_train" "electric") (Some (lit 300)) None
    None None None.

(** road: a truck carrying 10 t for 100 km, with a load factor of zero *)
Definition unladenTruck : ActivityData.t num :=
  activity road (vehicleOf "truck" "diesel") (Some (lit 100)) (Some (lit 10))
    (Some (lit 0)) None None.

(** road: a diesel truck carrying 25 t over 500 km (scenario A) *)
Definition roadScenario : ActivityData.t num :=
  activity road (vehicleOf "truck" "diesel") (Some (lit 500)) (Some (lit 25))
    None None None.

(** air: 5 t over 2000 km (scenario C) *)
Definition airScenario : ActivityData.t num :=
  activity air (vehicleOf "cargo_plane" "jet_fuel") (Some (lit 2000)) (Some (lit 5))
    None None None.

(** a batch of three, the second of which fails, with the aggregate asked for *)
Definition mixedBatch : BatchRoute.request num :=
  BatchRoute.mkRequest
    [requestOf railScenario; requestOf unweighedTrain; requestOf loadedTruck]
    (Some (BatchRoute.mkOptions (Some true) None)).

End Examples.

(** the response to [mixedBatch] in exact arithmetic, the factor store
    being unreachable *)
Definition mixedBatchResponse : BatchRoute.body Q :=
  BatchRoute.calculateBatch (fun _ => env0) (fun _ => unreachable) mixedBatch.

(** * Further code and specified quantities *)

From Stdlib Require Import Qround.
From Stdlib Require FloatOps SpecFloat.

Section Variations.
Context {num : Type} {N : JsNumber num}.

(** [{ ...data, emptyReturn: b }] *)
Definition withEmptyReturn (data : ActivityData.t num) (b : option bool) : ActivityData.t num :=
  ActivityData.mk (ActivityData.transportMode data) (ActivityData.vehicle data)
    (ActivityData.distance data) (ActivityData.weight data) (ActivityData.volume data)
    (ActivityData.loadFactor data) b (ActivityData.origin data)
    (ActivityData.destination data) (ActivityData.routeType data)
    (ActivityData.fuelConsumed data) (ActivityData.energyUnit data).

(** [{ ...request, activityData: data }] *)
Definition withActivity (request : CalculationRequest.t num) (data : ActivityData.t num)
  : CalculationRequest.t num :=
  CalculationRequest.mk data (CalculationRequest.options request).

(** the fixed direct and indirect ratios of the rail, sea and air
    calculators *)
Definition fixedRatios (mode : TransportMode) : num * num :=
  match mode with
  | rail => (lit 0.1, lit 0.9)
  | sea => (lit 0.72, lit 0.28)
  | air => (lit 0.75, lit 0.25)
  | road => (lit 0.74, lit 0.26)
  end.

(** tonne-kilometres times the factor, for air times the index of 1.9,
    divided by the load factor *)
Definition tonneKmCO2 (mode : TransportMode) (distance weight co2Factor loadFactor : num) : num :=
  match mode with
  | air => (distance * weight * co2Factor * lit 1.9 / loadFactor)%js
  | _ => (distance * weight * co2Factor / loadFactor)%js
  end.

End Variations.

(** ** What validation accepts *)

(** a road activity the calculator accepts: a positive distance, a
    vehicle type and a fuel type, no negative weight and a load factor
    within 0 and 1, when given *)
Definition roadAccepts (data : ActivityData.t Q) : Prop :=
  (exists d : Q, ActivityData.distance data = Some d /\ 0 < d)
  /\ VehicleCategory.type (ActivityData.vehicle data) <> ""%string
  /\ VehicleCategory.fuelType (ActivityData.vehicle data) <> ""%string
  /\ (forall w : Q, ActivityData.weight data = Some w -> 0 <= w)
  /\ (forall l : Q, ActivityData.loadFactor data = Some l -> 0 <= l <= 1).

(** a rail, sea or air activity the calculator accepts: a positive
    distance and a positive weight *)
Definition tonneKmAccepts (data : ActivityData.t Q) : Prop :=
  (exists d : Q, ActivityData.distance data = Some d /\ 0 < d)
  /\ (exists w : Q, ActivityData.weight data = Some w /\ 0 < w).

(** the message thrown for a rail, sea or air activity without weight *)
Definition weightRequired (mode : TransportMode) : string :=
  ("Validation failed: Weight (cargo tonnage) must be provided for "
     ++ modeString mode ++ " transport")%string.

(** the emissions per tonne-kilometre the formula of a mode gives: the
    factor, for air times the index of 1.9, over the load factor *)
Definition intensityOf (mode : TransportMode) (co2Factor loadFactor : Q) : Q :=
  match mode with
  | air => co2Factor * 1.9 / loadFactor
  | _ => co2Factor / loadFactor
  end.

(** the vehicle types the road calculator maps to another name *)
Definition vehicleAliases : list string :=
  [ "lorry"; "automobile"; "motorbike"; "heavy_goods_vehicle"; "hgv";
    "light_goods_vehicle"; "lgv" ]%string.

(** the names it maps them to *)
Definition canonicalVehicleTypes : list string :=
  [ "truck"; "van"; "car"; "motorcycle"; "heavy_truck"; "light_truck" ]%string.

Section MoreExamples.
Context {num : Type} {N : JsNumber num}.

(** road: a heavy goods vehicle under its abbreviation, 100 km, nothing
    else given *)
Definition hgvTrip : ActivityData.t num :=
  activity road (vehicleOf "HGV" "diesel") (Some (lit 100)) None None None None.

(** rail: 3 t over 7 km *)
Definition shortTrain : ActivityData.t num :=
  activity rail (vehicleOf "freight_train" "electric") (Some (lit 7)) (Some (lit 3))
    None None None.

(** a store of three road factors, the second the most recent, the
    third as recent as the second *)
Definition olderRow : FactorRow.t num :=
  FactorRow.mk "f-old" "truck" "diesel" (lit 0.09) None None "km" "GLEC" "3.0" None
    1600000000000.

Definition newerRow : FactorRow.t num :=
  FactorRow.mk "f-new" "truck" "diesel" (lit 0.08) None None "km" "GLEC" "3.1" None
    1700000000000.

Definition tiedRow : FactorRow.t num :=
  FactorRow.mk "f-tie" "truck" "diesel" (lit 0.07) None None "km" "GLEC" "3.1" None
    1700000000000.

Definition threeRows : FactorProvider num :=
  fun _ => Resolved (Some [olderRow; newerRow; tiedRow]) None.

End MoreExamples.


(** the select the road calculator sends for an activity *)
Definition roadQuery {num : Type} (data : ActivityData.t num) : Query :=
  mkQuery "road"
    (Some (toLowerCase (VehicleCategory.type (ActivityData.vehicle data))))
    (Some (toLowerCase (VehicleCategory.fuelType (ActivityData.vehicle data)))).

(** ** Authentication (middleware/auth)

    The middlewares read the headers of the request and set [req.user]
    and [req.apiKey]; they either answer themselves or call [next].
    The boundary is the identity service, [supabase.auth.getUser], and
    the select on [api_keys] by key and activity, ended by
    [.single()]. *)

Module Auth.

(** [req.user] *)
Module User.
Record t : Type := mk {
  id : string;
  email : option string;
  role : option string
}.
End User.

(** [req.apiKey] *)
Module ApiKey.
Record t : Type := mk {
  id : string;
  userId : string;
  keyName : string
}.
End ApiKey.

Record Headers : Type := mkHeaders {
  authorization : option string;
  x_api_key : option string
}.

(** [AuthenticatedRequest], as far as the middlewares read and write it *)
Record Request : Type := mkRequest {
  headers : Headers;
  user : option User.t;
  apiKey : option ApiKey.t
}.

(** the user of the identity service; [user_metadata_role] is
    [user.user_metadata?.role] *)
Module SupabaseUser.
Record t : Type := mk {
  id : string;
  email : option string;
  user_metadata_role : option string
}.
End SupabaseUser.

(** awaiting [getUser(token)]: the call rejects, or resolves to
    [{ data: { user }, error }] *)
Inductive GetUserResponse : Type :=
| GetUserRejected
| GetUserResolved (user : option SupabaseUser.t) (error : option string).

Definition IdentityService : Type := string -> GetUserResponse.

(** a row of [api_keys] with its joined profile; [user_profiles] is
    absent when the join finds none *)
Module KeyRow.
Record t : Type := mk {
  id : string;
  user_id : string;
  key_name : string;
  user_profiles : option (option string)
}.
End KeyRow.

Inductive KeyResponse : Type :=
| KeyRejected
| KeyResolved (data : option KeyRow.t) (error : option string).

(** the select by [key_hash] *)
Definition KeyStore : Type := string -> KeyResponse.

(** what a middleware does: it answers with a status and an error, or
    it calls [next] with the request as it has left it *)
Inductive Outcome : Type :=
| Respond (status : nat) (error : string)
| Next (req : Request).

Definition verifyJWT (identity : IdentityService) (req : Request) : Outcome :=
  match authorization (headers req) with
  | None => Respond 401 "Access token required"
  | Some authHeader =>
    if negb (truthyS authHeader) || negb (String.prefix "Bearer " authHeader) then
      Respond 401 "Access token required"
    else
      let token := String.substring 7 (String.length authHeader - 7) authHeader in
      match identity token with
      | GetUserRejected => Respond 401 "Token verification failed"
      | GetUserResolved user error =>
        match error, user with
        | None, Some user =>
          Next (mkRequest (headers req)
                  (Some (User.mk (SupabaseUser.id user) (SupabaseUser.email user)
                           (Some (if truthyOS (SupabaseUser.user_metadata_role user)
                                  then match SupabaseUser.user_metadata_role user with
                                       | Some role => role
                                       | None => "user"%string
                                       end
                                  else "user"%string))))
                  (apiKey req))
        | _, _ => Respond 401 "Invalid or expired token"
        end
      end
  end.

Definition verifyAPIKey (keys : KeyStore) (req : Request) : Outcome :=
  match x_api_key (headers req) with
  | None => Respond 401 "API key required"
  | Some key =>
    if negb (truthyS key) then Respond 401 "API key required"
    else if negb (String.prefix "glec_" key) then Respond 401 "Invalid API key format"
    else
      match keys key with
      | KeyRejected => Respond 401 "API key verification failed"
      | KeyResolved keyData error =>
        match error, keyData with
        | None, Some keyData =>
          match KeyRow.user_profiles keyData with
          | Some email =>
            Next (mkRequest (headers req)
                    (Some (User.mk (KeyRow.user_id keyData) email (Some "api_user"%string)))
                    (Some (ApiKey.mk (KeyRow.id keyData) (KeyRow.user_id keyData)
                             (KeyRow.key_name keyData))))
          | None =>
            (* reading [email] of no profile throws, caught below *)
            Respond 401 "API key verification failed"
          end
        | _, _ => Respond 401 "Invalid API key"
        end
      end
  end.

Definition requireRole (roles : list string) (req : Request) : Outcome :=
  match user req with
  | None => Respond 401 "Authentication required"
  | Some u =>
    if negb match User.role u with
            | Some role => existsb (String.eqb role) roles
            | None => false
            end
    then Respond 403 "Insufficient permissions"
    else Next req
  end.

(** [trackAPIUsage] writes a row to the usage log when there is a user
    and calls [next] whether or not the write succeeds *)
Definition trackAPIUsage (req : Request) : Outcome := Next req.

(** the first middleware of the calculation routes: a token when there
    is an authorization header, else a key when there is one *)
Definition authenticate (required : string) (identity : IdentityService) (keys : KeyStore)
    (req : Request) : Outcome :=
  if truthyOS (authorization (headers req)) then verifyJWT identity req
  else if truthyOS (x_api_key (headers req)) then verifyAPIKey keys req
  else Respond 401 required.

(** the key the route [/api-keys] makes of 32 random bytes in
    hexadecimal, which it stores as [key_hash] and returns *)
Definition keyValue (randomHex : string) : string := ("glec_" ++ randomHex)%string.

End Auth.

(** ** The [/calculate] route *)

(** [s.includes(part)] *)
Fixpoint includes (s part : string) : bool :=
  String.prefix part s
  || match s with
     | EmptyString => false
     | String _ rest => includes rest part
     end.

Module CalculateRoute.

(** awaiting [storeCalculationResult]: it throws, an [Error] with a
    message or something else, or resolves to [{ error }] *)
Inductive StoreResponse : Type :=
| StoreThrew (message : option string)
| StoreResolved (error : option string).

Record json {num : Type} : Type := mkJson {
  success : bool;
  calculationId : string;
  result : Result.t num;
  glecVersion : string;
  calculatedAt : Z
}.
Arguments json : clear implicits.
Arguments mkJson {num}.

Inductive response {num : Type} : Type :=
| Status401 (error : string)
| Status400 (error : string) (message : option string)
| Status500 (error : string)
| Status200 (body : json num).
Arguments response : clear implicits.

Section Handler.
Context {num : Type} {N : JsNumber num}.

(** [Math.round] and [Math.pow] *)
Variable Math_round : num -> num.
Variable Math_pow : num -> num -> num.

(** the insert into the history of a user *)
Definition ResultStore : Type := string -> Result.t num -> StoreResponse.

(** the [round] of [roundEmissions] *)
Definition round (precision : num) (x : num) : num :=
  (Math_round (x * Math_pow (lit 10) precision) / Math_pow (lit 10) precision)%js.

Definition roundEmissions (result : Result.t num) (precision : num) : Result.t num :=
  Result.mk (Result.Input result)
    (Result.mkEmissions
       (round precision (Result.co2 (Result.Emissions result)))
       (if truthy (Result.ch4 (Result.Emissions result))
        then Some (round precision (the (Result.ch4 (Result.Emissions result)))) else None)
       (if truthy (Result.n2o (Result.Emissions result))
        then Some (round precision (the (Result.n2o (Result.Emissions result)))) else None)
       (round precision (Result.total (Result.Emissions result))))
    (Result.mkBreakdown
       (round precision (Result.directEmissions (Result.Breakdown result)))
       (round precision (Result.indirectEmissions (Result.Breakdown result)))
       (Result.fuelProduction (Result.Breakdown result))
       (Result.fuelTransport (Result.Breakdown result)))
    (Result.mkMetrics
       (round precision (Result.emissionIntensity (Result.Metrics result)))
       (Result.fuelEfficiency (Result.Metrics result))
       (Result.loadUtilization (Result.Metrics result)))
    (Result.Metadata result).

(** what the [catch] of the handler answers to a thrown value *)
Definition caught (message : option string) : response num :=
  match message with
  | Some m =>
    if includes m "Validation failed"
    then Status400 "Validation Error" (Some m)
    else Status500 "Calculation Error"
  | None => Status500 "Calculation Error"
  end.

(** the handler, after the middlewares *)
Definition handler (env : Env) (db : FactorProvider num) (store : ResultStore)
    (req : Auth.Request) (request : CalculationRequest.t num) : response num :=
  if negb (BatchRoute.calculationRequestSchema request) then
    Status400 "Invalid input data" None
  else
    let calculator :=
      CalculatorFactory.getCalculator
        (ActivityData.transportMode (CalculationRequest.activityData request)) in
    match EmissionCalculator.calculate calculator env db request with
    | Threw message => caught (Some message)
    | Returned result =>
      match Auth.user req with
      | None =>
        (* reading [id] of no user throws a TypeError *)
        caught (Some "Cannot read properties of undefined (reading 'id')"%string)
      | Some user =>
        match store (Auth.User.id user) result with
        | StoreThrew message => caught message
        | StoreResolved _ =>
          let precision :=
            match CalculationRequest.options request with
            | Some o =>
              match CalculationOptions.roundingPrecision o with
              | Some p => p
              | None => lit 2
              end
            | None => lit 2
            end in
          Status200
            (mkJson true (Result.calculationId (Result.Metadata result))
               (roundEmissions result precision)
               (Result.glecVersion (Result.Metadata result))
               (Result.calculatedAt (Result.Metadata result)))
        end
      end
    end.

(** the route: authentication, usage tracking, handler *)
Definition route (identity : Auth.IdentityService) (keys : Auth.KeyStore)
    (env : Env) (db : FactorProvider num) (store : ResultStore)
    (req : Auth.Request) (request : CalculationRequest.t num) : response num :=
  match Auth.authenticate
          "Authentication required. Provide either JWT token or API key."
          identity keys req with
  | Auth.Respond _ error => Status401 error
  | Auth.Next req =>
    match Auth.trackAPIUsage req with
    | Auth.Respond _ error => Status401 error
    | Auth.Next req => handler env db store req request
    end
  end.

End Handler.
End CalculateRoute.

(** rounding to the nearest integer, halves upwards, and the powers of
    ten with a natural exponent, in exact arithmetic *)
Definition roundHalfUp (x : Q) : Q := inject_Z (Qfloor (x + (1 # 2))).

Definition powerOfTen (n : nat) : Q := inject_Z (10 ^ Z.of_nat n).

(** [Math.round] on a double: a number that is not finite or is whole
    is returned as it is; any other is the rational [m / 2^k], of which
    the whole number nearest to it is taken, the one above when two are
    as near; a result of zero keeps the sign of the number. *)
Definition Math_round_binary64 (x : PrimFloat.float) : PrimFloat.float :=
  match FloatOps.Prim2SF x with
  | SpecFloat.S754_finite s m e =>
    if (0 <=? e)%Z then x
    else
      let q := (if s then Zneg m else Zpos m) # Pos.pow 2 (Z.to_pos (- e)) in
      let n := Qfloor (q + (1 # 2)) in
      if (n =? 0)%Z then (if s then PrimFloat.neg_zero else PrimFloat.zero)
      else F64.of_Z n
  | _ => x
  end.

(** the precision the [/calculate] route rounds to: the one asked for,
    zero included, or else 2 *)
Definition precisionOf {num : Type} {N : JsNumber num} (request : CalculationRequest.t num)
  : num :=
  match CalculationRequest.options request with
  | Some o =>
    match CalculationOptions.roundingPrecision o with
    | Some p => p
    | None => lit 2
    end
  | None => lit 2
  end.

(** a store of results that takes every write *)
Definition writable {num : Type} : string -> Result.t num -> CalculateRoute.StoreResponse :=
  fun _ _ => CalculateRoute.StoreResolved None.

(** a request carrying the user [u1] *)
Definition authenticated : Auth.Request :=
  Auth.mkRequest (Auth.mkHeaders (Some "Bearer t0"%string) None)
    (Some (Auth.User.mk "u1" None (Some "user"%string))) None.

(** [a] lies within [h] of [b], the upper end included *)
Definition within (h a b : Q) : Prop := b - h < a /\ a <= b + h.

(** ** The calculators the factory keeps

    [CalculatorFactory.calculators] is a static [Map] from mode to
    calculator, filled on first use.  Here the map is passed along: a
    call returns what [get] gives and the map as it leaves it. *)

Module FactoryMap.
Section Memo.
Context {num : Type} {N : JsNumber num}.

(** a [Map<TransportMode, EmissionCalculator>]: its entries in the
    order of insertion *)
Definition Map : Type := list (TransportMode * EmissionCalculator.t num).

Fixpoint get (m : Map) (mode : TransportMode) : option (EmissionCalculator.t num) :=
  match m with
  | [] => None
  | (k, v) :: rest => if TransportMode_eqb k mode then Some v else get rest mode
  end.

Definition has (m : Map) (mode : TransportMode) : bool := isSome (get m mode).

Fixpoint set (m : Map) (mode : TransportMode) (v : EmissionCalculator.t num) : Map :=
  match m with
  | [] => [(mode, v)]
  | (k, w) :: rest =>
    if TransportMode_eqb k mode then (k, v) :: rest else (k, w) :: set rest mode v
  end.

(** [new Map()] *)
Definition calculators : Map := [].

(** [getCalculator]; the calculator is absent should [get] find none *)
Definition getCalculator (calculators : Map) (mode : TransportMode)
  : option (EmissionCalculator.t num) * Map :=
  let calculators :=
    if negb (has calculators mode)
    then set calculators mode (CalculatorFactory.createCalculator mode)
    else calculators in
  (get calculators mode, calculators).

(** calls one after the other *)
Fixpoint getCalculators (calculators : Map) (modes : list TransportMode)
  : list (option (EmissionCalculator.t num)) * Map :=
  match modes with
  | [] => ([], calculators)
  | mode :: rest =>
    let '(calculator, calculators) := getCalculator calculators mode in
    let '(others, calculators) := getCalculators calculators rest in
    (calculator :: others, calculators)
  end.

End Memo.
End FactoryMap.

(** what the map holds under a mode is the calculator of the mode, and
    no mode is held twice *)
Definition factoryInvariant {num : Type} {N : JsNumber num}
    (m : FactoryMap.Map (num := num)) : Prop :=
  NoDup (map fst m)
  /\ forall (k : TransportMode) (v : EmissionCalculator.t num),
       In (k, v) m -> v = CalculatorFactory.createCalculator k.

(** the batch asks for the aggregate: [options?.aggregateResults] is
    true *)
Definition aggregateRequested {num : Type} (batchRequest : BatchRoute.request num) : bool :=
  match BatchRoute.batchOptions batchRequest with
  | Some o => truthyB (BatchRoute.aggregateResults o)
  | None => false
  end.
(** * Theorems *)

(** the methods of the four calculators, unfolded together *)
Ltac unfold_normalize :=
  unfold RoadTransportCalculator.normalizeActivityData,
    RailTransportCalculator.normalizeActivityData,
    SeaTransportCalculator.normalizeActivityData,
    AirTransportCalculator.normalizeActivityData.

Ltac unfold_getEmissionFactor :=
  unfold RoadTransportCalculator.getEmissionFactor,
    RailTransportCalculator.getEmissionFactor,
    SeaTransportCalculator.getEmissionFactor,
    AirTransportCalculator.getEmissionFactor, firstRow.

(** case analysis on the keys of a table and on the tests of a method *)
Ltac case_keys :=
  repeat match goal with
         | |- context [String.eqb ?s ?k] => destruct (String.eqb s k)
         end.

Ltac case_tests :=
  repeat match goal with
         | |- context [if ?c then _ else _] => destruct c
         end.

(** a concrete run: the result is the one computed, and what is said of
    it is checked by evaluation *)
Ltac by_evaluation :=
  eexists; split; [reflexivity |]; repeat split; vm_compute; reflexivity.

(** ** The template method *)

Section Template.
Context {num : Type} {N : JsNumber num}.

Lemma calculate_valid this env db request :
  EmissionCalculator.validateInput this (CalculationRequest.activityData request) = [] ->
  EmissionCalculator.calculate this env db request = Returned (resultOf this env db request).
Proof.
  intro H. unfold EmissionCalculator.calculate. rewrite H. reflexivity.
Qed.

Lemma calculate_invalid this env db request :
  EmissionCalculator.validateInput this (CalculationRequest.activityData request) <> [] ->
  EmissionCalculator.calculate this env db request =
  Threw ("Validation failed: "
           ++ join ", " (map CalculationError.message
                           (EmissionCalculator.validateInput this
                              (CalculationRequest.activityData request))))%string.
Proof.
  intro H. unfold EmissionCalculator.calculate.
  destruct (EmissionCalculator.validateInput this (CalculationRequest.activityData request));
    [contradiction | reflexivity].
Qed.

Lemma calculate_returned this env db request r :
  EmissionCalculator.calculate this env db request = Returned r ->
  EmissionCalculator.validateInput this (CalculationRequest.activityData request) = []
  /\ r = resultOf this env db request.
Proof.
  unfold EmissionCalculator.calculate.
  destruct (EmissionCalculator.validateInput this (CalculationRequest.activityData request));
    simpl; intro H; [injection H as <-; split; reflexivity | discriminate].
Qed.

(** ** Truthiness *)

Lemma truthy_Some (x : option num) :
  truthy x = true -> exists v : num, x = Some v /\ ToBoolean v = true.
Proof.
  destruct x as [v |]; simpl; intro H; [now exists v | discriminate].
Qed.

Lemma orElse_truthy (x : option num) (d : num) :
  truthy x = true -> Some (orElse x d) = x.
Proof.
  intro H. apply truthy_Some in H. destruct H as (v & -> & H).
  unfold orElse. now rewrite H.
Qed.

(** a default put in place of a falsy value is what [||] gives again *)
Lemma orElse_idempotent (x : option num) (d : num) :
  orElse (Some (orElse x d)) d = orElse x d.
Proof.
  unfold orElse. destruct x as [v |].
  - destruct (ToBoolean v) eqn:E.
    + now rewrite E.
    + now destruct (ToBoolean d).
  - now destruct (ToBoolean d).
Qed.

(** ** Validation *)

(** A road request that passes validation has a distance that is a
    number other than zero, a vehicle type and a fuel type. *)
Lemma road_valid (data : ActivityData.t num) :
  RoadTransportCalculator.validateInput data = [] ->
  truthy (ActivityData.distance data) = true
  /\ truthyS (VehicleCategory.type (ActivityData.vehicle data)) = true
  /\ truthyS (VehicleCategory.fuelType (ActivityData.vehicle data)) = true.
Proof.
  unfold RoadTransportCalculator.validateInput, push.
  destruct (truthy (ActivityData.distance data));
    destruct (truthyS (VehicleCategory.type (ActivityData.vehicle data)));
    destruct (truthyS (VehicleCategory.fuelType (ActivityData.vehicle data)));
    simpl;
    case_tests; simpl; intro H; try discriminate; repeat split.
Qed.

(** A rail, sea or air request that passes validation has a distance
    and a weight that are numbers other than zero. *)
Lemma tonneKm_valid (mode : TransportMode) (data : ActivityData.t num) :
  mode <> road ->
  EmissionCalculator.validateInput (CalculatorFactory.getCalculator mode) data = [] ->
  truthy (ActivityData.distance data) = true /\ truthy (ActivityData.weight data) = true.
Proof.
  intro Hmode.
  destruct mode; [contradiction | | |]; simpl;
    unfold RailTransportCalculator.validateInput, SeaTransportCalculator.validateInput,
      AirTransportCalculator.validateInput, push;
    destruct (truthy (ActivityData.distance data));
    destruct (truthy (ActivityData.weight data));
    simpl;
    case_tests; simpl; intro H; try discriminate; split; reflexivity.
Qed.

(** ** C1: the road formula *)

(** the load factor the road calculator divides by is the one it has
    put in the normalised data *)
Lemma road_normalized_loadFactor (data : ActivityData.t num) :
  ActivityData.loadFactor (RoadTransportCalculator.normalizeActivityData data)
  = Some (orElse (ActivityData.loadFactor (RoadTransportCalculator.normalizeActivityData data))
            (lit 0.7)).
Proof.
  unfold RoadTransportCalculator.normalizeActivityData,
    RoadTransportCalculator.getDefaultLoadFactor.
  destruct (truthy (ActivityData.loadFactor data)) eqn:T; cbn [negb];
    unfold ActivityData.with_vehicle, ActivityData.with_loadFactor;
    cbn [ActivityData.loadFactor].
  - now rewrite orElse_truthy.
  - now rewrite orElse_idempotent.
Qed.

(** C1, amended: a road calculation has a distance, and its CO2 mass is
    the road formula over the request and the resolved factor: distance
    × co2Factor for a factor per km, distance × weight × co2Factor for
    a factor per tkm when the weight is given and not zero, distance ×
    co2Factor otherwise; divided by the larger of the load factor and
    0.1; times 1.5 exactly when emptyReturn is true.  Distance, weight
    and emptyReturn are those of the request; the load factor is the one
    of the request when it is given and not zero, and the default of the
    vehicle type when the request gives none and the type in lower case
    is no member name of [Object.prototype]. *)
Theorem road_co2_formula (env : Env) (db : FactorProvider num)
    (request : CalculationRequest.t num) (r : Result.t num) :
  EmissionCalculator.calculate (CalculatorFactory.getCalculator road) env db request
  = Returned r ->
  let data := CalculationRequest.activityData request in
  let factor := Result.emissionFactor (Result.Input r) in
  (exists distance : num, ActivityData.distance data = Some distance)
  /\ (forall loadFactor : num,
        ActivityData.loadFactor data = Some loadFactor ->
        ToBoolean loadFactor = true ->
        Result.co2 (Result.Emissions r) = roadCO2 truthy data factor)
  /\ (ActivityData.loadFactor data = None ->
      inherited (toLowerCase (VehicleCategory.type (ActivityData.vehicle data))) = false ->
      Result.co2 (Result.Emissions r)
      = roadCO2 truthy
          (ActivityData.with_loadFactor data
             (Some (RoadTransportCalculator.getDefaultLoadFactor
                      (VehicleCategory.type (ActivityData.vehicle data)))))
          factor).
Proof.
  intros H data factor. subst factor.
  apply calculate_returned in H. destruct H as [Hv ->].
  apply road_valid in Hv. destruct Hv as (Hd & _).
  apply truthy_Some in Hd. destruct Hd as (d & Hd & _). fold data in Hd.
  unfold resultOf, EmissionCalculator.buildResult. fold data.
  cbn [CalculatorFactory.getCalculator CalculatorFactory.createCalculator
       RoadTransportCalculator.new
       EmissionCalculator.normalizeActivityData EmissionCalculator.calculateEmissions
       EmissionCalculator.getEmissionFactor Result.co2 Result.Emissions Result.Input
       Result.emissionFactor].
  unfold RoadTransportCalculator.calculateEmissions, roadCO2,
    RoadTransportCalculator.normalizeActivityData.
  cbn [Emissions.co2].
  split; [now exists d |]. split.
  - intros l Hl Ht. rewrite Hl. cbn [truthy negb]. rewrite Ht. cbn [negb].
    cbn [ActivityData.with_vehicle ActivityData.distance ActivityData.weight
         ActivityData.loadFactor ActivityData.emptyReturn].
    rewrite Hl. unfold orElse. rewrite Ht. reflexivity.
  - intros Hn _. rewrite Hn. cbn [truthy negb].
    cbn [ActivityData.with_vehicle ActivityData.with_loadFactor ActivityData.distance
         ActivityData.weight ActivityData.loadFactor ActivityData.emptyReturn].
    unfold RoadTransportCalculator.getDefaultLoadFactor.
    rewrite orElse_idempotent. reflexivity.
Qed.

End Template.

(** C1, counterexample: a factor per tonne-kilometre and a weight of
    zero, which is present and valid; the formula of the claim gives
    0 kg, the calculator falls back to the distance and reports 10 kg. *)
Lemma road_co2_zero_weight :
  exists r : Result.t Q,
    run tkmStore emptyTruck = Returned r
    /\ ActivityData.weight (Result.activityData (Result.Input r)) = Some 0
    /\ EmissionFactor.unit (Result.emissionFactor (Result.Input r)) = "tkm"%string
    /\ Result.co2 (Result.Emissions r) == 10
    /\ roadCO2 isSome (Result.activityData (Result.Input r))
         (Result.emissionFactor (Result.Input r)) == 0.
Proof.
  by_evaluation.
Qed.

(** C1, witness: 10 t over 100 km at 0.05 kg/tkm, half loaded, returning
    empty: 50 / 0.5 × 1.5 = 150 kg; and scenario A, which gives no load
    factor: 39.5 / 0.7 kg. *)
Lemma road_co2_formula_witness :
  (exists r : Result.t Q,
      run tkmStore loadedTruck = Returned r
      /\ Result.co2 (Result.Emissions r)
         = roadCO2 truthy loadedTruck (Result.emissionFactor (Result.Input r))
      /\ Result.co2 (Result.Emissions r) == 150)
  /\ (exists r : Result.t Q,
        run unreachable roadScenario = Returned r
        /\ Result.co2 (Result.Emissions r)
           = roadCO2 truthy (ActivityData.with_loadFactor roadScenario (Some 0.7))
               (Result.emissionFactor (Result.Input r))
        /\ Result.co2 (Result.Emissions r) * 0.7 == 39.5).
Proof.
  split.
  - eexists. split; [reflexivity |]. split; [| vm_compute; reflexivity].
    exact (proj1 (proj2 (road_co2_formula (N := Exact) env0 tkmStore (requestOf loadedTruck)
                           _ eq_refl)) 0.5 eq_refl eq_refl).
  - eexists. split; [reflexivity |]. split; [| vm_compute; reflexivity].
    exact (proj2 (proj2 (road_co2_formula (N := Exact) env0 unreachable
                           (requestOf roadScenario) _ eq_refl)) eq_refl eq_refl).
Defined.

(** ** Exact arithmetic *)

Lemma falsy_is_zero (x : Q) : ToBoolean x = false -> x == 0.
Proof.
  simpl. intro H. apply negb_false_iff in H. now apply Qeq_bool_iff.
Qed.

Lemma nonzero_is_truthy (x : Q) : ~ x == 0 -> ToBoolean x = true.
Proof.
  simpl. intro H. destruct (Qeq_bool x 0) eqn:E; [| reflexivity].
  apply Qeq_bool_iff in E. contradiction.
Qed.

(** ** C2: the breakdown *)

(** every ratio pair of the road table, and the fallback, sums to one *)
Lemma calculateWTWBreakdown_sum (total : Q) (fuelType : string) :
  fst (RoadTransportCalculator.calculateWTWBreakdown total fuelType)
  + snd (RoadTransportCalculator.calculateWTWBreakdown total fuelType) == total.
Proof.
  unfold RoadTransportCalculator.calculateWTWBreakdown,
    RoadTransportCalculator.wtwRatios, lookup.
  case_keys; simpl; ring.
Qed.

(** C2, amended: in every result of every mode the direct and the
    indirect emissions add up to the CO2 mass, in exact arithmetic. *)
Theorem breakdown_sums_to_co2_exact (mode : TransportMode) (env : Env)
    (db : FactorProvider Q) (request : CalculationRequest.t Q) (r : Result.t Q) :
  EmissionCalculator.calculate (CalculatorFactory.getCalculator mode) env db request
  = Returned r ->
  Result.directEmissions (Result.Breakdown r) + Result.indirectEmissions (Result.Breakdown r)
  == Result.co2 (Result.Emissions r).
Proof.
  intro H. apply calculate_returned in H. destruct H as [_ ->].
  destruct mode; simpl.
  - apply calculateWTWBreakdown_sum.
  - ring.
  - ring.
  - ring.
Qed.

(** C2, witness: rail, 2 t over 300 km: 2.1 + 18.9 = 21 kg. *)
Lemma breakdown_sums_to_co2_exact_witness :
  exists r : Result.t Q,
    run unreachable lightTrain = Returned r
    /\ Result.directEmissions (Result.Breakdown r)
       + Result.indirectEmissions (Result.Breakdown r)
       == Result.co2 (Result.Emissions r)
    /\ Result.co2 (Result.Emissions r) == 21.
Proof.
  eexists. split; [reflexivity |]. split.
  - apply (breakdown_sums_to_co2_exact rail env0 unreachable (requestOf lightTrain)).
    reflexivity.
  - vm_compute. reflexivity.
Defined.

Section DoublePrecision.
Import PrimFloat.
Local Open Scope float_scope.
Local Set Warnings "-inexact-float".

(** the literals of the engine, converted by [F64.lit], are the doubles
    the parser gives them *)
Lemma literals_binary64 :
  lit 0.7%Q = 0.7 /\ lit 0.6%Q = 0.6 /\ lit 1.0%Q = 1.0 /\ lit 0.75%Q = 0.75
  /\ lit 0.65%Q = 0.65 /\ lit 0.8%Q = 0.8 /\ lit 0.85%Q = 0.85 /\ lit 0.1%Q = 0.1
  /\ lit 0.9%Q = 0.9 /\ lit 1.5%Q = 1.5 /\ lit 1.9%Q = 1.9 /\ lit 0.028%Q = 0.028
  /\ lit 0.011%Q = 0.011 /\ lit 0.602%Q = 0.602 /\ lit 0.079%Q = 0.079
  /\ lit 0.72%Q = 0.72 /\ lit 0.28%Q = 0.28 /\ lit 0.25%Q = 0.25
  /\ lit 0.74%Q = 0.74 /\ lit 0.26%Q = 0.26 /\ lit 28%Q = 28 /\ lit 265%Q = 265.
Proof. repeat split. Qed.

(** C2, counterexample: in double precision the rail result for 2 t
    over 300 km has a CO2 mass of 21 kg, direct emissions of 2.1 kg and
    indirect emissions of 18.900000000000002 kg, which add up to
    21.000000000000004 kg. *)
Lemma breakdown_sum_rounds_binary64 :
  exists r : Result.t float,
    run unreachable lightTrain = Returned r
    /\ Result.co2 (Result.Emissions r) = 21
    /\ Result.directEmissions (Result.Breakdown r) = 2.1
    /\ Result.indirectEmissions (Result.Breakdown r) = 18.900000000000002
    /\ plus (Result.directEmissions (Result.Breakdown r))
         (Result.indirectEmissions (Result.Breakdown r)) = 21.000000000000004
    /\ (21.000000000000004 =? 21) = false.
Proof.
  eexists. split; [reflexivity |].
  repeat split.
Qed.

(** scenario B of the specification in double precision: the figures of
    the claim, to the last bit *)
Lemma rail_scenario_binary64 :
  exists r : Result.t float,
    run unreachable railScenario = Returned r
    /\ tonneKm (N := Binary64) railScenario = 15000
    /\ baseEmissions railScenario (Result.emissionFactor (Result.Input r)) = 420
    /\ Result.co2 (Result.Emissions r) = 525
    /\ Result.directEmissions (Result.Breakdown r) = 52.5
    /\ Result.indirectEmissions (Result.Breakdown r) = 472.5.
Proof.
  eexists. split; [reflexivity |].
  repeat split.
Qed.

End DoublePrecision.

(** ** C3: the GWP conversion *)

(** C3: the GWP conversion returns co2 × 1 + ch4 × 28 + n2o × 265 for
    every combination of inputs, an absent CH4 or N2O mass contributing
    0 (exact arithmetic). *)
Theorem convertToCO2e_gwp_sum (co2 : Q) (ch4 n2o : option Q) :
  EmissionCalculator.convertToCO2e co2 ch4 n2o
  == co2 * 1 + massOrZero ch4 * 28 + massOrZero n2o * 265.
Proof.
  unfold EmissionCalculator.convertToCO2e, truthy, the, massOrZero.
  destruct ch4 as [c |], n2o as [n |];
    repeat match goal with
           | |- context [ToBoolean ?x] =>
             let E := fresh "E" in
             destruct (ToBoolean x) eqn:E;
             [ | apply falsy_is_zero in E; rewrite ?E ]
           end;
    simpl; ring.
Qed.

(** ** C4: validation errors *)

Lemma string_app_empty_r (s : string) : (s ++ "")%string = s.
Proof. induction s as [| c s IH]; simpl; [reflexivity | now rewrite IH]. Qed.

Lemma occursIn_append_l (part whole before : string) :
  occursIn part whole -> occursIn part (before ++ whole).
Proof.
  intros (b & a & ->). exists (before ++ b)%string, a.
  clear. induction before as [| c before IH]; simpl; [reflexivity | now rewrite IH].
Qed.

Lemma join_occurs (sep s : string) (l : list string) :
  In s l -> occursIn s (join sep l).
Proof.
  induction l as [| x l IH]; [contradiction |].
  intros [-> | H].
  - destruct l as [| y l]; simpl.
    + exists ""%string, ""%string. simpl. now rewrite string_app_empty_r.
    + exists ""%string, (sep ++ join sep (y :: l))%string. reflexivity.
  - destruct l as [| y l]; [contradiction |].
    change (join sep (x :: y :: l)) with (x ++ sep ++ join sep (y :: l))%string.
    apply occursIn_append_l, occursIn_append_l, IH, H.
Qed.

Section Pipeline.
Context {num : Type} {N : JsNumber num}.

(** C4: when validation finds errors, [calculate] throws, whatever the
    clock and the factor store are; the message thrown carries the
    message of every error found, in order, and no result is returned. *)
Theorem validation_errors_all_reported (mode : TransportMode) (env : Env)
    (db : FactorProvider num) (request : CalculationRequest.t num) :
  EmissionCalculator.validateInput (CalculatorFactory.getCalculator mode)
    (CalculationRequest.activityData request) <> [] ->
  exists message : string,
    message
    = ("Validation failed: "
         ++ join ", "
              (map CalculationError.message
                 (EmissionCalculator.validateInput (CalculatorFactory.getCalculator mode)
                    (CalculationRequest.activityData request))))%string
    /\ (forall e : CalculationError.t,
          In e (EmissionCalculator.validateInput (CalculatorFactory.getCalculator mode)
                  (CalculationRequest.activityData request)) ->
          occursIn (CalculationError.message e) message)
    /\ EmissionCalculator.calculate (CalculatorFactory.getCalculator mode) env db request
       = Threw message
    /\ (forall (env' : Env) (db' : FactorProvider num),
          EmissionCalculator.calculate (CalculatorFactory.getCalculator mode) env' db' request
          = Threw message)
    /\ (forall r : Result.t num,
          EmissionCalculator.calculate (CalculatorFactory.getCalculator mode) env db request
          <> Returned r).
Proof.
  intro H. eexists. split; [reflexivity |]. split; [| split; [| split]].
  - intros e He. apply occursIn_append_l, join_occurs, in_map, He.
  - now apply calculate_invalid.
  - intros env' db'. now apply calculate_invalid.
  - intros r. rewrite (calculate_invalid _ env db request H). discriminate.
Qed.

End Pipeline.

(** C4, witness: a road request with neither distance nor vehicle type;
    both messages are thrown together. *)
Lemma validation_errors_all_reported_witness :
  EmissionCalculator.calculate (N := Exact) (CalculatorFactory.getCalculator road) env0
    unreachable (requestOf blankTrip)
  = Threw ("Validation failed: Distance must be provided and greater than 0, "
             ++ "Vehicle type must be specified")%string.
Proof.
  destruct (validation_errors_all_reported (N := Exact) road env0 unreachable
              (requestOf blankTrip))
    as (message & -> & _ & H & _).
  - vm_compute. discriminate.
  - exact H.
Defined.

(** ** C5: the default factor and the assumptions *)

Section Resolution.
Context {num : Type} {N : JsNumber num}.



End Resolution.



(** ** C6: the default load factor *)

(** the road table of default load factors, key by key *)
Lemma getDefaultLoadFactor_table (vehicleType : string) :
  RoadTransportCalculator.getDefaultLoadFactor (N := Exact) vehicleType
  = defaultLoadFactor road vehicleType.
Proof.
  unfold RoadTransportCalculator.getDefaultLoadFactor, defaultLoadFactor,
    RoadTransportCalculator.loadFactors, lookup.
  case_keys; reflexivity.
Qed.

Lemma defaultLoadFactor_truthy (mode : TransportMode) (vehicleType : string) :
  ToBoolean (defaultLoadFactor (N := Exact) mode vehicleType) = true.
Proof.
  destruct mode; try reflexivity. unfold defaultLoadFactor.
  case_keys; reflexivity.
Qed.

Lemma normalize_omitted (mode : TransportMode) (data : ActivityData.t Q) :
  ActivityData.loadFactor data = None ->
  ActivityData.loadFactor
    (EmissionCalculator.normalizeActivityData (CalculatorFactory.getCalculator mode) data)
  = Some (defaultLoadFactor mode (VehicleCategory.type (ActivityData.vehicle data))).
Proof.
  intro H. destruct mode; simpl;
    unfold_normalize;
    rewrite H; simpl; try reflexivity.
  now rewrite getDefaultLoadFactor_table.
Qed.

Lemma normalize_kept (mode : TransportMode) (data : ActivityData.t Q) (l : Q) :
  ActivityData.loadFactor data = Some l -> ~ l == 0 ->
  ActivityData.loadFactor
    (EmissionCalculator.normalizeActivityData (CalculatorFactory.getCalculator mode) data)
  = Some l.
Proof.
  intros H Hl. apply nonzero_is_truthy in Hl.
  destruct mode; simpl;
    unfold_normalize;
    rewrite H; simpl; simpl in Hl; rewrite Hl; simpl; try rewrite H; reflexivity.
Qed.

(** C6, amended: normalisation puts the default load factor of the mode
    when the caller gave none: rail 0.8, sea 0.85, air 0.8, and on the
    road the one of the vehicle type in lower case, truck 0.7, van 0.6,
    car and motorcycle 1.0, heavy truck 0.75, light truck 0.65, and 0.7
    for any other type that in lower case is no member name of
    [Object.prototype]; it keeps a load factor the caller gave that is
    not zero. *)
Theorem normalize_loadFactor (mode : TransportMode) (data : ActivityData.t Q) :
  (ActivityData.loadFactor data = None ->
   (mode = road ->
    inherited (toLowerCase (VehicleCategory.type (ActivityData.vehicle data))) = false) ->
   ActivityData.loadFactor
     (EmissionCalculator.normalizeActivityData (CalculatorFactory.getCalculator mode) data)
   = Some (defaultLoadFactor mode (VehicleCategory.type (ActivityData.vehicle data))))
  /\ (forall l : Q,
        ActivityData.loadFactor data = Some l -> ~ l == 0 ->
        ActivityData.loadFactor
          (EmissionCalculator.normalizeActivityData (CalculatorFactory.getCalculator mode) data)
        = Some l).
Proof.
  split; [intros H _; now apply normalize_omitted | apply normalize_kept].
Qed.

(** C6, witness: the rail default for scenario B, the default of the
    truck of scenario A, and a road load factor of 0.5 that is kept. *)
Lemma normalize_loadFactor_witness :
  ActivityData.loadFactor
    (EmissionCalculator.normalizeActivityData (CalculatorFactory.getCalculator rail)
       railScenario) = Some 0.8
  /\ ActivityData.loadFactor
       (EmissionCalculator.normalizeActivityData (CalculatorFactory.getCalculator road)
          roadScenario) = Some 0.7
  /\ ActivityData.loadFactor
       (EmissionCalculator.normalizeActivityData (CalculatorFactory.getCalculator road)
          emptyTruck) = Some 0.5.
Proof.
  split; [| split].
  - apply (proj1 (normalize_loadFactor rail railScenario)); [reflexivity | discriminate].
  - apply (proj1 (normalize_loadFactor road roadScenario)); [reflexivity | reflexivity].
  - apply (proj2 (normalize_loadFactor road emptyTruck) 0.5).
    + reflexivity.
    + vm_compute. discriminate.
Defined.

(** C6, counterexample: the default load factor of a car is 1.0, which
    is neither the generic 0.7 nor within 0.6 to 0.75. *)
Lemma car_default_loadFactor :
  ActivityData.loadFactor carTrip = None
  /\ ActivityData.loadFactor
       (EmissionCalculator.normalizeActivityData (CalculatorFactory.getCalculator road)
          carTrip)
     = Some 1.0
  /\ ~ (0.6 <= 1.0 <= 0.75)
  /\ ~ 1.0 == 0.7.
Proof.
  split; [reflexivity |]. split; [reflexivity |]. split.
  - intros [_ H]. vm_compute in H. now apply H.
  - vm_compute. discriminate.
Qed.

(** A load factor of zero, which validation accepts, is not kept: it is
    replaced by the default, like an omitted one. *)
Lemma zero_loadFactor_replaced :
  RoadTransportCalculator.validateInput (N := Exact) unladenTruck = []
  /\ ActivityData.loadFactor unladenTruck = Some 0
  /\ ActivityData.loadFactor
       (EmissionCalculator.normalizeActivityData (CalculatorFactory.getCalculator road)
          unladenTruck)
     = Some 0.7.
Proof. repeat split. Qed.

(** every result echoes a load factor other than zero *)
Lemma result_loadFactor_truthy (mode : TransportMode) (env : Env)
    (db : FactorProvider Q) (request : CalculationRequest.t Q) (r : Result.t Q) :
  EmissionCalculator.calculate (CalculatorFactory.getCalculator mode) env db request
  = Returned r ->
  truthy (ActivityData.loadFactor (Result.activityData (Result.Input r))) = true.
Proof.
  intro H. apply calculate_returned in H. destruct H as [_ ->].
  unfold resultOf, EmissionCalculator.buildResult.
  cbn [Result.Input Result.activityData].
  set (data := CalculationRequest.activityData request).
  destruct (ActivityData.loadFactor data) as [l |] eqn:E.
  - destruct (ToBoolean l) eqn:T.
    + assert (~ l == 0) as Hl.
      { intro Hz. simpl in T. apply negb_true_iff in T.
        apply Qeq_bool_iff in Hz. congruence. }
      rewrite (normalize_kept mode data l E Hl). exact T.
    + destruct mode; simpl;
        unfold RoadTransportCalculator.normalizeActivityData,
          RailTransportCalculator.normalizeActivityData,
          SeaTransportCalculator.normalizeActivityData,
          AirTransportCalculator.normalizeActivityData, truthy, orElse;
        rewrite E; cbn [negb ActivityData.loadFactor ActivityData.with_loadFactor
                        ActivityData.with_vehicle]; rewrite T; try reflexivity.
      cbn [negb ActivityData.loadFactor ActivityData.with_loadFactor
           ActivityData.with_vehicle].
      rewrite getDefaultLoadFactor_table. apply (defaultLoadFactor_truthy road).
  - rewrite (normalize_omitted mode data E).
    apply defaultLoadFactor_truthy.
Qed.

(** ** C7: the confidence label *)

Section Confidence.
Context {num : Type} {N : JsNumber num}.

Lemma confidenceScore_points (data : ActivityData.t num) (factor : EmissionFactor.t num) :
  EmissionCalculator.confidenceScore data factor = pointScore truthy truthyOS data factor.
Proof.
  unfold EmissionCalculator.confidenceScore, pointScore, points.
  destruct (truthy (ActivityData.weight data)), (truthy (ActivityData.distance data)),
    (truthy (ActivityData.loadFactor data)), (truthy (ActivityData.fuelConsumed data)),
    (Scope_eqb (EmissionFactor.scope factor) wtw),
    (truthyOS (EmissionFactor.region factor)); reflexivity.
Qed.

(** C7, amended: the confidence label of every result is given by the
    point system over the result's own input: 2 points each for a
    weight, a distance and a fuel consumption that is given and not
    zero, 1 for such a load factor, 1 for a factor of scope wtw, 1 for
    a region that is not empty; high from 7 points, medium from 4, low
    below.  The label is the same for the same request and the same
    scope and region of the factor. *)
Theorem confidence_by_points (mode : TransportMode) (env : Env)
    (db : FactorProvider num) (request : CalculationRequest.t num) (r : Result.t num) :
  EmissionCalculator.calculate (CalculatorFactory.getCalculator mode) env db request
  = Returned r ->
  Result.confidence (Result.Metadata r)
  = labelOf (pointScore truthy truthyOS (Result.activityData (Result.Input r))
               (Result.emissionFactor (Result.Input r)))
  /\ (forall (env' : Env) (db' : FactorProvider num) (r' : Result.t num),
        EmissionCalculator.calculate (CalculatorFactory.getCalculator mode) env' db' request
        = Returned r' ->
        EmissionFactor.scope (Result.emissionFactor (Result.Input r'))
        = EmissionFactor.scope (Result.emissionFactor (Result.Input r)) ->
        EmissionFactor.region (Result.emissionFactor (Result.Input r'))
        = EmissionFactor.region (Result.emissionFactor (Result.Input r)) ->
        Result.confidence (Result.Metadata r') = Result.confidence (Result.Metadata r)).
Proof.
  intro H. apply calculate_returned in H. destruct H as [_ ->]. split.
  - unfold resultOf, EmissionCalculator.buildResult, EmissionCalculator.assessConfidence.
    cbn [Result.confidence Result.Metadata Result.Input Result.activityData
         Result.emissionFactor].
    now rewrite confidenceScore_points.
  - intros env' db' r' H' Hs Hr. apply calculate_returned in H'. destruct H' as [_ ->].
    revert Hs Hr.
    unfold resultOf, EmissionCalculator.buildResult, EmissionCalculator.assessConfidence,
      EmissionCalculator.confidenceScore.
    cbn [Result.confidence Result.Metadata Result.Input Result.activityData
         Result.emissionFactor].
    intros -> ->. reflexivity.
Qed.

(** every factor the calculators resolve has scope wtw *)
Lemma resolved_scope_wtw (mode : TransportMode) (env : Env) (db : FactorProvider num)
    (data : ActivityData.t num) :
  EmissionFactor.scope
    (EmissionCalculator.getEmissionFactor (CalculatorFactory.getCalculator mode) env db data)
  = wtw.
Proof.
  destruct mode; simpl;
    unfold_getEmissionFactor;
    match goal with
    | |- context [db ?q] => destruct (db q) as [| [[| row rows] |] [e |]]
    end; try reflexivity.
  destruct (sort RoadTransportCalculator.byUpdatedAtDesc (row :: rows)); reflexivity.
Qed.

(** normalisation leaves the distance as it is *)
Lemma normalized_distance (mode : TransportMode) (data : ActivityData.t num) :
  ActivityData.distance
    (EmissionCalculator.normalizeActivityData (CalculatorFactory.getCalculator mode) data)
  = ActivityData.distance data.
Proof.
  destruct mode; simpl; try reflexivity.
  unfold RoadTransportCalculator.normalizeActivityData.
  now destruct (truthy (ActivityData.loadFactor data)).
Qed.

Lemma valid_distance (mode : TransportMode) (data : ActivityData.t num) :
  EmissionCalculator.validateInput (CalculatorFactory.getCalculator mode) data = [] ->
  truthy (ActivityData.distance data) = true.
Proof.
  intro H. destruct mode.
  - now apply road_valid in H.
  - now apply (tonneKm_valid rail) in H.
  - now apply (tonneKm_valid sea) in H.
  - now apply (tonneKm_valid air) in H.
Qed.

End Confidence.

(** C7, counterexample: a weight and a fuel consumption are given, the
    weight being zero; the points of the claim are 8, hence high, the
    label of the result is medium. *)
Lemma confidence_zero_weight :
  exists r : Result.t Q,
    run unreachable meteredTruck = Returned r
    /\ ActivityData.weight (Result.activityData (Result.Input r)) = Some 0
    /\ pointScore isSome isSome (Result.activityData (Result.Input r))
         (Result.emissionFactor (Result.Input r)) = 8%nat
    /\ labelOf (pointScore isSome isSome (Result.activityData (Result.Input r))
                  (Result.emissionFactor (Result.Input r))) = high
    /\ Result.confidence (Result.Metadata r) = medium.
Proof.
  eexists. split; [reflexivity |]. repeat split.
Qed.

(** C7, witness: weight, distance, load factor, scope and region score
    7 points. *)
Lemma confidence_by_points_witness :
  exists r : Result.t Q,
    run tkmStore loadedTruck = Returned r
    /\ Result.confidence (Result.Metadata r)
       = labelOf (pointScore truthy truthyOS (Result.activityData (Result.Input r))
                    (Result.emissionFactor (Result.Input r)))
    /\ Result.confidence (Result.Metadata r) = high.
Proof.
  eexists. split; [reflexivity |]. split.
  - apply (confidence_by_points (N := Exact) road env0 tkmStore (requestOf loadedTruck)).
    reflexivity.
  - reflexivity.
Defined.

(** Every result scores the distance, the load factor that normalisation
    has put in, and the scope of the factor: its label is never low. *)
Lemma confidence_never_low (mode : TransportMode) (env : Env)
    (db : FactorProvider Q) (request : CalculationRequest.t Q) (r : Result.t Q) :
  EmissionCalculator.calculate (CalculatorFactory.getCalculator mode) env db request
  = Returned r ->
  Result.confidence (Result.Metadata r) <> low.
Proof.
  intro H. pose proof (result_loadFactor_truthy mode env db request r H) as Hl.
  apply calculate_returned in H. destruct H as [Hv ->].
  apply valid_distance in Hv. revert Hl.
  unfold resultOf, EmissionCalculator.buildResult, EmissionCalculator.assessConfidence,
    EmissionCalculator.confidenceScore.
  cbn [Result.confidence Result.Metadata Result.Input Result.activityData].
  rewrite normalized_distance, resolved_scope_wtw, Hv. intros ->.
  cbn [Scope_eqb].
  repeat match goal with
         | |- context [if ?c then (_ + _)%nat else _] => destruct c
         end; discriminate.
Qed.
(** ** C8: the batch *)

Section Batch.
Context {num : Type} {N : JsNumber num}.

Lemma processFrom_outcomes (env : nat -> Env) (db : nat -> FactorProvider num)
    (calculations : list (CalculationRequest.t num)) :
  forall (i : nat) (results : list (nat * Result.t num)) (errors : list (nat * string)),
    BatchRoute.processFrom env db i calculations results errors
    = (results ++ successes (outcomes env db i calculations),
       errors ++ failures (outcomes env db i calculations)).
Proof.
  induction calculations as [| request rest IH]; intros i results errors.
  - simpl. now rewrite !app_nil_r.
  - unfold outcomes. simpl.
    destruct (EmissionCalculator.calculate _ (env i) (db i) request) as [r | message];
      rewrite IH; unfold push, outcomes; simpl; now rewrite <- app_assoc.
Qed.

Lemma sumOver_individual (f : Result.t num -> num) (results : list (nat * Result.t num)) :
  BatchRoute.sumOver f results
  = fold_left (fun sum r => (sum + f r)%js) (map snd results) (lit 0).
Proof.
  unfold BatchRoute.sumOver. generalize (lit 0 : num).
  induction results as [| x results IH]; intro a; simpl; [reflexivity | apply IH].
Qed.

Lemma outcomes_nth (env : nat -> Env) (db : nat -> FactorProvider num)
    (calculations : list (CalculationRequest.t num)) :
  forall (first i : nat) (request : CalculationRequest.t num),
    nth_error calculations i = Some request ->
    In ((first + i)%nat,
        EmissionCalculator.calculate
          (CalculatorFactory.getCalculator
             (ActivityData.transportMode (CalculationRequest.activityData request)))
          (env (first + i)%nat) (db (first + i)%nat) request)
       (outcomes env db first calculations).
Proof.
  induction calculations as [| c rest IH]; intros first i request H.
  - destruct i; discriminate.
  - unfold outcomes. simpl. destruct i as [| i]; simpl in H.
    + injection H as ->. left. now rewrite Nat.add_0_r.
    + right. rewrite <- Nat.add_succ_comm. now apply IH.
Qed.

Lemma outcomes_split (l : list (nat * Completion (Result.t num))) :
  (length (successes l) + length (failures l) = length l)%nat.
Proof.
  induction l as [| [i [r | m]] l IH]; simpl; [reflexivity | | ]; lia.
Qed.

Lemma outcomes_length (env : nat -> Env) (db : nat -> FactorProvider num) (first : nat)
    (calculations : list (CalculationRequest.t num)) :
  length (outcomes env db first calculations) = length calculations.
Proof.
  unfold outcomes. rewrite length_map, length_combine, length_seq. apply Nat.min_id.
Qed.

(** C8: every item of a batch is calculated on its own, in order; the
    results of those that succeed are returned in input order, a failure
    of item [i] is recorded as the pair of [i] and its message, and no
    item is left out; when the aggregate is asked for and an item
    succeeded, its total is the sum of the totals of the results. *)
Theorem batch_partial_failures (env : nat -> Env) (db : nat -> FactorProvider num)
    (batchRequest : BatchRoute.request num) :
  (1 <= length (BatchRoute.calculations batchRequest) <= 100)%nat ->
  BatchRoute.individual (BatchRoute.calculateBatch env db batchRequest)
  = map snd (successes (outcomes env db 0 (BatchRoute.calculations batchRequest)))
  /\ BatchRoute.errors (BatchRoute.calculateBatch env db batchRequest)
     = match failures (outcomes env db 0 (BatchRoute.calculations batchRequest)) with
       | [] => None
       | e :: es => Some (e :: es)
       end
  /\ (length (successes (outcomes env db 0 (BatchRoute.calculations batchRequest)))
      + length (failures (outcomes env db 0 (BatchRoute.calculations batchRequest)))
      = length (BatchRoute.calculations batchRequest))%nat
  /\ (forall (i : nat) (request : CalculationRequest.t num),
        nth_error (BatchRoute.calculations batchRequest) i = Some request ->
        match EmissionCalculator.calculate
                (CalculatorFactory.getCalculator
                   (ActivityData.transportMode (CalculationRequest.activityData request)))
                (env i) (db i) request with
        | Returned r =>
          In (i, r) (successes (outcomes env db 0 (BatchRoute.calculations batchRequest)))
        | Threw message =>
          In (i, message)
             (failures (outcomes env db 0 (BatchRoute.calculations batchRequest)))
        end)
  /\ (forall o : BatchRoute.options,
        BatchRoute.batchOptions batchRequest = Some o ->
        BatchRoute.aggregateResults o = Some true ->
        BatchRoute.individual (BatchRoute.calculateBatch env db batchRequest) <> [] ->
        exists a : BatchRoute.aggregate num,
          BatchRoute.Aggregate (BatchRoute.calculateBatch env db batchRequest) = Some a
          /\ BatchRoute.totalEmissions a
             = fold_left (fun sum r => (sum + Result.total (Result.Emissions r))%js)
                 (BatchRoute.individual (BatchRoute.calculateBatch env db batchRequest))
                 (lit 0)).
Proof.
  intros _.
  unfold BatchRoute.calculateBatch. rewrite processFrom_outcomes. simpl.
  set (outs := outcomes env db 0 (BatchRoute.calculations batchRequest)).
  split; [reflexivity |]. split; [now destruct (failures outs) |].
  split; [unfold outs; now rewrite outcomes_split, outcomes_length |].
  split.
  - intros i request H.
    pose proof (outcomes_nth env db (BatchRoute.calculations batchRequest) 0 i request H)
      as Hin.
    simpl in Hin. fold outs in Hin.
    destruct (EmissionCalculator.calculate _ (env i) (db i) request) as [r | message];
      [unfold successes | unfold failures]; apply in_flat_map; eexists;
      (split; [exact Hin | simpl; now left]).
  - intros o Ho Ha Hne. rewrite Ho, Ha. simpl.
    destruct (successes outs) as [| s ss] eqn:E; [now elim Hne |].
    simpl. eexists. split; [reflexivity |].
    simpl. now rewrite sumOver_individual.
Qed.

End Batch.

(** the route reaches the loop exactly when the body passes the schema,
    which bounds the batch to 1 to 100 requests *)
Lemma handler_accepts {num : Type} {N : JsNumber num} (env : nat -> Env)
    (db : nat -> FactorProvider num) (batchRequest : BatchRoute.request num) :
  BatchRoute.schema batchRequest = true ->
  BatchRoute.handler env db batchRequest
  = BatchRoute.Status200 (BatchRoute.calculateBatch env db batchRequest)
  /\ (1 <= length (BatchRoute.calculations batchRequest) <= 100)%nat.
Proof.
  intro H. unfold BatchRoute.handler. rewrite H. split; [reflexivity |].
  unfold BatchRoute.schema in H.
  apply andb_prop in H. destruct H as [H H100].
  apply andb_prop in H. destruct H as [_ H1].
  apply Nat.leb_le in H1, H100. now split.
Qed.

(** C8, witness: a batch of three whose second item has no weight: two
    results, one error under index 1, and an aggregate total of
    525 + 23.7 kg. *)
Lemma batch_partial_failures_witness :
  length (BatchRoute.individual mixedBatchResponse) = 2%nat
  /\ BatchRoute.errors mixedBatchResponse
     = Some [(1%nat,
              ("Validation failed: "
                 ++ "Weight (cargo tonnage) must be provided for rail transport")%string)]
  /\ exists a : BatchRoute.aggregate Q,
       BatchRoute.Aggregate mixedBatchResponse = Some a
       /\ BatchRoute.totalEmissions a
          = fold_left (fun sum r => sum + Result.total (Result.Emissions r))
              (BatchRoute.individual mixedBatchResponse) 0
       /\ BatchRoute.totalEmissions a == 548.7.
Proof.
  destruct (batch_partial_failures (N := Exact) (fun _ => env0) (fun _ => unreachable)
              mixedBatch)
    as (Hi & He & _ & _ & Ha).
  - simpl. lia.
  - fold mixedBatchResponse in Hi, He, Ha.
    split; [now rewrite Hi |]. split; [now rewrite He |].
    destruct (Ha (BatchRoute.mkOptions (Some true) None)) as (a & Hagg & Htotal);
      try reflexivity.
    + rewrite Hi. discriminate.
    + exists a. split; [exact Hagg |]. split; [exact Htotal |].
      rewrite Htotal. vm_compute. reflexivity.
Defined.

(** ** C9: the rail scenario *)

(** C9: rail, 300 km, 50 t, no load factor given, no factor found: the
    default factor is 0.028 kg/tkm and the default load factor 0.8; the
    tonne-kilometres are 15000, the base emissions 420 kg, the adjusted
    emissions 525 kg, of which 52.5 kg direct and 472.5 kg indirect. *)
Theorem rail_scenario (env : Env) (db : FactorProvider Q) (data : ActivityData.t Q) :
  ActivityData.distance data = Some 300 ->
  ActivityData.weight data = Some 50 ->
  ActivityData.loadFactor data = None ->
  (forall q, noFactor (db q) = true) ->
  exists r : Result.t Q,
    EmissionCalculator.calculate (CalculatorFactory.getCalculator rail) env db
      (requestOf data) = Returned r
    /\ EmissionFactor.co2Factor (Result.emissionFactor (Result.Input r)) = 0.028
    /\ ActivityData.loadFactor (Result.activityData (Result.Input r)) = Some 0.8
    /\ tonneKm data == 15000
    /\ baseEmissions data (Result.emissionFactor (Result.Input r)) == 420
    /\ Result.co2 (Result.Emissions r)
       = baseEmissions data (Result.emissionFactor (Result.Input r)) / 0.8
    /\ Result.co2 (Result.Emissions r) == 525
    /\ Result.directEmissions (Result.Breakdown r) == 52.5
    /\ Result.indirectEmissions (Result.Breakdown r) == 472.5.
Proof.
  intros Hd Hw Hl Hdb.
  eexists. split.
  - apply calculate_valid. simpl. unfold RailTransportCalculator.validateInput.
    rewrite Hd, Hw. reflexivity.
  - unfold resultOf, tonneKm, baseEmissions. simpl.
    unfold RailTransportCalculator.getEmissionFactor,
      RailTransportCalculator.calculateEmissions,
      RailTransportCalculator.normalizeActivityData.
    specialize (Hdb (mkQuery "rail" None
                       (Some (if truthyS (VehicleCategory.fuelType (ActivityData.vehicle data))
                              then VehicleCategory.fuelType (ActivityData.vehicle data)
                              else "electric"%string)))).
    unfold noFactor in Hdb. unfold firstRow.
    destruct (db _) as [| [[| row rows] |] [e |]]; try discriminate;
      simpl; rewrite Hd, Hw, Hl; simpl;
      repeat split; vm_compute; reflexivity.
Qed.

(** C9, witness: the request of the scenario, the factor store being
    unreachable. *)
Lemma rail_scenario_witness :
  exists r : Result.t Q,
    run unreachable railScenario = Returned r
    /\ Result.co2 (Result.Emissions r) == 525
    /\ Result.directEmissions (Result.Breakdown r) == 52.5
    /\ Result.indirectEmissions (Result.Breakdown r) == 472.5.
Proof.
  destruct (rail_scenario env0 unreachable railScenario) as (r & Hr & H);
    try reflexivity.
  exists r. split; [exact Hr |]. tauto.
Defined.

(** ** C10: the other gases *)

(** C10: a result of the rail, sea or air calculator has no CH4 and no
    N2O mass and its total is its CO2 mass; a result of the road
    calculator can carry both masses and a total above its CO2 mass. *)
Theorem only_road_has_other_gases :
  (forall (num : Type) (N : JsNumber num) (mode : TransportMode) (env : Env)
          (db : FactorProvider num) (request : CalculationRequest.t num) (r : Result.t num),
      mode <> road ->
      EmissionCalculator.calculate (CalculatorFactory.getCalculator mode) env db request
      = Returned r ->
      Result.total (Result.Emissions r) = Result.co2 (Result.Emissions r)
      /\ Result.ch4 (Result.Emissions r) = None
      /\ Result.n2o (Result.Emissions r) = None)
  /\ (exists r : Result.t Q,
        run tkmStore loadedTruck = Returned r
        /\ Result.co2 (Result.Emissions r) == 150
        /\ (exists ch4 : Q, Result.ch4 (Result.Emissions r) = Some ch4 /\ ch4 == 0.05)
        /\ (exists n2o : Q, Result.n2o (Result.Emissions r) = Some n2o /\ n2o == 0.005)
        /\ Result.total (Result.Emissions r) == 152.725).
Proof.
  split.
  - intros num N mode env db request r Hmode H.
    apply calculate_returned in H. destruct H as [_ ->].
    destruct mode; [contradiction | | |]; repeat split.
  - eexists. split; [reflexivity |].
    split; [vm_compute; reflexivity |].
    split; [eexists; split; [reflexivity | vm_compute; reflexivity] |].
    split; [eexists; split; [reflexivity | vm_compute; reflexivity] |].
    vm_compute; reflexivity.
Qed.

(** C10, witness: scenario B. *)
Lemma only_road_has_other_gases_witness :
  exists r : Result.t Q,
    run unreachable railScenario = Returned r
    /\ Result.total (Result.Emissions r) = Result.co2 (Result.Emissions r)
    /\ Result.ch4 (Result.Emissions r) = None
    /\ Result.n2o (Result.Emissions r) = None.
Proof.
  eexists. split; [reflexivity |].
  apply (proj1 only_road_has_other_gases Q Exact rail env0 unreachable
           (requestOf railScenario)).
  - discriminate.
  - reflexivity.
Defined.


(** ** The other scenarios of the specification *)

(** scenario A: the default truck factor of 0.079 kg/km and load factor
    of 0.7 give 39.5 / 0.7 kg, which is 56.43 kg to two decimals, split
    74 to 26 *)
Lemma road_scenario :
  exists r : Result.t Q,
    run unreachable roadScenario = Returned r
    /\ EmissionFactor.co2Factor (Result.emissionFactor (Result.Input r)) = 0.079
    /\ ActivityData.loadFactor (Result.activityData (Result.Input r)) = Some 0.7
    /\ Result.co2 (Result.Emissions r) * 0.7 == 39.5
    /\ 56.425 <= Result.co2 (Result.Emissions r) < 56.435
    /\ 41.755 <= Result.directEmissions (Result.Breakdown r) < 41.765
    /\ 14.665 <= Result.indirectEmissions (Result.Breakdown r) < 14.675.
Proof.
  eexists. split; [reflexivity |].
  repeat split; vm_compute; try reflexivity; discriminate.
Qed.

(** scenario C: 10000 tkm at 0.602 kg/tkm times the index of 1.9 give
    11438 kg, 14297.5 kg at the default load factor of 0.8, split 75 to
    25 *)
Lemma air_scenario :
  exists r : Result.t Q,
    run unreachable airScenario = Returned r
    /\ tonneKm airScenario == 10000
    /\ baseEmissions airScenario (Result.emissionFactor (Result.Input r)) * 1.9 == 11438
    /\ Result.co2 (Result.Emissions r) == 14297.5
    /\ Result.directEmissions (Result.Breakdown r) == 10723.125
    /\ Result.indirectEmissions (Result.Breakdown r) == 3574.375.
Proof.
  by_evaluation.
Qed.

(** * Further properties of the engine *)

Section Engine.
Context {num : Type} {N : JsNumber num}.

(** normalisation changes neither the weight nor the fuel consumption *)
Lemma normalized_weight (mode : TransportMode) (data : ActivityData.t num) :
  ActivityData.weight
    (EmissionCalculator.normalizeActivityData (CalculatorFactory.getCalculator mode) data)
  = ActivityData.weight data.
Proof.
  destruct mode; simpl; try reflexivity.
  unfold RoadTransportCalculator.normalizeActivityData.
  now destruct (truthy (ActivityData.loadFactor data)).
Qed.

Lemma normalized_fuelConsumed (mode : TransportMode) (data : ActivityData.t num) :
  ActivityData.fuelConsumed
    (EmissionCalculator.normalizeActivityData (CalculatorFactory.getCalculator mode) data)
  = ActivityData.fuelConsumed data.
Proof.
  destruct mode; simpl; try reflexivity.
  unfold RoadTransportCalculator.normalizeActivityData.
  now destruct (truthy (ActivityData.loadFactor data)).
Qed.

(** the load factor of the normalised data is the one the calculators
    of rail, sea and air divide by *)
Lemma tonneKm_normalized_loadFactor (mode : TransportMode) (data : ActivityData.t num) :
  mode <> road ->
  ActivityData.loadFactor
    (EmissionCalculator.normalizeActivityData (CalculatorFactory.getCalculator mode) data)
  = Some (orElse (ActivityData.loadFactor data) (GLEC_CONSTANTS.DEFAULT_LOAD_FACTORS mode)).
Proof.
  intro H. destruct mode; [contradiction | | |]; reflexivity.
Qed.

(** X1: a rail, sea or air result echoes a distance, a weight and a load
    factor; its CO2 mass is distance × weight × co2Factor (for air times
    1.9) divided by that load factor, with no floor and whatever the
    unit of the factor; the direct and indirect emissions are its fixed
    shares. *)
Theorem tonneKm_modes_formula (mode : TransportMode) (env : Env) (db : FactorProvider num)
    (request : CalculationRequest.t num) (r : Result.t num) :
  mode <> road ->
  EmissionCalculator.calculate (CalculatorFactory.getCalculator mode) env db request
  = Returned r ->
  exists distance weight loadFactor : num,
    ActivityData.distance (Result.activityData (Result.Input r)) = Some distance
    /\ ActivityData.weight (Result.activityData (Result.Input r)) = Some weight
    /\ ActivityData.loadFactor (Result.activityData (Result.Input r)) = Some loadFactor
    /\ Result.co2 (Result.Emissions r)
       = tonneKmCO2 mode distance weight
           (EmissionFactor.co2Factor (Result.emissionFactor (Result.Input r))) loadFactor
    /\ Result.directEmissions (Result.Breakdown r)
       = (Result.co2 (Result.Emissions r) * fst (fixedRatios mode))%js
    /\ Result.indirectEmissions (Result.Breakdown r)
       = (Result.co2 (Result.Emissions r) * snd (fixedRatios mode))%js.
Proof.
  intros Hmode H. apply calculate_returned in H. destruct H as [Hv ->].
  destruct (tonneKm_valid mode _ Hmode Hv) as [Hd Hw].
  apply truthy_Some in Hd, Hw.
  destruct Hd as (d & Hd & _), Hw as (w & Hw & _).
  rewrite <- (normalized_distance mode) in Hd.
  rewrite <- (normalized_weight mode) in Hw.
  pose proof (tonneKm_normalized_loadFactor mode (CalculationRequest.activityData request)
                Hmode) as Hl.
  unfold resultOf, EmissionCalculator.buildResult.
  cbn [Result.Input Result.activityData Result.emissionFactor Result.Emissions Result.co2
       Result.Breakdown Result.directEmissions Result.indirectEmissions].
  set (normalized :=
         EmissionCalculator.normalizeActivityData (CalculatorFactory.getCalculator mode)
           (CalculationRequest.activityData request)) in *.
  exists d, w. eexists.
  split; [exact Hd |]. split; [exact Hw |]. split; [exact Hl |].
  destruct mode; [contradiction | | |];
    cbn [CalculatorFactory.getCalculator CalculatorFactory.createCalculator
         RailTransportCalculator.new SeaTransportCalculator.new AirTransportCalculator.new
         EmissionCalculator.calculateEmissions];
    unfold RailTransportCalculator.calculateEmissions,
      SeaTransportCalculator.calculateEmissions,
      AirTransportCalculator.calculateEmissions;
    cbn [Emissions.co2 Emissions.directEmissions Emissions.indirectEmissions];
    rewrite Hd, Hw, Hl; cbn [the GLEC_CONSTANTS.DEFAULT_LOAD_FACTORS];
    rewrite orElse_idempotent; repeat split.
Qed.

End Engine.

(** X1, witness: scenario B. *)
Lemma tonneKm_modes_formula_witness :
  exists r : Result.t Q,
    run unreachable railScenario = Returned r
    /\ Result.co2 (Result.Emissions r) = tonneKmCO2 rail 300 50 0.028 0.8.
Proof.
  eexists. split; [reflexivity |].
  destruct (tonneKm_modes_formula (N := Exact) rail env0 unreachable (requestOf railScenario)
              _ ltac:(discriminate) eq_refl)
    as (d & w & l & Hd & Hw & Hl & Hco2 & _).
  injection Hd as <-. injection Hw as <-. injection Hl as <-. exact Hco2.
Defined.

Section Frames.
Context {num : Type} {N : JsNumber num}.

(** X2: the emissions, the breakdown and the intensity of a rail, sea or
    air result depend on the distance, the weight and the load factor of
    the request and on the factor alone: two requests that agree on the
    three (and on the vehicle, by which the factor is looked up) give
    the same figures, whatever their empty return, route, volume or
    fuel consumption. *)
Theorem tonneKm_modes_frame (mode : TransportMode) (env : Env) (db : FactorProvider num)
    (request request' : CalculationRequest.t num) (r : Result.t num) :
  mode <> road ->
  ActivityData.distance (CalculationRequest.activityData request')
  = ActivityData.distance (CalculationRequest.activityData request) ->
  ActivityData.weight (CalculationRequest.activityData request')
  = ActivityData.weight (CalculationRequest.activityData request) ->
  ActivityData.loadFactor (CalculationRequest.activityData request')
  = ActivityData.loadFactor (CalculationRequest.activityData request) ->
  ActivityData.vehicle (CalculationRequest.activityData request')
  = ActivityData.vehicle (CalculationRequest.activityData request) ->
  EmissionCalculator.calculate (CalculatorFactory.getCalculator mode) env db request
  = Returned r ->
  exists r' : Result.t num,
    EmissionCalculator.calculate (CalculatorFactory.getCalculator mode) env db request'
    = Returned r'
    /\ Result.Emissions r' = Result.Emissions r
    /\ Result.Breakdown r' = Result.Breakdown r
    /\ Result.emissionIntensity (Result.Metrics r')
       = Result.emissionIntensity (Result.Metrics r)
    /\ Result.emissionFactor (Result.Input r') = Result.emissionFactor (Result.Input r).
Proof.
  intros Hmode Hd Hw Hl Hveh H. apply calculate_returned in H. destruct H as [Hv ->].
  assert (EmissionCalculator.validateInput (CalculatorFactory.getCalculator mode)
            (CalculationRequest.activityData request') = []) as Hv'.
  { revert Hv. destruct mode; [contradiction | | |]; simpl;
      unfold RailTransportCalculator.validateInput, SeaTransportCalculator.validateInput,
        AirTransportCalculator.validateInput;
      now rewrite Hd, Hw. }
  eexists. split; [now apply calculate_valid |].
  destruct mode; [contradiction | | |];
    unfold resultOf, EmissionCalculator.buildResult, EmissionCalculator.calculateIntensity;
    simpl;
    unfold RailTransportCalculator.calculateEmissions,
      SeaTransportCalculator.calculateEmissions,
      AirTransportCalculator.calculateEmissions,
      RailTransportCalculator.getEmissionFactor,
      SeaTransportCalculator.getEmissionFactor,
      AirTransportCalculator.getEmissionFactor;
    simpl; rewrite Hd, Hw, Hl, ?Hveh; repeat split.
Qed.

(** X3: on the road an empty return multiplies the CO2 mass by 1.5 and
    leaves the CH4 and N2O masses as they are. *)
Theorem road_emptyReturn (env : Env) (db : FactorProvider num)
    (request : CalculationRequest.t num) (r : Result.t num) :
  truthyB (ActivityData.emptyReturn (CalculationRequest.activityData request)) = false ->
  EmissionCalculator.calculate (CalculatorFactory.getCalculator road) env db request
  = Returned r ->
  exists r' : Result.t num,
    EmissionCalculator.calculate (CalculatorFactory.getCalculator road) env db
      (withActivity request
         (withEmptyReturn (CalculationRequest.activityData request) (Some true)))
    = Returned r'
    /\ Result.co2 (Result.Emissions r') = (Result.co2 (Result.Emissions r) * lit 1.5)%js
    /\ Result.ch4 (Result.Emissions r') = Result.ch4 (Result.Emissions r)
    /\ Result.n2o (Result.Emissions r') = Result.n2o (Result.Emissions r).
Proof.
  intros He H. apply calculate_returned in H. destruct H as [Hv ->].
  eexists. split; [apply calculate_valid; exact Hv |].
  unfold resultOf, EmissionCalculator.buildResult. simpl.
  unfold RoadTransportCalculator.calculateEmissions,
    RoadTransportCalculator.normalizeActivityData.
  destruct (truthy (ActivityData.loadFactor (CalculationRequest.activityData request)));
    simpl; rewrite He; repeat split.
Qed.

(** X4: the load utilisation of every result is the load factor its
    input echoes; the default of the mode never replaces it. *)
Theorem loadUtilization_is_loadFactor (mode : TransportMode) (env : Env)
    (db : FactorProvider num) (request : CalculationRequest.t num) (r : Result.t num) :
  EmissionCalculator.calculate (CalculatorFactory.getCalculator mode) env db request
  = Returned r ->
  ActivityData.loadFactor (Result.activityData (Result.Input r))
  = Some (Result.loadUtilization (Result.Metrics r)).
Proof.
  intro H. apply calculate_returned in H. destruct H as [_ ->].
  unfold resultOf, EmissionCalculator.buildResult, EmissionCalculator.getLoadUtilization.
  cbn [Result.Input Result.activityData Result.Metrics Result.loadUtilization].
  destruct mode.
  - cbn [CalculatorFactory.getCalculator CalculatorFactory.createCalculator
         RoadTransportCalculator.new EmissionCalculator.normalizeActivityData
         EmissionCalculator.transportMode GLEC_CONSTANTS.DEFAULT_LOAD_FACTORS].
    apply road_normalized_loadFactor.
  - rewrite (tonneKm_normalized_loadFactor rail) by discriminate.
    cbn [EmissionCalculator.transportMode CalculatorFactory.getCalculator
         CalculatorFactory.createCalculator RailTransportCalculator.new].
    now rewrite orElse_idempotent.
  - rewrite (tonneKm_normalized_loadFactor sea) by discriminate.
    cbn [EmissionCalculator.transportMode CalculatorFactory.getCalculator
         CalculatorFactory.createCalculator SeaTransportCalculator.new].
    now rewrite orElse_idempotent.
  - rewrite (tonneKm_normalized_loadFactor air) by discriminate.
    cbn [EmissionCalculator.transportMode CalculatorFactory.getCalculator
         CalculatorFactory.createCalculator AirTransportCalculator.new].
    now rewrite orElse_idempotent.
Qed.

(** X5: a result has a fuel efficiency exactly when the fuel consumption
    is given and not zero, and it is then the distance divided by the
    consumption. *)
Theorem fuelEfficiency_present (mode : TransportMode) (env : Env)
    (db : FactorProvider num) (request : CalculationRequest.t num) (r : Result.t num) :
  EmissionCalculator.calculate (CalculatorFactory.getCalculator mode) env db request
  = Returned r ->
  exists distance : num,
    ActivityData.distance (CalculationRequest.activityData request) = Some distance
    /\ Result.fuelEfficiency (Result.Metrics r)
       = match ActivityData.fuelConsumed (CalculationRequest.activityData request) with
         | Some fuel => if ToBoolean fuel then Some (distance / fuel)%js else None
         | None => None
         end.
Proof.
  intro H. apply calculate_returned in H. destruct H as [Hv ->].
  pose proof (valid_distance mode _ Hv) as Hd.
  destruct (truthy_Some _ Hd) as (d & Ed & _).
  exists d. split; [exact Ed |].
  unfold resultOf, EmissionCalculator.buildResult, EmissionCalculator.calculateFuelEfficiency.
  cbn [Result.Metrics Result.fuelEfficiency].
  rewrite normalized_distance, normalized_fuelConsumed, Hd, Ed.
  destruct (ActivityData.fuelConsumed (CalculationRequest.activityData request)) as [f |];
    simpl; [now destruct (ToBoolean f) | reflexivity].
Qed.

End Frames.

(** X2, witness: the train of scenario B emits the same whether or not
    it returns empty. *)
Lemma tonneKm_modes_frame_witness :
  exists r r' : Result.t Q,
    run unreachable railScenario = Returned r
    /\ run unreachable returningTrain = Returned r'
    /\ Result.Emissions r' = Result.Emissions r
    /\ Result.Breakdown r' = Result.Breakdown r.
Proof.
  eexists.
  edestruct (tonneKm_modes_frame (N := Exact) rail env0 unreachable
               (requestOf railScenario) (requestOf returningTrain))
    as (r' & H & He & Hb & _);
    [discriminate | reflexivity | reflexivity | reflexivity | reflexivity | reflexivity |].
  exists r'. repeat split; [exact H | exact He | exact Hb].
Defined.

(** X3, witness: the truck of 15.8 kg emits 23.7 kg when it returns
    empty. *)
Lemma road_emptyReturn_witness :
  exists r' : Result.t Q,
    EmissionCalculator.calculate (CalculatorFactory.getCalculator road) env0 unreachable
      (withActivity (requestOf emptyTruck) (withEmptyReturn emptyTruck (Some true)))
    = Returned r'
    /\ Result.co2 (Result.Emissions r') == 23.7.
Proof.
  edestruct (road_emptyReturn (N := Exact) env0 unreachable (requestOf emptyTruck))
    as (r' & H & Hc & _); [reflexivity | reflexivity |].
  exists r'. split; [exact H | rewrite Hc; reflexivity].
Defined.

(** X4, witness: the car without a load factor has the load utilisation
    its input echoes. *)
Lemma loadUtilization_is_loadFactor_witness :
  exists r : Result.t Q,
    run unreachable carTrip = Returned r
    /\ ActivityData.loadFactor (Result.activityData (Result.Input r))
       = Some (Result.loadUtilization (Result.Metrics r)).
Proof.
  eexists. split; [reflexivity |].
  apply (loadUtilization_is_loadFactor (N := Exact) road env0 unreachable (requestOf carTrip)).
  reflexivity.
Defined.

(** X5, witness: 100 km on 5 l are 20 km per litre. *)
Lemma fuelEfficiency_present_witness :
  exists r : Result.t Q,
    run unreachable meteredTruck = Returned r
    /\ Result.fuelEfficiency (Result.Metrics r) = Some (100 / 5).
Proof.
  eexists. split; [reflexivity |].
  edestruct (fuelEfficiency_present (N := Exact) road env0 unreachable (requestOf meteredTruck))
    as (d & Ed & He); [reflexivity |].
  injection Ed as <-. exact He.
Defined.

(** ** What validation accepts *)

Lemma positive_test (d : Q) :
  negb (truthy (Some d)) || (d <=? lit 0)%js = false <-> 0 < d.
Proof.
  simpl. rewrite orb_false_iff, negb_false_iff, negb_true_iff. split.
  - intros [_ H]. apply Qnot_le_lt. intro Hle. apply Qle_bool_iff in Hle. congruence.
  - intro H. split.
    + destruct (Qeq_bool d 0) eqn:E; [| reflexivity].
      apply Qeq_bool_iff in E. rewrite E in H. now apply Qlt_irrefl in H.
    + destruct (Qle_bool d 0) eqn:E; [| reflexivity].
      apply Qle_bool_iff in E. now apply Qle_not_lt in E.
Qed.

Lemma required_positive (x : option Q) :
  negb (truthy x) || (the x <=? lit 0)%js = false <-> exists d : Q, x = Some d /\ 0 < d.
Proof.
  destruct x as [d |].
  - change (the (Some d)) with d. split.
    + intro H. exists d. split; [reflexivity | now apply positive_test].
    + intros (d' & E & H). injection E as ->. now apply positive_test.
  - simpl. split; [discriminate | intros (d & E & _); discriminate].
Qed.

Lemma less_false (a b : Q) : (a <? b)%js = false <-> b <= a.
Proof. simpl. rewrite negb_false_iff. apply Qle_bool_iff. Qed.

Lemma less_true (a b : Q) : (a <? b)%js = true <-> a < b.
Proof.
  simpl. rewrite negb_true_iff. split.
  - intro H. apply Qnot_le_lt. intro Hle. apply Qle_bool_iff in Hle. congruence.
  - intro H. destruct (Qle_bool b a) eqn:E; [| reflexivity].
    apply Qle_bool_iff in E. now apply Qle_not_lt in E.
Qed.

Lemma truthyS_nonempty (s : string) : truthyS s = true <-> s <> ""%string.
Proof. destruct s; simpl; split; intro H; try discriminate; congruence. Qed.

Lemma optional_nonnegative (x : option Q) :
  isSome x && (the x <? lit 0)%js = false <-> (forall w : Q, x = Some w -> 0 <= w).
Proof.
  destruct x as [w |]; cbn [isSome andb the].
  - rewrite less_false. split; [intros H ? [= <-]; exact H | intro H; now apply H].
  - split; [intros _ ? [=] | reflexivity].
Qed.

Lemma optional_within (x : option Q) :
  isSome x && ((the x <? lit 0)%js || (the x >? lit 1)%js) = false
  <-> (forall l : Q, x = Some l -> 0 <= l <= 1).
Proof.
  destruct x as [l |]; cbn [isSome andb the].
  - rewrite orb_false_iff, !less_false.
    split; [intros H ? [= <-]; exact H | intro H; now apply H].
  - split; [intros _ ? [=] | reflexivity].
Qed.

(** the road calculator returns no error exactly when none of its five
    tests fires *)
Lemma road_validation_tests {num : Type} {N : JsNumber num} (data : ActivityData.t num) :
  RoadTransportCalculator.validateInput data = []
  <-> negb (truthy (ActivityData.distance data))
      || (the (ActivityData.distance data) <=? lit 0)%js = false
      /\ negb (truthyS (VehicleCategory.type (ActivityData.vehicle data))) = false
      /\ negb (truthyS (VehicleCategory.fuelType (ActivityData.vehicle data))) = false
      /\ isSome (ActivityData.weight data)
         && (the (ActivityData.weight data) <? lit 0)%js = false
      /\ isSome (ActivityData.loadFactor data)
         && ((the (ActivityData.loadFactor data) <? lit 0)%js
             || (the (ActivityData.loadFactor data) >? lit 1)%js) = false.
Proof.
  unfold RoadTransportCalculator.validateInput, push.
  destruct (negb (truthy (ActivityData.distance data))
            || (the (ActivityData.distance data) <=? lit 0)%js);
    destruct (negb (truthyS (VehicleCategory.type (ActivityData.vehicle data))));
    destruct (negb (truthyS (VehicleCategory.fuelType (ActivityData.vehicle data))));
    destruct (isSome (ActivityData.weight data)
              && (the (ActivityData.weight data) <? lit 0)%js);
    destruct (isSome (ActivityData.loadFactor data)
              && ((the (ActivityData.loadFactor data) <? lit 0)%js
                  || (the (ActivityData.loadFactor data) >? lit 1)%js));
    simpl; split; intro H; try discriminate H; try (repeat split; reflexivity);
    destruct H as (H1 & H2 & H3 & H4 & H5); discriminate.
Qed.

(** X6: the road calculator accepts an activity exactly when its
    distance is positive, its vehicle type and fuel type are not empty,
    its weight, when given, is not negative and its load factor, when
    given, lies within 0 and 1; zero is accepted for both. *)
Theorem road_validation_accepts (data : ActivityData.t Q) :
  RoadTransportCalculator.validateInput data = [] <-> roadAccepts data.
Proof.
  unfold roadAccepts.
  rewrite road_validation_tests, required_positive, optional_nonnegative, optional_within,
    !negb_false_iff, !truthyS_nonempty.
  reflexivity.
Qed.

(** the rail, sea and air calculators return no error exactly when
    neither of their two tests fires *)
Lemma tonneKm_validation_tests {num : Type} {N : JsNumber num} (mode : TransportMode)
    (data : ActivityData.t num) :
  mode <> road ->
  EmissionCalculator.validateInput (CalculatorFactory.getCalculator mode) data = []
  <-> negb (truthy (ActivityData.distance data))
      || (the (ActivityData.distance data) <=? lit 0)%js = false
      /\ negb (truthy (ActivityData.weight data))
         || (the (ActivityData.weight data) <=? lit 0)%js = false.
Proof.
  intro Hmode. destruct mode; [contradiction | | |]; simpl;
    unfold RailTransportCalculator.validateInput, SeaTransportCalculator.validateInput,
      AirTransportCalculator.validateInput, push;
    destruct (negb (truthy (ActivityData.distance data))
              || (the (ActivityData.distance data) <=? lit 0)%js);
    destruct (negb (truthy (ActivityData.weight data))
              || (the (ActivityData.weight data) <=? lit 0)%js);
    simpl; split; intro H; try discriminate H; try (split; reflexivity);
    destruct H; discriminate.
Qed.

(** X7: the rail, sea and air calculators accept an activity exactly
    when its distance and its weight are both given and positive; they
    test nothing else, the load factor included. *)
Theorem tonneKm_validation_accepts (mode : TransportMode) (data : ActivityData.t Q) :
  mode <> road ->
  (EmissionCalculator.validateInput (CalculatorFactory.getCalculator mode) data = []
   <-> tonneKmAccepts data).
Proof.
  intro Hmode. unfold tonneKmAccepts.
  now rewrite (tonneKm_validation_tests mode data Hmode), !required_positive.
Qed.

(** X7, witness: scenario B is accepted. *)
Lemma tonneKm_validation_accepts_witness :
  EmissionCalculator.validateInput (num := Q) (CalculatorFactory.getCalculator rail)
    railScenario = []
  /\ tonneKmAccepts railScenario.
Proof.
  assert (rail <> road) as H by discriminate.
  split; [reflexivity |].
  apply (proj1 (tonneKm_validation_accepts rail railScenario H)). reflexivity.
Defined.

(** ** The route schema and the calculators *)

Lemma schema_distance (data : ActivityData.t Q) :
  BatchRoute.activityDataSchema data = true ->
  exists d : Q, ActivityData.distance data = Some d /\ 0 < d.
Proof.
  unfold BatchRoute.activityDataSchema. intro H.
  repeat (apply andb_prop in H; destruct H as [H ?]).
  destruct (ActivityData.distance data) as [d |]; [| discriminate].
  exists d. split; [reflexivity | now apply less_true].
Qed.

(** a request that passes the schema of the route passes the validation
    of the road calculator *)
Lemma schema_road_valid (request : CalculationRequest.t Q) :
  BatchRoute.calculationRequestSchema request = true ->
  RoadTransportCalculator.validateInput (CalculationRequest.activityData request) = [].
Proof.
  intro H.
  rewrite road_validation_tests, required_positive, optional_nonnegative, optional_within,
    !negb_false_iff, !truthyS_nonempty.
  unfold BatchRoute.calculationRequestSchema in H. apply andb_prop in H. destruct H as [H _].
  pose proof (schema_distance _ H) as Hd.
  unfold BatchRoute.activityDataSchema, BatchRoute.vehicleSchema,
    BatchRoute.nonnegativeOptional in H.
  repeat (apply andb_prop in H; destruct H as [H ?]).
  repeat match goal with
         | H : _ && _ = true |- _ => apply andb_prop in H; destruct H
         end.
  split; [exact Hd |]. split; [| split; [| split]].
  - destruct (VehicleCategory.type (ActivityData.vehicle (CalculationRequest.activityData request)));
      [discriminate | discriminate].
  - intro E. rewrite E in *. discriminate.
  - intros w E. rewrite E in *. now apply Qle_bool_iff.
  - intros l E. rewrite E in *.
    repeat match goal with
           | H : _ && _ = true |- _ => apply andb_prop in H; destruct H
           end.
    split; now apply Qle_bool_iff.
Qed.

(** of a request that passes the schema the rail, sea and air
    calculators test the weight alone *)
Lemma schema_tonneKm_outcome (mode : TransportMode) (env : Env)
    (db : FactorProvider Q) (request : CalculationRequest.t Q) :
  mode <> road ->
  BatchRoute.calculationRequestSchema request = true ->
  EmissionCalculator.calculate (CalculatorFactory.getCalculator mode) env db request
  = if truthy (ActivityData.weight (CalculationRequest.activityData request))
    then Returned (resultOf (CalculatorFactory.getCalculator mode) env db request)
    else Threw (weightRequired mode).
Proof.
  intros Hmode H.
  unfold BatchRoute.calculationRequestSchema in H. apply andb_prop in H. destruct H as [H _].
  pose proof (schema_distance _ H) as Hd.
  apply required_positive in Hd.
  unfold BatchRoute.activityDataSchema, BatchRoute.nonnegativeOptional in H.
  repeat (apply andb_prop in H; destruct H as [H ?]).
  destruct (truthy (ActivityData.weight (CalculationRequest.activityData request))) eqn:Hw.
  - apply calculate_valid. apply (tonneKm_validation_tests mode _ Hmode).
    split; [exact Hd |]. rewrite Hw. simpl.
    destruct (ActivityData.weight (CalculationRequest.activityData request)) as [w |];
      [| discriminate].
    simpl in *. destruct (Qle_bool w 0) eqn:E; [| reflexivity].
    match goal with
    | H0 : Qle_bool 0 w = true |- _ => apply Qle_bool_iff in H0; rename H0 into Hnn
    end.
    apply Qle_bool_iff in E. apply negb_true_iff in Hw.
    assert (w == 0) as Hz by (now apply Qle_antisym).
    apply Qeq_bool_iff in Hz. congruence.
  - unfold EmissionCalculator.calculate.
    destruct mode; [contradiction | | |]; simpl;
      unfold RailTransportCalculator.validateInput, SeaTransportCalculator.validateInput,
        AirTransportCalculator.validateInput, push;
      rewrite Hd, Hw; reflexivity.
Qed.

(** X8: a road request that passes the schema of the route passes the
    validation of the road calculator, so that its calculation
    returns. *)
Theorem schema_road_calculates (env : Env) (db : FactorProvider Q)
    (request : CalculationRequest.t Q) :
  BatchRoute.calculationRequestSchema request = true ->
  exists r : Result.t Q,
    EmissionCalculator.calculate (CalculatorFactory.getCalculator road) env db request
    = Returned r.
Proof.
  intro H. eexists. apply calculate_valid. now apply schema_road_valid.
Qed.

(** X8, witness: the loaded truck passes the schema. *)
Lemma schema_road_calculates_witness :
  exists r : Result.t Q,
    EmissionCalculator.calculate (CalculatorFactory.getCalculator road) env0 unreachable
      (requestOf loadedTruck) = Returned r.
Proof.
  apply (schema_road_calculates env0 unreachable (requestOf loadedTruck)). reflexivity.
Defined.

(** X9: a rail, sea or air request that passes the schema of the route
    but whose weight is missing or zero is refused by its calculator,
    with the one message that a weight is required; with a weight other
    than zero its calculation returns. *)
Theorem schema_tonneKm_needs_weight (mode : TransportMode) (env : Env)
    (db : FactorProvider Q) (request : CalculationRequest.t Q) :
  mode <> road ->
  BatchRoute.calculationRequestSchema request = true ->
  (truthy (ActivityData.weight (CalculationRequest.activityData request)) = false ->
   EmissionCalculator.calculate (CalculatorFactory.getCalculator mode) env db request
   = Threw (weightRequired mode))
  /\ (truthy (ActivityData.weight (CalculationRequest.activityData request)) = true ->
      exists r : Result.t Q,
        EmissionCalculator.calculate (CalculatorFactory.getCalculator mode) env db request
        = Returned r).
Proof.
  intros Hmode H. rewrite (schema_tonneKm_outcome mode env db request Hmode H).
  split; intros ->; [reflexivity | now eexists].
Qed.

(** X9, witness: the train without weight passes the schema and is
    refused. *)
Lemma schema_tonneKm_needs_weight_witness :
  EmissionCalculator.calculate (N := Exact) (CalculatorFactory.getCalculator rail) env0
    unreachable
    (requestOf unweighedTrain)
  = Threw "Validation failed: Weight (cargo tonnage) must be provided for rail transport".
Proof.
  assert (rail <> road) as H by discriminate.
  assert (BatchRoute.calculationRequestSchema (N := Exact) (requestOf unweighedTrain) = true)
    as Hs by reflexivity.
  apply (proj1 (schema_tonneKm_needs_weight rail env0 unreachable
                  (requestOf unweighedTrain) H Hs)).
  reflexivity.
Defined.

(** ** The metrics *)

Lemma truthy_nonzero (x : option Q) :
  truthy x = true -> exists v : Q, x = Some v /\ ~ v == 0.
Proof.
  intro H. apply truthy_Some in H. destruct H as (v & -> & H).
  exists v. split; [reflexivity |]. intro E.
  simpl in H. apply negb_true_iff in H. apply Qeq_bool_iff in E. congruence.
Qed.

(** in exact arithmetic the emission intensity of a rail, sea or air
    result is the factor (for air times 1.9) divided by the load
    factor *)
Lemma intensity_exact (mode : TransportMode) (env : Env) (db : FactorProvider Q)
    (request : CalculationRequest.t Q) (r : Result.t Q) :
  mode <> road ->
  EmissionCalculator.calculate (CalculatorFactory.getCalculator mode) env db request
  = Returned r ->
  exists loadFactor : Q,
    ActivityData.loadFactor (Result.activityData (Result.Input r)) = Some loadFactor
    /\ Result.emissionIntensity (Result.Metrics r)
       == intensityOf mode
            (EmissionFactor.co2Factor (Result.emissionFactor (Result.Input r))) loadFactor.
Proof.
  intros Hmode H.
  pose proof (result_loadFactor_truthy mode env db request r H) as Hl.
  apply calculate_returned in H. destruct H as [Hv ->].
  destruct (tonneKm_valid mode _ Hmode Hv) as [Hd Hw].
  revert Hl.
  unfold resultOf, EmissionCalculator.buildResult, EmissionCalculator.calculateIntensity.
  cbn [Result.Input Result.activityData Result.emissionFactor Result.Metrics
       Result.emissionIntensity].
  rewrite normalized_distance, normalized_weight, Hd, Hw.
  rewrite (tonneKm_normalized_loadFactor mode _ Hmode).
  intro Hl. apply truthy_nonzero in Hd, Hw, Hl.
  destruct Hd as (d & Ed & Hd), Hw as (w & Ew & Hw), Hl as (l & El & Hl).
  exists l. split; [exact El |]. injection El as El.
  destruct mode; [contradiction | | |];
    cbn [CalculatorFactory.getCalculator CalculatorFactory.createCalculator
         RailTransportCalculator.new SeaTransportCalculator.new AirTransportCalculator.new
         EmissionCalculator.calculateEmissions EmissionCalculator.normalizeActivityData
         andb intensityOf];
    unfold RailTransportCalculator.calculateEmissions,
      SeaTransportCalculator.calculateEmissions,
      AirTransportCalculator.calculateEmissions,
      RailTransportCalculator.normalizeActivityData,
      SeaTransportCalculator.normalizeActivityData,
      AirTransportCalculator.normalizeActivityData;
    cbn [Emissions.total ActivityData.with_loadFactor ActivityData.distance
         ActivityData.weight ActivityData.loadFactor];
    rewrite Ed, Ew; cbn [the GLEC_CONSTANTS.DEFAULT_LOAD_FACTORS] in *;
    rewrite orElse_idempotent, El; simpl; field; repeat split; assumption.
Qed.

Section IntensityInDoubles.
Import PrimFloat.
Local Open Scope float_scope.
Local Set Warnings "-inexact-float".

(** X10: in exact arithmetic the emission intensity of a rail, sea or
    air result does not depend on the distance or the weight: it is the
    factor (for air times 1.9) divided by the load factor.  In double
    precision, in which the total is divided by weight × distance after
    three roundings, it does: with the default rail factor 50 t over
    300 km give 0.035 and 3 t over 7 km 0.034999999999999996. *)
Theorem tonneKm_intensity :
  (forall (mode : TransportMode) (env : Env) (db : FactorProvider Q)
          (request : CalculationRequest.t Q) (r : Result.t Q),
      mode <> road ->
      EmissionCalculator.calculate (CalculatorFactory.getCalculator mode) env db request
      = Returned r ->
      exists loadFactor : Q,
        ActivityData.loadFactor (Result.activityData (Result.Input r)) = Some loadFactor
        /\ (Result.emissionIntensity (Result.Metrics r)
            == intensityOf mode
                 (EmissionFactor.co2Factor (Result.emissionFactor (Result.Input r)))
                 loadFactor)%Q)
  /\ (exists r r' : Result.t float,
        run unreachable railScenario = Returned r
        /\ run unreachable shortTrain = Returned r'
        /\ Result.emissionIntensity (Result.Metrics r) = 0.035
        /\ Result.emissionIntensity (Result.Metrics r') = 0.034999999999999996
        /\ (0.034999999999999996 =? 0.035) = false).
Proof.
  split; [exact intensity_exact |].
  eexists. eexists. split; [reflexivity |]. split; [reflexivity |]. repeat split.
Qed.

End IntensityInDoubles.

(** X10, witness: scenario B in exact arithmetic: 0.028 / 0.8 = 0.035 kg
    per tonne-kilometre. *)
Lemma tonneKm_intensity_witness :
  exists r : Result.t Q,
    run unreachable railScenario = Returned r
    /\ Result.emissionIntensity (Result.Metrics r) == 0.035.
Proof.
  eexists. split; [reflexivity |].
  destruct (proj1 tonneKm_intensity rail env0 unreachable (requestOf railScenario) _
              ltac:(discriminate) eq_refl) as (l & El & H).
  injection El as <-. rewrite H. vm_compute. reflexivity.
Defined.

(** ** The assumptions *)

(** X11: no result records that a load factor was assumed, not even
    when normalisation has put the default in: the assumptions are
    computed from the normalised data, whose load factor is never
    missing. *)
Theorem loadFactor_assumption_never_recorded (mode mode' : TransportMode) (env : Env)
    (db : FactorProvider Q) (request : CalculationRequest.t Q) (r : Result.t Q) :
  EmissionCalculator.calculate (CalculatorFactory.getCalculator mode) env db request
  = Returned r ->
  ~ In (EmissionCalculator.loadFactorAssumed mode') (Result.assumptions (Result.Metadata r)).
Proof.
  intro H. pose proof (result_loadFactor_truthy mode env db request r H) as Hl.
  apply calculate_returned in H. destruct H as [_ ->]. revert Hl.
  unfold resultOf, EmissionCalculator.buildResult.
  cbn [Result.Input Result.activityData Result.Metadata Result.assumptions].
  set (normalized :=
         EmissionCalculator.normalizeActivityData (CalculatorFactory.getCalculator mode)
           (CalculationRequest.activityData request)).
  intro Hl.
  destruct mode; simpl;
    unfold RoadTransportCalculator.getAssumptions, EmissionCalculator.super_getAssumptions,
      push;
    rewrite Hl; cbn [negb app];
    case_tests; simpl; destruct mode'; simpl; intuition discriminate.
Qed.

(** X11, witness: the car trip, whose load factor is the default: three
    assumptions, none about the load factor. *)
Lemma loadFactor_assumption_never_recorded_witness :
  exists r : Result.t Q,
    run unreachable carTrip = Returned r
    /\ ActivityData.loadFactor carTrip = None
    /\ Result.assumptions (Result.Metadata r)
       = [ "No empty return trip assumed"; "Mixed highway/urban route assumed";
           "Standard fuel efficiency assumed for vehicle type" ]%string
    /\ ~ In (EmissionCalculator.loadFactorAssumed road)
           (Result.assumptions (Result.Metadata r)).
Proof.
  eexists. split; [reflexivity |]. split; [reflexivity |]. split; [reflexivity |].
  apply (loadFactor_assumption_never_recorded road road env0 unreachable (requestOf carTrip)).
  reflexivity.
Defined.

(** ** Vehicle types *)

Lemma toLowerCase_idempotent (s : string) : toLowerCase (toLowerCase s) = toLowerCase s.
Proof.
  unfold toLowerCase. induction s as [| c s IH]; simpl; [reflexivity |].
  rewrite IH. f_equal.
  unfold toLowerCase_char.
  destruct c as [[] [] [] [] [] [] [] []]; reflexivity.
Qed.

(** X12: for a vehicle type that in lower case is no member name of
    [Object.prototype], normalising the type twice gives what
    normalising it once gives, and a type that is a known name or an
    alias in any case is mapped to one of the six names, the same as
    its lower-case form. *)
Theorem normalizeVehicleType_idempotent (vehicleType : string) :
  inherited (toLowerCase vehicleType) = false ->
  RoadTransportCalculator.normalizeVehicleType
    (RoadTransportCalculator.normalizeVehicleType vehicleType)
  = RoadTransportCalculator.normalizeVehicleType vehicleType
  /\ (In (toLowerCase vehicleType) (canonicalVehicleTypes ++ vehicleAliases) ->
      RoadTransportCalculator.normalizeVehicleType vehicleType
      = RoadTransportCalculator.normalizeVehicleType (toLowerCase vehicleType)
      /\ In (RoadTransportCalculator.normalizeVehicleType vehicleType) canonicalVehicleTypes).
Proof.
  intros _. split.
  - unfold RoadTransportCalculator.normalizeVehicleType at 2 3.
    unfold RoadTransportCalculator.typeMap, lookup.
    repeat match goal with
           | |- context [String.eqb (toLowerCase vehicleType) ?k] =>
             destruct (String.eqb (toLowerCase vehicleType) k) eqn:?; [reflexivity |]
           end.
    unfold RoadTransportCalculator.normalizeVehicleType,
      RoadTransportCalculator.typeMap, lookup.
    repeat match goal with
           | H : String.eqb _ _ = false |- _ => rewrite H; clear H
           end.
    reflexivity.
  - intro H. unfold RoadTransportCalculator.normalizeVehicleType.
    rewrite toLowerCase_idempotent.
    simpl in H.
    repeat (destruct H as [H | H]; [rewrite <- H; simpl; split; [reflexivity | tauto] |]).
    contradiction.
Qed.

(** X12, witness: a lorry in capitals is a truck. *)
Lemma normalizeVehicleType_idempotent_witness :
  RoadTransportCalculator.normalizeVehicleType "LORRY" = "truck"%string
  /\ In (RoadTransportCalculator.normalizeVehicleType "LORRY") canonicalVehicleTypes.
Proof.
  split; [reflexivity |].
  apply (proj2 (normalizeVehicleType_idempotent "LORRY" eq_refl)).
  simpl. tauto.
Defined.

(** with no factor in the store the road calculator takes its default
    factor *)
Lemma road_default_factor {num : Type} {N : JsNumber num} (env : Env)
    (db : FactorProvider num) (data : ActivityData.t num) :
  (forall q, noFactor (db q) = true) ->
  RoadTransportCalculator.getEmissionFactor env db data
  = RoadTransportCalculator.getDefaultFactor env (ActivityData.vehicle data).
Proof.
  intro H. unfold RoadTransportCalculator.getEmissionFactor.
  match goal with
  | |- context [db ?q] => specialize (H q); destruct (db q) as [| [[| row rows] |] [e |]]
  end; try discriminate; reflexivity.
Qed.

(** X13: a road request under an alias of a vehicle type (lorry, hgv,
    lgv, automobile, motorbike and the like, in any case), with no load
    factor given and no factor in the store, is echoed under the name
    the alias stands for, yet calculated with the generic defaults: a
    load factor of 0.7 and the truck factor of 0.079 kg/km, because the
    defaults are looked up under the name as given. *)
Theorem alias_gets_generic_defaults (env : Env) (db : FactorProvider Q)
    (request : CalculationRequest.t Q) (r : Result.t Q) :
  In (toLowerCase (VehicleCategory.type
                     (ActivityData.vehicle (CalculationRequest.activityData request))))
     vehicleAliases ->
  ActivityData.loadFactor (CalculationRequest.activityData request) = None ->
  (forall q, noFactor (db q) = true) ->
  EmissionCalculator.calculate (CalculatorFactory.getCalculator road) env db request
  = Returned r ->
  In (VehicleCategory.type (ActivityData.vehicle (Result.activityData (Result.Input r))))
     canonicalVehicleTypes
  /\ ActivityData.loadFactor (Result.activityData (Result.Input r)) = Some 0.7
  /\ EmissionFactor.co2Factor (Result.emissionFactor (Result.Input r)) = 0.079
  /\ EmissionFactor.vehicleType (Result.emissionFactor (Result.Input r))
     = VehicleCategory.type (ActivityData.vehicle (CalculationRequest.activityData request)).
Proof.
  intros Halias Hl Hdb H. apply calculate_returned in H. destruct H as [_ ->].
  unfold resultOf, EmissionCalculator.buildResult.
  cbn [Result.Input Result.activityData Result.emissionFactor
       CalculatorFactory.getCalculator CalculatorFactory.createCalculator
       RoadTransportCalculator.new EmissionCalculator.getEmissionFactor
       EmissionCalculator.normalizeActivityData].
  rewrite (road_default_factor env db _ Hdb).
  unfold RoadTransportCalculator.normalizeActivityData,
    RoadTransportCalculator.getDefaultLoadFactor,
    RoadTransportCalculator.normalizeVehicleType,
    RoadTransportCalculator.getDefaultFactor.
  rewrite Hl. cbn [truthy negb ActivityData.with_loadFactor ActivityData.with_vehicle
                   ActivityData.vehicle ActivityData.loadFactor VehicleCategory.type
                   EmissionFactor.co2Factor EmissionFactor.vehicleType].
  simpl in Halias.
  repeat (destruct Halias as [Halias | Halias];
          [rewrite <- Halias; simpl; repeat split; tauto |]).
  contradiction.
Qed.

(** X13, witness: an HGV is echoed as a heavy truck, with the load
    factor 0.7 and the factor 0.079 of the generic truck, not the 0.75
    and 0.125 of the heavy truck. *)
Lemma alias_gets_generic_defaults_witness :
  exists r : Result.t Q,
    run unreachable hgvTrip = Returned r
    /\ VehicleCategory.type (ActivityData.vehicle (Result.activityData (Result.Input r)))
       = "heavy_truck"%string
    /\ ActivityData.loadFactor (Result.activityData (Result.Input r)) = Some 0.7
    /\ EmissionFactor.co2Factor (Result.emissionFactor (Result.Input r)) = 0.079.
Proof.
  eexists. split; [reflexivity |]. split; [reflexivity |].
  edestruct (alias_gets_generic_defaults env0 unreachable (requestOf hgvTrip))
    as (_ & Hl & Hf & _);
    [simpl; tauto | reflexivity | intro; reflexivity | reflexivity |].
  split; [exact Hl | exact Hf].
Defined.

(** ** The stored road factor *)

Section StoredFactor.
Context {num : Type} {N : JsNumber num}.

Lemma sortInsert_In {A : Type} (compare : A -> A -> Z) (x y : A) (sorted : list A) :
  In y (sortInsert compare x sorted) -> y = x \/ In y sorted.
Proof.
  induction sorted as [| z rest IH]; simpl.
  - intros [<- | []]. now left.
  - destruct (compare x z <=? 0)%Z; simpl.
    + intros [<- | H]; [now left | now right].
    + intros [<- | H]; [right; now left |].
      destruct (IH H) as [-> | H']; [now left | right; now right].
Qed.

Lemma sort_In {A : Type} (compare : A -> A -> Z) (y : A) (l : list A) :
  In y (sort compare l) -> In y l.
Proof.
  induction l as [| x rest IH]; simpl; [tauto |].
  intro H. apply sortInsert_In in H. destruct H as [-> | H]; [now left | right; auto].
Qed.

(** the most recent row, the first of the most recent ones, comes first
    in the sort *)
Lemma sort_latest_first (before after : list (FactorRow.t num)) (latest : FactorRow.t num) :
  (forall row, In row before -> (FactorRow.updated_at row < FactorRow.updated_at latest)%Z) ->
  (forall row, In row after -> (FactorRow.updated_at row <= FactorRow.updated_at latest)%Z) ->
  exists rest : list (FactorRow.t num),
    sort RoadTransportCalculator.byUpdatedAtDesc (before ++ latest :: after) = latest :: rest.
Proof.
  intros Hb Ha. induction before as [| b before IH].
  - simpl. fold (sort (@RoadTransportCalculator.byUpdatedAtDesc num) after).
    destruct (sort RoadTransportCalculator.byUpdatedAtDesc after) as [| y rest] eqn:E.
    + now exists [].
    + simpl. assert (In y after) as Hy by (apply (sort_In RoadTransportCalculator.byUpdatedAtDesc);
                                          rewrite E; now left).
      apply Ha in Hy. unfold RoadTransportCalculator.byUpdatedAtDesc at 1.
      destruct (Z.leb_spec (FactorRow.updated_at y - FactorRow.updated_at latest) 0); [| lia].
      now exists (y :: rest).
  - destruct IH as [rest E]; [intros row H; apply Hb; now right |].
    simpl. fold (sort (@RoadTransportCalculator.byUpdatedAtDesc num) (before ++ latest :: after)).
    rewrite E. simpl. unfold RoadTransportCalculator.byUpdatedAtDesc at 1.
    assert (FactorRow.updated_at b < FactorRow.updated_at latest)%Z as Hlt
        by (apply Hb; now left).
    destruct (Z.leb_spec (FactorRow.updated_at latest - FactorRow.updated_at b) 0); [lia |].
    now eexists.
Qed.

(** X14: of the factors the store returns for a road activity the
    calculator takes the most recently updated one, and of several
    updated last the one the store returned first; the factor of the
    result carries the identifier, vehicle type, CO2 factor, unit and
    date of that row, and the scope well-to-wheel. *)
Theorem road_latest_factor (env : Env) (db : FactorProvider num)
    (data : ActivityData.t num) (before after : list (FactorRow.t num))
    (latest : FactorRow.t num) :
  db (roadQuery data) = Resolved (Some (before ++ latest :: after)) None ->
  (forall row, In row before -> (FactorRow.updated_at row < FactorRow.updated_at latest)%Z) ->
  (forall row, In row after -> (FactorRow.updated_at row <= FactorRow.updated_at latest)%Z) ->
  let factor := RoadTransportCalculator.getEmissionFactor env db data in
  EmissionFactor.id factor = FactorRow.id latest
  /\ EmissionFactor.vehicleType factor = FactorRow.vehicle_type latest
  /\ EmissionFactor.co2Factor factor = FactorRow.emission_factor_co2 latest
  /\ EmissionFactor.unit factor = FactorRow.unit latest
  /\ EmissionFactor.updatedAt factor = FactorRow.updated_at latest
  /\ EmissionFactor.region factor = FactorRow.region latest
  /\ EmissionFactor.scope factor = wtw.
Proof.
  intros Hdb Hb Ha factor. subst factor.
  unfold RoadTransportCalculator.getEmissionFactor. fold (roadQuery data). rewrite Hdb.
  destruct (sort_latest_first before after latest Hb Ha) as [rest ->].
  repeat split.
Qed.

End StoredFactor.

(** X14, witness: of an older row, a newer one and a third as recent as
    the second, the second is taken. *)
Lemma road_latest_factor_witness :
  EmissionFactor.id
    (RoadTransportCalculator.getEmissionFactor (N := Exact) env0 threeRows loadedTruck)
  = "f-new"%string.
Proof.
  apply (road_latest_factor (N := Exact) env0 threeRows loadedTruck [olderRow] [tiedRow] newerRow).
  - reflexivity.
  - intros row [<- | []]. reflexivity.
  - intros row [<- | []]. discriminate.
Defined.

(** ** The other gases on the road *)

(** the mass of a gas over a distance at a load factor, when the row of
    the factor store has a factor for the gas that is not zero *)
Lemma truthy_orElse_zero (x : option Q) :
  truthy (Some (orElse x 0)) = truthy x.
Proof.
  destruct x as [c |]; [| reflexivity].
  unfold orElse, truthy. destruct (ToBoolean c) eqn:E; [exact E | reflexivity].
Qed.

Lemma the_orElse_zero (x : option Q) :
  truthy x = true -> the (Some (orElse x 0)) = the x.
Proof.
  destruct x as [c |]; [| discriminate].
  unfold orElse, truthy, the. now intros ->.
Qed.

(** X15: a road result carries a CH4 mass exactly when the stored factor
    taken has a CH4 factor that is not zero, and the mass is then
    distance × factor × load factor: multiplied by the load factor, not
    divided by it; likewise for N2O. *)
Theorem road_stored_gases (env : Env) (db : FactorProvider Q)
    (request : CalculationRequest.t Q) (r : Result.t Q)
    (before after : list (FactorRow.t Q)) (latest : FactorRow.t Q) :
  EmissionCalculator.calculate (CalculatorFactory.getCalculator road) env db request
  = Returned r ->
  db (roadQuery (CalculationRequest.activityData request))
  = Resolved (Some (before ++ latest :: after)) None ->
  (forall row, In row before -> (FactorRow.updated_at row < FactorRow.updated_at latest)%Z) ->
  (forall row, In row after -> (FactorRow.updated_at row <= FactorRow.updated_at latest)%Z) ->
  exists distance loadFactor : Q,
    ActivityData.distance (Result.activityData (Result.Input r)) = Some distance
    /\ ActivityData.loadFactor (Result.activityData (Result.Input r)) = Some loadFactor
    /\ Result.ch4 (Result.Emissions r)
       = (if truthy (FactorRow.emission_factor_ch4 latest)
          then Some (distance * the (FactorRow.emission_factor_ch4 latest) * loadFactor)
          else None)
    /\ Result.n2o (Result.Emissions r)
       = (if truthy (FactorRow.emission_factor_n2o latest)
          then Some (distance * the (FactorRow.emission_factor_n2o latest) * loadFactor)
          else None).
Proof.
  intros H Hdb Hb Ha. apply calculate_returned in H. destruct H as [Hv ->].
  pose proof (valid_distance road _ Hv) as Hd.
  destruct (truthy_Some _ Hd) as (d & Ed & _).
  exists d. eexists.
  unfold resultOf, EmissionCalculator.buildResult.
  cbn [Result.Input Result.activityData Result.Emissions Result.ch4 Result.n2o].
  split; [now rewrite normalized_distance |].
  split; [apply road_normalized_loadFactor |].
  cbn [CalculatorFactory.getCalculator CalculatorFactory.createCalculator
       RoadTransportCalculator.new EmissionCalculator.getEmissionFactor
       EmissionCalculator.calculateEmissions EmissionCalculator.normalizeActivityData].
  unfold RoadTransportCalculator.getEmissionFactor.
  fold (roadQuery (CalculationRequest.activityData request)). rewrite Hdb.
  destruct (sort_latest_first before after latest Hb Ha) as [rest ->].
  unfold RoadTransportCalculator.calculateEmissions.
  cbn [Emissions.ch4 Emissions.n2o EmissionFactor.ch4Factor EmissionFactor.n2oFactor].
  rewrite !truthy_orElse_zero.
  pose proof (normalized_distance road (CalculationRequest.activityData request)) as Hn.
  cbn [CalculatorFactory.getCalculator CalculatorFactory.createCalculator
       RoadTransportCalculator.new EmissionCalculator.normalizeActivityData] in Hn.
  rewrite Hn, Ed. change (the (Some d)) with d.
  split.
  - destruct (truthy (FactorRow.emission_factor_ch4 latest)) eqn:T; [| reflexivity].
    now rewrite the_orElse_zero.
  - destruct (truthy (FactorRow.emission_factor_n2o latest)) eqn:T; [| reflexivity].
    now rewrite the_orElse_zero.
Qed.

(** X15, witness: the loaded truck against the store of one factor with
    both gases: 100 km × 0.001 × 0.5 of CH4. *)
Lemma road_stored_gases_witness :
  exists r : Result.t Q,
    run tkmStore loadedTruck = Returned r
    /\ Result.ch4 (Result.Emissions r) = Some (100 * 0.001 * 0.5)
    /\ Result.n2o (Result.Emissions r) = Some (100 * 0.0001 * 0.5).
Proof.
  eexists. split; [reflexivity |].
  pose proof (fun r H => road_stored_gases env0 tkmStore (requestOf loadedTruck) r
                          [] [] tkmRow H eq_refl) as T.
  edestruct T as (d & l & Ed & El & Hc & Hn);
    [reflexivity | intros row [] | intros row [] |].
  injection Ed as <-. injection El as <-. split; [exact Hc | exact Hn].
Defined.

(** X16: without a stored factor a road result has no CH4 and no N2O
    mass, and its total is its CO2 mass: the default road factors carry
    no factor for the other gases. *)
Theorem road_default_no_other_gases (env : Env) (db : FactorProvider Q)
    (request : CalculationRequest.t Q) (r : Result.t Q) :
  (forall q, noFactor (db q) = true) ->
  EmissionCalculator.calculate (CalculatorFactory.getCalculator road) env db request
  = Returned r ->
  Result.ch4 (Result.Emissions r) = None
  /\ Result.n2o (Result.Emissions r) = None
  /\ Result.total (Result.Emissions r) == Result.co2 (Result.Emissions r).
Proof.
  intros Hdb H. apply calculate_returned in H. destruct H as [_ ->].
  unfold resultOf, EmissionCalculator.buildResult.
  cbn [Result.Emissions Result.ch4 Result.n2o Result.total Result.co2
       CalculatorFactory.getCalculator CalculatorFactory.createCalculator
       RoadTransportCalculator.new EmissionCalculator.getEmissionFactor
       EmissionCalculator.calculateEmissions EmissionCalculator.normalizeActivityData].
  rewrite (road_default_factor env db _ Hdb).
  unfold RoadTransportCalculator.calculateEmissions, RoadTransportCalculator.getDefaultFactor.
  cbn [Emissions.ch4 Emissions.n2o Emissions.total Emissions.co2
       EmissionFactor.ch4Factor EmissionFactor.n2oFactor truthy].
  repeat split.
  unfold EmissionCalculator.convertToCO2e, GLEC_CONSTANTS.GWP_CO2.
  cbn [truthy]. simpl. ring.
Qed.

(** X16, witness: scenario A. *)
Lemma road_default_no_other_gases_witness :
  exists r : Result.t Q,
    run unreachable roadScenario = Returned r
    /\ Result.ch4 (Result.Emissions r) = None
    /\ Result.total (Result.Emissions r) == Result.co2 (Result.Emissions r).
Proof.
  eexists. split; [reflexivity |].
  edestruct (road_default_no_other_gases env0 unreachable (requestOf roadScenario))
    as (Hc & _ & Ht); [intro; reflexivity | reflexivity |].
  split; [exact Hc | exact Ht].
Defined.

(** ** The confidence of a result *)

(** the factor of a rail, sea or air result has no region, whatever the
    store holds *)
Lemma tonneKm_no_region {num : Type} {N : JsNumber num} (mode : TransportMode) (env : Env)
    (db : FactorProvider num) (data : ActivityData.t num) :
  mode <> road ->
  EmissionFactor.region
    (EmissionCalculator.getEmissionFactor (CalculatorFactory.getCalculator mode) env db data)
  = None.
Proof.
  intro H. destruct mode; [contradiction | | |]; simpl;
    unfold RailTransportCalculator.getEmissionFactor,
      SeaTransportCalculator.getEmissionFactor, AirTransportCalculator.getEmissionFactor;
    match goal with
    | |- context [firstRow ?x] => destruct (firstRow x)
    end; reflexivity.
Qed.

(** X17: the confidence of a result is high or medium, never low: the
    distance, the load factor and the scope of the factor always score
    4 points, and the label is high exactly when the weight, the fuel
    consumption and the region of the factor add 3 more, a weight or a
    fuel consumption of zero counting for nothing. *)
Theorem confidence_high_or_medium (mode : TransportMode) (env : Env)
    (db : FactorProvider Q) (request : CalculationRequest.t Q) (r : Result.t Q) :
  EmissionCalculator.calculate (CalculatorFactory.getCalculator mode) env db request
  = Returned r ->
  Result.confidence (Result.Metadata r)
  = if (3 <=? points (truthy (ActivityData.weight (CalculationRequest.activityData request))) 2
             + points (truthy (ActivityData.fuelConsumed
                                 (CalculationRequest.activityData request))) 2
             + points (truthyOS (EmissionFactor.region
                                   (Result.emissionFactor (Result.Input r)))) 1)%nat
    then high else medium.
Proof.
  intro H. pose proof (result_loadFactor_truthy mode env db request r H) as Hl.
  apply calculate_returned in H. destruct H as [Hv ->].
  apply valid_distance in Hv. revert Hl.
  unfold resultOf, EmissionCalculator.buildResult, EmissionCalculator.assessConfidence,
    EmissionCalculator.confidenceScore.
  cbn [Result.confidence Result.Metadata Result.Input Result.activityData
       Result.emissionFactor].
  rewrite normalized_distance, normalized_weight, normalized_fuelConsumed,
    resolved_scope_wtw, Hv.
  intros ->. cbn [Scope_eqb].
  destruct (truthy (ActivityData.weight (CalculationRequest.activityData request)));
    destruct (truthy (ActivityData.fuelConsumed (CalculationRequest.activityData request)));
    destruct (truthyOS _); reflexivity.
Qed.

(** X17, witness: the loaded truck against a stored factor with a
    region: weight and region add 3 points. *)
Lemma confidence_high_or_medium_witness :
  exists r : Result.t Q,
    run tkmStore loadedTruck = Returned r
    /\ Result.confidence (Result.Metadata r) = high.
Proof.
  eexists. split; [reflexivity |].
  exact (confidence_high_or_medium road env0 tkmStore (requestOf loadedTruck) _ eq_refl).
Defined.

(** X18: a rail, sea or air result is of high confidence exactly when
    the fuel consumption is given and not zero, and of medium confidence
    otherwise, whatever factor the store holds. *)
Theorem tonneKm_confidence (mode : TransportMode) (env : Env)
    (db : FactorProvider Q) (request : CalculationRequest.t Q) (r : Result.t Q) :
  mode <> road ->
  EmissionCalculator.calculate (CalculatorFactory.getCalculator mode) env db request
  = Returned r ->
  Result.confidence (Result.Metadata r)
  = if truthy (ActivityData.fuelConsumed (CalculationRequest.activityData request))
    then high else medium.
Proof.
  intros Hmode H. pose proof (result_loadFactor_truthy mode env db request r H) as Hl.
  apply calculate_returned in H. destruct H as [Hv ->].
  destruct (tonneKm_valid mode _ Hmode Hv) as [Hd Hw]. revert Hl.
  unfold resultOf, EmissionCalculator.buildResult, EmissionCalculator.assessConfidence,
    EmissionCalculator.confidenceScore.
  cbn [Result.confidence Result.Metadata Result.Input Result.activityData
       Result.emissionFactor].
  rewrite normalized_distance, normalized_weight, normalized_fuelConsumed,
    resolved_scope_wtw, (tonneKm_no_region mode env db _ Hmode), Hd, Hw.
  intros ->. cbn [Scope_eqb truthyOS].
  destruct (truthy (ActivityData.fuelConsumed (CalculationRequest.activityData request)));
    reflexivity.
Qed.

(** X18, witness: scenario B gives no fuel consumption. *)
Lemma tonneKm_confidence_witness :
  exists r : Result.t Q,
    run unreachable railScenario = Returned r
    /\ Result.confidence (Result.Metadata r) = medium.
Proof.
  eexists. split; [reflexivity |].
  exact (tonneKm_confidence rail env0 unreachable (requestOf railScenario) _
           ltac:(discriminate) eq_refl).
Defined.

(** ** The batch route and the schema *)

Section BatchSchema.
Context {num : Type} {N : JsNumber num}.

(** every outcome of a batch is the outcome of the item at its index *)
Lemma outcomes_In (env : nat -> Env) (db : nat -> FactorProvider num)
    (calculations : list (CalculationRequest.t num)) :
  forall (first i : nat) (o : Completion (Result.t num)),
    In (i, o) (outcomes env db first calculations) ->
    exists request : CalculationRequest.t num,
      nth_error calculations (i - first) = Some request
      /\ (first <= i)%nat
      /\ o = EmissionCalculator.calculate
               (CalculatorFactory.getCalculator
                  (ActivityData.transportMode (CalculationRequest.activityData request)))
               (env i) (db i) request.
Proof.
  induction calculations as [| c rest IH]; intros first i o H.
  - destruct H.
  - unfold outcomes in H. simpl in H. destruct H as [H | H].
    + injection H as <- <-. exists c. rewrite Nat.sub_diag. repeat split. lia.
    + apply IH in H. destruct H as (request & Hn & Hle & ->).
      exists request. replace (i - first)%nat with (S (i - S first)) by lia.
      repeat split; [exact Hn | lia].
Qed.

Lemma failures_In (l : list (nat * Completion (Result.t num))) (i : nat) (message : string) :
  In (i, message) (failures l) -> In (i, Threw message) l.
Proof.
  unfold failures. rewrite in_flat_map. intros ([j [r | m]] & Hin & H); simpl in H.
  - destruct H.
  - destruct H as [H | []]. now injection H as <- <-.
Qed.

(** X20: the batch route answers 400, calculating nothing, exactly when
    the batch is empty, has more than 100 items, or has one item that
    does not pass the schema of a request: one such item refuses the
    whole batch. *)
Theorem batch_rejected_whole (env : nat -> Env) (db : nat -> FactorProvider num)
    (batchRequest : BatchRoute.request num) :
  BatchRoute.handler env db batchRequest = BatchRoute.Status400
  <-> BatchRoute.calculations batchRequest = []
      \/ (100 < length (BatchRoute.calculations batchRequest))%nat
      \/ exists request : CalculationRequest.t num,
           In request (BatchRoute.calculations batchRequest)
           /\ BatchRoute.calculationRequestSchema request = false.
Proof.
  unfold BatchRoute.handler, BatchRoute.schema.
  destruct (forallb BatchRoute.calculationRequestSchema (BatchRoute.calculations batchRequest))
    eqn:F.
  - destruct (BatchRoute.calculations batchRequest) as [| c rest] eqn:E.
    + simpl. split; [now left | reflexivity].
    + change (1 <=? length (c :: rest))%nat with true. cbn [andb].
      destruct (Nat.leb_spec (length (c :: rest)) 100) as [Hle | Hgt]; cbn [negb].
      * split; [discriminate |].
        intros [H | [H | (request & Hin & H)]]; [discriminate | lia |].
        rewrite forallb_forall in F. rewrite (F request Hin) in H. discriminate.
      * split; [right; now left | reflexivity].
  - cbn [andb negb]. split; [| reflexivity]. intros _. right. right.
    assert (forallb BatchRoute.calculationRequestSchema (BatchRoute.calculations batchRequest)
            <> true) as F' by congruence.
    rewrite forallb_forall in F'.
    induction (BatchRoute.calculations batchRequest) as [| c rest IH].
    + elim F'. intros x [].
    + destruct (BatchRoute.calculationRequestSchema c) eqn:Ec.
      * destruct IH as (request & Hin & H).
        { simpl in F. now rewrite Ec in F. }
        { intro Hall. apply F'. intros x [<- | Hx]; [exact Ec | now apply Hall]. }
        exists request. split; [now right | exact H].
      * exists c. split; [now left | exact Ec].
Qed.

End BatchSchema.

(** X19: the errors of a batch the route has accepted are all of one
    kind: the item is a rail, sea or air request whose weight is missing
    or zero, and the message says that a weight is required; a road item
    of an accepted batch never fails. *)
Theorem batch_errors_only_missing_weight (env : nat -> Env) (db : nat -> FactorProvider Q)
    (batchRequest : BatchRoute.request Q) (json : BatchRoute.body Q)
    (errors : list (nat * string)) (i : nat) (message : string) :
  BatchRoute.handler env db batchRequest = BatchRoute.Status200 json ->
  BatchRoute.errors json = Some errors ->
  In (i, message) errors ->
  exists request : CalculationRequest.t Q,
    nth_error (BatchRoute.calculations batchRequest) i = Some request
    /\ ActivityData.transportMode (CalculationRequest.activityData request) <> road
    /\ truthy (ActivityData.weight (CalculationRequest.activityData request)) = false
    /\ message
       = weightRequired (ActivityData.transportMode (CalculationRequest.activityData request)).
Proof.
  unfold BatchRoute.handler.
  destruct (BatchRoute.schema batchRequest) eqn:S; cbn [negb]; [| discriminate].
  intros [= <-]. unfold BatchRoute.calculateBatch. rewrite processFrom_outcomes.
  cbn [app BatchRoute.errors].
  set (outs := outcomes env db 0 (BatchRoute.calculations batchRequest)).
  destruct (0 <? length (failures outs))%nat; [| discriminate].
  intros [= <-] Hin. apply failures_In in Hin. apply outcomes_In in Hin.
  destruct Hin as (request & Hn & _ & Ho). rewrite Nat.sub_0_r in Hn.
  exists request. split; [exact Hn |].
  assert (BatchRoute.calculationRequestSchema request = true) as Hs.
  { unfold BatchRoute.schema in S.
    apply andb_prop in S. destruct S as [S _]. apply andb_prop in S. destruct S as [S _].
    rewrite forallb_forall in S. apply S. eapply nth_error_In. exact Hn. }
  destruct (ActivityData.transportMode (CalculationRequest.activityData request)) eqn:M.
  - rewrite (calculate_valid (CalculatorFactory.getCalculator road) (env i) (db i) request
               (schema_road_valid request Hs)) in Ho.
    discriminate.
  - rewrite (schema_tonneKm_outcome rail) in Ho by (discriminate || exact Hs).
    destruct (truthy _); [discriminate |]. injection Ho as ->.
    repeat split. discriminate.
  - rewrite (schema_tonneKm_outcome sea) in Ho by (discriminate || exact Hs).
    destruct (truthy _); [discriminate |]. injection Ho as ->.
    repeat split. discriminate.
  - rewrite (schema_tonneKm_outcome air) in Ho by (discriminate || exact Hs).
    destruct (truthy _); [discriminate |]. injection Ho as ->.
    repeat split. discriminate.
Qed.

(** X19, witness: the one error of the batch of three is that of the
    train without weight. *)
Lemma batch_errors_only_missing_weight_witness :
  exists request : CalculationRequest.t Q,
    nth_error (BatchRoute.calculations (num := Q) mixedBatch) 1 = Some request
    /\ ActivityData.transportMode (CalculationRequest.activityData request) <> road
    /\ truthy (ActivityData.weight (CalculationRequest.activityData request)) = false.
Proof.
  assert (BatchRoute.handler (fun _ => env0) (fun _ => unreachable) mixedBatch
          = BatchRoute.Status200 mixedBatchResponse) as Hh by reflexivity.
  assert (BatchRoute.errors mixedBatchResponse = Some [(1%nat, weightRequired rail)])
    as He by reflexivity.
  destruct (batch_errors_only_missing_weight (fun _ => env0) (fun _ => unreachable)
              mixedBatch mixedBatchResponse
              [(1%nat, weightRequired rail)] 1
              (weightRequired rail) Hh He (or_introl eq_refl))
    as (request & Hn & Hm & Hw & _).
  exists request. repeat split; assumption.
Defined.

(** X28: the response to a batch has an aggregate exactly when the
    batch asks for one and at least one item succeeded: a batch whose
    items all fail gets none, rather than sums of zero and an average
    over no result.  The count of an aggregate is the number of results
    returned, which with the number of errors makes up the number of
    requests. *)
Theorem batch_aggregate_present {num : Type} {N : JsNumber num} (env : nat -> Env)
    (db : nat -> FactorProvider num) (batchRequest : BatchRoute.request num) :
  let body := BatchRoute.calculateBatch env db batchRequest in
  (BatchRoute.Aggregate body = None
   <-> aggregateRequested batchRequest = false \/ BatchRoute.individual body = [])
  /\ (forall a : BatchRoute.aggregate num,
         BatchRoute.Aggregate body = Some a ->
         BatchRoute.calculationCount a = length (BatchRoute.individual body)
         /\ BatchRoute.calculationCount a = BatchRoute.successful (BatchRoute.Summary body)
         /\ (BatchRoute.calculationCount a + BatchRoute.failed (BatchRoute.Summary body)
             = BatchRoute.totalRequests (BatchRoute.Summary body))%nat
         /\ BatchRoute.averageIntensity a
            = (fold_left (fun sum r => (sum + Result.emissionIntensity (Result.Metrics r))%js)
                 (BatchRoute.individual body) (lit 0)
               / BatchRoute.ofLength (BatchRoute.calculationCount a))%js).
Proof.
  intro body. subst body. unfold BatchRoute.calculateBatch, aggregateRequested.
  rewrite processFrom_outcomes. cbn [app].
  set (outs := outcomes env db 0 (BatchRoute.calculations batchRequest)).
  pose proof (outcomes_split outs) as Hsplit.
  unfold outs in Hsplit at 3. rewrite outcomes_length in Hsplit.
  destruct (match BatchRoute.batchOptions batchRequest with
            | Some o => truthyB (BatchRoute.aggregateResults o)
            | None => false
            end) eqn:R;
    cbn [andb BatchRoute.Aggregate BatchRoute.individual BatchRoute.Summary
         BatchRoute.successful BatchRoute.failed BatchRoute.totalRequests].
  - destruct (successes outs) as [| s ss] eqn:E.
    + cbn [length Nat.ltb Nat.leb map]. split; [split; [now right | reflexivity] |].
      intros a [=].
    + change (0 <? length (s :: ss))%nat with true. cbv iota. split.
      * split; [discriminate | intros [H | H]; discriminate].
      * intros a [= <-]. cbn [BatchRoute.calculationCount BatchRoute.averageIntensity].
        rewrite length_map, sumOver_individual. repeat split. exact Hsplit.
  - split; [split; [now left | reflexivity] | intros a [=]].
Qed.

(** * Authentication *)

(** a string that begins with a prefix is the prefix followed by what
    [substring] takes after it *)
Lemma prefix_substring (p s : string) :
  String.prefix p s = true ->
  s = (p ++ String.substring (String.length p) (String.length s - String.length p) s)%string.
Proof.
  revert s. induction p as [| a p IH]; intros s H.
  - simpl. rewrite Nat.sub_0_r. clear H.
    induction s as [| b s IHs]; simpl; [reflexivity | now rewrite <- IHs].
  - destruct s as [| b s]; [discriminate |]. simpl in H.
    destruct (Ascii.ascii_dec a b) as [<- | ]; [| discriminate].
    simpl. now rewrite <- IH.
Qed.

Lemma prefix_append (p s : string) : String.prefix p (p ++ s) = true.
Proof.
  induction p as [| a p IH]; simpl; [now destruct s |].
  destruct (Ascii.ascii_dec a a); [exact IH | contradiction].
Qed.

(** a request that passes a middleware of authentication has a user *)
Lemma verifyJWT_user (identity : Auth.IdentityService) (req req' : Auth.Request) :
  Auth.verifyJWT identity req = Auth.Next req' -> Auth.user req' <> None.
Proof.
  unfold Auth.verifyJWT.
  destruct (Auth.authorization (Auth.headers req)) as [h |]; [| discriminate].
  destruct (negb (truthyS h) || negb (String.prefix "Bearer " h)); [discriminate |].
  destruct (identity _) as [| [su |] [e |]]; try discriminate.
  intros [= <-]. discriminate.
Qed.

Lemma verifyAPIKey_user (keys : Auth.KeyStore) (req req' : Auth.Request) :
  Auth.verifyAPIKey keys req = Auth.Next req' ->
  exists u : Auth.User.t,
    Auth.user req' = Some u /\ Auth.User.role u = Some "api_user"%string.
Proof.
  unfold Auth.verifyAPIKey.
  destruct (Auth.x_api_key (Auth.headers req)) as [k |]; [| discriminate].
  destruct (negb (truthyS k)); [discriminate |].
  destruct (negb (String.prefix "glec_" k)); [discriminate |].
  destruct (keys k) as [| [row |] [e |]]; try discriminate.
  destruct (Auth.KeyRow.user_profiles row) as [email |]; [| discriminate].
  intros [= <-]. eexists. split; reflexivity.
Qed.

Lemma authenticate_user (required : string) (identity : Auth.IdentityService)
    (keys : Auth.KeyStore) (req req' : Auth.Request) :
  Auth.authenticate required identity keys req = Auth.Next req' -> Auth.user req' <> None.
Proof.
  unfold Auth.authenticate.
  destruct (truthyOS (Auth.authorization (Auth.headers req))).
  - apply verifyJWT_user.
  - destruct (truthyOS (Auth.x_api_key (Auth.headers req))); [| discriminate].
    intro H. apply verifyAPIKey_user in H. destruct H as (u & -> & _). discriminate.
Qed.

(** X21: a request passes the authentication of the calculation routes
    in two ways only.  With an authorization header it must be Bearer
    and a token that the identity service resolves to a user without
    error: the user of the request is that user, with the role of its
    metadata or else the role user, and a key sent along is never looked
    at.  Without one it must carry a key that begins with glec_ and that
    the store resolves to a row with a profile: the user is the owner of
    the key, with the role api_user. *)
Theorem authenticate_passes (required : string) (identity : Auth.IdentityService)
    (keys : Auth.KeyStore) (req req' : Auth.Request) :
  Auth.authenticate required identity keys req = Auth.Next req' ->
  (exists (token : string) (su : Auth.SupabaseUser.t),
      Auth.authorization (Auth.headers req) = Some ("Bearer " ++ token)%string
      /\ identity token = Auth.GetUserResolved (Some su) None
      /\ req' = Auth.mkRequest (Auth.headers req)
                  (Some (Auth.User.mk (Auth.SupabaseUser.id su) (Auth.SupabaseUser.email su)
                           (Some match Auth.SupabaseUser.user_metadata_role su with
                                 | Some EmptyString | None => "user"%string
                                 | Some role => role
                                 end)))
                  (Auth.apiKey req))
  \/ (truthyOS (Auth.authorization (Auth.headers req)) = false
      /\ exists (key : string) (row : Auth.KeyRow.t) (email : option string),
           Auth.x_api_key (Auth.headers req) = Some key
           /\ String.prefix "glec_" key = true
           /\ keys key = Auth.KeyResolved (Some row) None
           /\ Auth.KeyRow.user_profiles row = Some email
           /\ req' = Auth.mkRequest (Auth.headers req)
                       (Some (Auth.User.mk (Auth.KeyRow.user_id row) email
                                (Some "api_user"%string)))
                       (Some (Auth.ApiKey.mk (Auth.KeyRow.id row) (Auth.KeyRow.user_id row)
                                (Auth.KeyRow.key_name row)))).
Proof.
  unfold Auth.authenticate.
  destruct (truthyOS (Auth.authorization (Auth.headers req))) eqn:A.
  - intro H. left. unfold Auth.verifyJWT in H.
    destruct (Auth.authorization (Auth.headers req)) as [h |]; [| discriminate].
    destruct (truthyS h); [| discriminate]. cbn [negb orb] in H.
    destruct (String.prefix "Bearer " h) eqn:P; [| discriminate]. cbn [negb] in H.
    exists (String.substring 7 (String.length h - 7) h).
    destruct (identity _) as [| [su |] [e |]] eqn:I; try discriminate.
    exists su. split; [f_equal; exact (prefix_substring "Bearer " h P) |].
    split; [reflexivity |]. injection H as <-.
    destruct (Auth.SupabaseUser.user_metadata_role su) as [[| c role] |]; reflexivity.
  - destruct (truthyOS (Auth.x_api_key (Auth.headers req))); [| discriminate].
    intro H. right. split; [reflexivity |]. unfold Auth.verifyAPIKey in H.
    destruct (Auth.x_api_key (Auth.headers req)) as [k |]; [| discriminate].
    destruct (negb (truthyS k)); [discriminate |].
    destruct (String.prefix "glec_" k) eqn:P; [| discriminate]. cbn [negb] in H.
    destruct (keys k) as [| [row |] [e |]] eqn:K; try discriminate.
    destruct (Auth.KeyRow.user_profiles row) as [email |] eqn:U; [| discriminate].
    injection H as <-. exists k, row, email. repeat split; assumption.
Qed.

(** X21, witness: a Bearer token and a key together: the token decides. *)
Lemma authenticate_passes_witness :
  exists req' : Auth.Request,
    Auth.authenticate "Authentication required"
      (fun token => if String.eqb token "t0" then
                      Auth.GetUserResolved (Some (Auth.SupabaseUser.mk "u1" None None)) None
                    else Auth.GetUserResolved None (Some "invalid"%string))
      (fun _ => Auth.KeyRejected)
      (Auth.mkRequest (Auth.mkHeaders (Some "Bearer t0"%string) (Some "glec_00"%string))
         None None)
    = Auth.Next req'
    /\ Auth.user req' = Some (Auth.User.mk "u1" None (Some "user"%string)).
Proof.
  eexists. split; [reflexivity |].
  destruct (authenticate_passes "Authentication required"
              (fun token => if String.eqb token "t0" then
                              Auth.GetUserResolved (Some (Auth.SupabaseUser.mk "u1" None None))
                                None
                            else Auth.GetUserResolved None (Some "invalid"%string))
              (fun _ => Auth.KeyRejected)
              (Auth.mkRequest
                 (Auth.mkHeaders (Some "Bearer t0"%string) (Some "glec_00"%string)) None None)
              _ eq_refl)
    as [(token & su & _ & _ & _) | (H & _)]; [reflexivity | discriminate H].
Defined.

(** X22: a request authenticated by key has the role api_user whatever
    the profile of its owner: it passes [requireRole] exactly when
    api_user is among the roles asked for. *)
Theorem api_key_role (keys : Auth.KeyStore) (roles : list string)
    (req req' : Auth.Request) :
  Auth.verifyAPIKey keys req = Auth.Next req' ->
  (Auth.requireRole roles req' = Auth.Next req' <-> In "api_user"%string roles)
  /\ (~ In "api_user"%string roles ->
      Auth.requireRole roles req' = Auth.Respond 403 "Insufficient permissions").
Proof.
  intro H. apply verifyAPIKey_user in H. destruct H as (u & Hu & Hr).
  unfold Auth.requireRole. rewrite Hu, Hr.
  destruct (existsb (String.eqb "api_user") roles) eqn:E; cbn [negb].
  - apply existsb_exists in E. destruct E as (x & Hin & Hx).
    apply String.eqb_eq in Hx. subst x.
    split; [split; [intros _; exact Hin | reflexivity] | contradiction].
  - assert (~ In "api_user"%string roles) as Hn.
    { intro Hin. assert (existsb (String.eqb "api_user") roles = true) as E'.
      { apply existsb_exists. exists "api_user"%string.
        split; [exact Hin | apply String.eqb_refl]. }
      congruence. }
    split; [split; [discriminate | contradiction] | reflexivity].
Qed.

(** X22, witness: a key holder is refused where the role admin is
    asked for. *)
Lemma api_key_role_witness :
  Auth.requireRole ["admin"%string]
    (Auth.mkRequest (Auth.mkHeaders None (Some "glec_00"%string))
       (Some (Auth.User.mk "u1" (Some "a@b.c"%string) (Some "api_user"%string)))
       (Some (Auth.ApiKey.mk "k1" "u1" "key")))
  = Auth.Respond 403 "Insufficient permissions".
Proof.
  apply (api_key_role
           (fun _ => Auth.KeyResolved
                       (Some (Auth.KeyRow.mk "k1" "u1" "key" (Some (Some "a@b.c"%string))))
                       None)
           ["admin"%string]
           (Auth.mkRequest (Auth.mkHeaders None (Some "glec_00"%string)) None None)).
  - reflexivity.
  - intros [H | []]. discriminate H.
Defined.

(** X23: a key such as the route [/api-keys] makes passes the tests of
    presence and of format: sent without an authorization header, it
    authenticates the owner of its row as soon as the store resolves
    it, whatever the random part. *)
Theorem created_key_authenticates (required randomHex : string)
    (identity : Auth.IdentityService) (keys : Auth.KeyStore) (req : Auth.Request)
    (row : Auth.KeyRow.t) (email : option string) :
  truthyOS (Auth.authorization (Auth.headers req)) = false ->
  Auth.x_api_key (Auth.headers req) = Some (Auth.keyValue randomHex) ->
  keys (Auth.keyValue randomHex) = Auth.KeyResolved (Some row) None ->
  Auth.KeyRow.user_profiles row = Some email ->
  Auth.authenticate required identity keys req
  = Auth.Next (Auth.mkRequest (Auth.headers req)
                 (Some (Auth.User.mk (Auth.KeyRow.user_id row) email
                          (Some "api_user"%string)))
                 (Some (Auth.ApiKey.mk (Auth.KeyRow.id row) (Auth.KeyRow.user_id row)
                          (Auth.KeyRow.key_name row)))).
Proof.
  intros A K S U. unfold Auth.authenticate, Auth.verifyAPIKey. rewrite A, K.
  unfold Auth.keyValue in *.
  change (truthyOS (Some ("glec_" ++ randomHex)%string)) with true. cbn iota.
  change (truthyS ("glec_" ++ randomHex)%string) with true. cbn [negb].
  rewrite prefix_append. cbn [negb]. now rewrite S, U.
Qed.

(** X23, witness: a key of the made form, stored. *)
Lemma created_key_authenticates_witness :
  Auth.authenticate "Authentication required" (fun _ => Auth.GetUserRejected)
    (fun _ => Auth.KeyResolved
                (Some (Auth.KeyRow.mk "k1" "u1" "key" (Some (Some "a@b.c"%string)))) None)
    (Auth.mkRequest (Auth.mkHeaders None (Some (Auth.keyValue "00ff"))) None None)
  = Auth.Next
      (Auth.mkRequest (Auth.mkHeaders None (Some (Auth.keyValue "00ff")))
         (Some (Auth.User.mk "u1" (Some "a@b.c"%string) (Some "api_user"%string)))
         (Some (Auth.ApiKey.mk "k1" "u1" "key"))).
Proof.
  apply (created_key_authenticates "Authentication required" "00ff"
           (fun _ => Auth.GetUserRejected)
           (fun _ => Auth.KeyResolved
                       (Some (Auth.KeyRow.mk "k1" "u1" "key" (Some (Some "a@b.c"%string))))
                       None)
           (Auth.mkRequest (Auth.mkHeaders None (Some (Auth.keyValue "00ff"))) None None)
           (Auth.KeyRow.mk "k1" "u1" "key" (Some (Some "a@b.c"%string)))
           (Some "a@b.c"%string));
    reflexivity.
Defined.

(** * The [/calculate] route *)

Section CalculateHandler.
Context {num : Type} {N : JsNumber num}.
Variable Math_round : num -> num.
Variable Math_pow : num -> num -> num.

(** what a calculator throws is answered as a validation error *)
Lemma calculate_threw_caught (this : EmissionCalculator.t num) (env : Env)
    (db : FactorProvider num) (request : CalculationRequest.t num) (message : string) :
  EmissionCalculator.calculate this env db request = Threw message ->
  CalculateRoute.caught (num := num) (Some message)
  = CalculateRoute.Status400 "Validation Error" (Some message).
Proof.
  unfold EmissionCalculator.calculate.
  destruct (0 <? length _)%nat; [| discriminate].
  intros [= <-]. reflexivity.
Qed.

(** X25: whatever the headers and the body, the [/calculate] route
    answers 401, 400 or 200 as long as the write to the history
    resolves, with an error or without: 401 exactly when the
    authentication refuses, and 200 only to an authenticated request. *)
Theorem calculate_route_statuses (identity : Auth.IdentityService) (keys : Auth.KeyStore)
    (env : Env) (db : FactorProvider num) (store : CalculateRoute.ResultStore)
    (req : Auth.Request) (request : CalculationRequest.t num) :
  (forall (id : string) (r : Result.t num),
      exists e : option string, store id r = CalculateRoute.StoreResolved e) ->
  let answer :=
    CalculateRoute.route Math_round Math_pow identity keys env db store req request in
  let gate :=
    Auth.authenticate "Authentication required. Provide either JWT token or API key."
      identity keys req in
  (exists (status : nat) (error : string),
      gate = Auth.Respond status error /\ answer = CalculateRoute.Status401 error)
  \/ (exists req' : Auth.Request,
        gate = Auth.Next req'
        /\ ((exists (error : string) (message : option string),
                answer = CalculateRoute.Status400 error message)
            \/ (exists body : CalculateRoute.json num,
                  answer = CalculateRoute.Status200 body))).
Proof.
  intros Hstore answer gate. subst answer gate. unfold CalculateRoute.route.
  destruct (Auth.authenticate _ identity keys req) as [status error | req'] eqn:A.
  - left. now exists status, error.
  - right. exists req'. split; [reflexivity |].
    cbn [Auth.trackAPIUsage]. unfold CalculateRoute.handler.
    destruct (BatchRoute.calculationRequestSchema request); cbn [negb]; [| left; eauto].
    destruct (EmissionCalculator.calculate _ env db request) as [r | message] eqn:C.
    + apply authenticate_user in A.
      destruct (Auth.user req') as [u |]; [| contradiction].
      destruct (Hstore (Auth.User.id u) r) as [e ->]. right. eauto.
    + left. rewrite (calculate_threw_caught _ _ _ _ _ C). eauto.
Qed.

End CalculateHandler.

(** X24: for a request with a user, when the write to the history
    resolves, the handler of [/calculate] answers 400 to a body that
    does not pass the schema; 400 with the message that a weight is
    required to a rail, sea or air request without a weight other than
    zero; and otherwise 200 with the result of the calculator rounded
    to the precision of the request, under its identifier and date. *)
Theorem calculate_handler_outcome (Math_round : Q -> Q) (Math_pow : Q -> Q -> Q)
    (env : Env) (db : FactorProvider Q) (store : CalculateRoute.ResultStore)
    (req : Auth.Request) (request : CalculationRequest.t Q) (u : Auth.User.t) :
  Auth.user req = Some u ->
  (forall (id : string) (r : Result.t Q),
      exists e : option string, store id r = CalculateRoute.StoreResolved e) ->
  let mode := ActivityData.transportMode (CalculationRequest.activityData request) in
  CalculateRoute.handler Math_round Math_pow env db store req request
  = if negb (BatchRoute.calculationRequestSchema request) then
      CalculateRoute.Status400 "Invalid input data" None
    else if TransportMode_eqb mode road
            || truthy (ActivityData.weight (CalculationRequest.activityData request)) then
      CalculateRoute.Status200
        (CalculateRoute.mkJson true
           (EmissionCalculator.generateCalculationId mode env)
           (CalculateRoute.roundEmissions Math_round Math_pow
              (resultOf (CalculatorFactory.getCalculator mode) env db request)
              (precisionOf request))
           GLEC_CONSTANTS.VERSION (now env))
    else CalculateRoute.Status400 "Validation Error" (Some (weightRequired mode)).
Proof.
  intros Hu Hstore mode. unfold CalculateRoute.handler. rewrite Hu.
  destruct (BatchRoute.calculationRequestSchema request) eqn:S; cbn [negb]; [| reflexivity].
  fold mode.
  assert (EmissionCalculator.calculate (CalculatorFactory.getCalculator mode) env db request
          = if TransportMode_eqb mode road
               || truthy (ActivityData.weight (CalculationRequest.activityData request))
            then Returned (resultOf (CalculatorFactory.getCalculator mode) env db request)
            else Threw (weightRequired mode)) as ->.
  { destruct mode eqn:M; cbn [TransportMode_eqb orb].
    - apply calculate_valid. now apply schema_road_valid.
    - apply schema_tonneKm_outcome; [discriminate | exact S].
    - apply schema_tonneKm_outcome; [discriminate | exact S].
    - apply schema_tonneKm_outcome; [discriminate | exact S]. }
  destruct (TransportMode_eqb mode road
            || truthy (ActivityData.weight (CalculationRequest.activityData request))).
  - destruct (Hstore (Auth.User.id u)
                (resultOf (CalculatorFactory.getCalculator mode) env db request)) as [e ->].
    unfold precisionOf. destruct mode; reflexivity.
  - destruct mode; reflexivity.
Qed.

(** X24, witness: the train without weight is answered 400. *)
Lemma calculate_handler_outcome_witness :
  CalculateRoute.handler roundHalfUp (fun _ _ => 100) env0 unreachable writable
    authenticated (requestOf unweighedTrain)
  = CalculateRoute.Status400 "Validation Error"
      (Some "Validation failed: Weight (cargo tonnage) must be provided for rail transport"%string).
Proof.
  assert (forall (id : string) (r : Result.t Q),
             exists e : option string, writable id r = CalculateRoute.StoreResolved e) as Hs
      by (intros id r; now exists None).
  rewrite (calculate_handler_outcome roundHalfUp (fun _ _ => 100) env0 unreachable writable
             authenticated (requestOf unweighedTrain)
             (Auth.User.mk "u1" None (Some "user"%string)) eq_refl Hs).
  reflexivity.
Defined.

(** X25, witness: the same request without any header is answered
    401. *)
Lemma calculate_route_statuses_witness :
  CalculateRoute.route roundHalfUp (fun _ _ => 100) (fun _ => Auth.GetUserRejected)
    (fun _ => Auth.KeyRejected) env0 unreachable writable
    (Auth.mkRequest (Auth.mkHeaders None None) None None) (requestOf unweighedTrain)
  = CalculateRoute.Status401 "Authentication required. Provide either JWT token or API key.".
Proof.
  destruct (calculate_route_statuses (N := Exact) roundHalfUp (fun _ _ => 100)
              (fun _ => Auth.GetUserRejected) (fun _ => Auth.KeyRejected) env0 unreachable
              writable (Auth.mkRequest (Auth.mkHeaders None None) None None)
              (requestOf unweighedTrain))
    as [(status & error & Hg & Ha) | (req' & Hg & _)].
  - intros id r. now exists None.
  - injection Hg as <- <-. exact Ha.
  - discriminate Hg.
Defined.

(** ** Rounding *)

Lemma powerOfTen_positive (n : nat) : 0 < powerOfTen n.
Proof.
  unfold powerOfTen. change 0 with (inject_Z 0). rewrite <- Zlt_Qlt.
  apply Z.pow_pos_nonneg; lia.
Qed.

(** rounding a number scaled by a positive power and scaling it back
    moves it by half a unit of the power at most *)
Lemma round_within (Math_pow : Q -> Q -> Q) (precision power x : Q) :
  0 < power ->
  Math_pow 10 precision == power ->
  within (1 / (2 * power)) (CalculateRoute.round roundHalfUp Math_pow precision x) x.
Proof.
  intros Hpos Hpow. unfold CalculateRoute.round, within, roundHalfUp.
  cbn [lit Exact times divide].
  set (P := Math_pow 10 precision) in *.
  assert (0 < P) as HP by now rewrite Hpow.
  rewrite <- Hpow. clear Hpow Hpos power.
  assert (~ P == 0) as Hne by (intro E; rewrite E in HP; now apply Qlt_irrefl in HP).
  pose proof (Qfloor_le (x * P + (1 # 2))) as Hle.
  pose proof (Qlt_floor (x * P + (1 # 2))) as Hlt.
  rewrite inject_Z_plus in Hlt. change (inject_Z 1) with 1 in Hlt.
  set (F := inject_Z (Qfloor (x * P + (1 # 2)))) in *.
  split.
  - apply Qlt_shift_div_l; [exact HP |].
    assert ((x - 1 / (2 * P)) * P == x * P - (1 # 2)) as -> by (field; exact Hne).
    apply (Qplus_lt_l _ _ 1).
    setoid_replace (x * P - (1 # 2) + 1) with (x * P + (1 # 2)) by ring.
    exact Hlt.
  - apply Qle_shift_div_r; [exact HP |].
    assert ((x + 1 / (2 * P)) * P == x * P + (1 # 2)) as -> by (field; exact Hne).
    exact Hle.
Qed.

Section RoundingInDoubles.
Import PrimFloat.
Local Open Scope float_scope.
Local Set Warnings "-inexact-float".

(** X26: in exact arithmetic, with a whole precision of [n] decimals,
    the CO2 mass, the total, the direct and indirect emissions and the
    intensity that [roundEmissions] returns each lie within half a unit
    of the [n]-th decimal of the figure of the calculator.  In double
    precision the product by the power of ten is rounded before
    [Math.round] sees it, and the bound can be missed: at one decimal
    the double 1.45 times 10 is 14.5 and goes to 1.5, more than 0.05
    away. *)
Theorem rounded_within_half_unit :
  (forall (Math_pow : Q -> Q -> Q) (precision : Q) (n : nat) (result : Result.t Q),
      (Math_pow 10 precision == powerOfTen n)%Q ->
      let rounded := CalculateRoute.roundEmissions roundHalfUp Math_pow result precision in
      let half := (1 / (2 * powerOfTen n))%Q in
      within half (Result.co2 (Result.Emissions rounded))
        (Result.co2 (Result.Emissions result))
      /\ within half (Result.total (Result.Emissions rounded))
           (Result.total (Result.Emissions result))
      /\ within half (Result.directEmissions (Result.Breakdown rounded))
           (Result.directEmissions (Result.Breakdown result))
      /\ within half (Result.indirectEmissions (Result.Breakdown rounded))
           (Result.indirectEmissions (Result.Breakdown result))
      /\ within half (Result.emissionIntensity (Result.Metrics rounded))
           (Result.emissionIntensity (Result.Metrics result)))
  /\ (times 1.45 10 = 14.5
      /\ CalculateRoute.round Math_round_binary64 (fun _ _ => 10) 1 1.45 = 1.5
      /\ (0.05 <? 1.5 - 1.45) = true).
Proof.
  split; [| repeat split].
  intros Math_pow precision n result H rounded half. subst rounded half.
  unfold CalculateRoute.roundEmissions.
  cbn [Result.Emissions Result.Breakdown Result.Metrics Result.co2 Result.total
       Result.directEmissions Result.indirectEmissions Result.emissionIntensity].
  repeat split; apply (round_within Math_pow precision (powerOfTen n));
    (apply powerOfTen_positive || exact H).
Qed.

End RoundingInDoubles.

(** X26, witness: at the default precision, in exact arithmetic, the
    56.428... kg of scenario A are answered as 56.43 kg. *)
Lemma rounded_within_half_unit_witness :
  within (1 / (2 * powerOfTen 2))
    (Result.co2 (Result.Emissions
       (CalculateRoute.roundEmissions roundHalfUp (fun _ _ => 100)
          (resultOf (CalculatorFactory.getCalculator road) env0 unreachable
             (requestOf roadScenario)) 2)))
    (Result.co2 (Result.Emissions
       (resultOf (CalculatorFactory.getCalculator road) env0 unreachable
          (requestOf roadScenario))))
  /\ Result.co2 (Result.Emissions
       (CalculateRoute.roundEmissions roundHalfUp (fun _ _ => 100)
          (resultOf (CalculatorFactory.getCalculator road) env0 unreachable
             (requestOf roadScenario)) 2))
     == 56.43.
Proof.
  split; [| vm_compute; reflexivity].
  assert ((fun _ _ : Q => 100) 10 2 == powerOfTen 2) as H by reflexivity.
  exact (proj1 (proj1 rounded_within_half_unit (fun _ _ => 100) 2 2%nat
                  (resultOf (CalculatorFactory.getCalculator road) env0 unreachable
                     (requestOf roadScenario)) H)).
Defined.

(** * The factory *)

Section Factory.
Context {num : Type} {N : JsNumber num}.

Lemma TransportMode_eqb_eq (a b : TransportMode) : TransportMode_eqb a b = true <-> a = b.
Proof. destruct a, b; simpl; split; intro H; try reflexivity; discriminate. Qed.

Lemma get_In (m : FactoryMap.Map (num := num)) (mode : TransportMode)
    (v : EmissionCalculator.t num) :
  FactoryMap.get m mode = Some v -> In (mode, v) m.
Proof.
  induction m as [| [k w] rest IH]; simpl; [discriminate |].
  destruct (TransportMode_eqb k mode) eqn:E.
  - apply TransportMode_eqb_eq in E. subst k. intros [= <-]. now left.
  - intro H. right. now apply IH.
Qed.

Lemma get_None (m : FactoryMap.Map (num := num)) (mode : TransportMode) :
  FactoryMap.get m mode = None -> ~ In mode (map fst m).
Proof.
  induction m as [| [k w] rest IH]; simpl; [tauto |].
  destruct (TransportMode_eqb k mode) eqn:E; [discriminate |].
  intros H [Hk | Hin]; [| now apply IH].
  subst k. assert (TransportMode_eqb mode mode = true) by now apply TransportMode_eqb_eq.
  congruence.
Qed.

Lemma set_absent (m : FactoryMap.Map (num := num)) (mode : TransportMode)
    (v : EmissionCalculator.t num) :
  FactoryMap.get m mode = None -> FactoryMap.set m mode v = m ++ [(mode, v)].
Proof.
  induction m as [| [k w] rest IH]; simpl; [reflexivity |].
  destruct (TransportMode_eqb k mode); [discriminate |]. intro H. now rewrite IH.
Qed.

Lemma get_appended (m : FactoryMap.Map (num := num)) (mode : TransportMode)
    (v : EmissionCalculator.t num) :
  FactoryMap.get m mode = None -> FactoryMap.get (m ++ [(mode, v)]) mode = Some v.
Proof.
  induction m as [| [k w] rest IH]; simpl.
  - intros _. assert (TransportMode_eqb mode mode = true) as -> by now apply TransportMode_eqb_eq.
    reflexivity.
  - destruct (TransportMode_eqb k mode); [discriminate | exact IH].
Qed.

(** a call on a map that keeps the invariant returns the calculator of
    the mode and keeps the invariant *)
Lemma getCalculator_invariant (m : FactoryMap.Map (num := num)) (mode : TransportMode) :
  factoryInvariant m ->
  fst (FactoryMap.getCalculator m mode) = Some (CalculatorFactory.getCalculator mode)
  /\ factoryInvariant (snd (FactoryMap.getCalculator m mode)).
Proof.
  intros [Hnd Hall]. unfold FactoryMap.getCalculator, FactoryMap.has.
  destruct (FactoryMap.get m mode) as [v |] eqn:G; cbn [isSome negb fst snd].
  - rewrite G. split; [| now split].
    apply get_In in G. now rewrite (Hall mode v G).
  - rewrite (set_absent m mode _ G), (get_appended m mode _ G).
    split; [reflexivity |]. split.
    + rewrite map_app. simpl. apply NoDup_app; [exact Hnd | repeat constructor; tauto |].
      intros k Hk [<- | []]. now apply (get_None m mode G).
    + intros k v Hin. apply in_app_or in Hin.
      destruct Hin as [Hin | [[= <- <-] | []]]; [now apply Hall | reflexivity].
Qed.

Lemma getCalculators_invariant (modes : list TransportMode) :
  forall m : FactoryMap.Map (num := num),
    factoryInvariant m ->
    fst (FactoryMap.getCalculators m modes)
    = map (fun mode => Some (CalculatorFactory.getCalculator mode)) modes
    /\ factoryInvariant (snd (FactoryMap.getCalculators m modes)).
Proof.
  induction modes as [| mode rest IH]; intros m Hm; [now split |].
  cbn [FactoryMap.getCalculators map].
  destruct (getCalculator_invariant m mode Hm) as [Hc Hm'].
  destruct (FactoryMap.getCalculator m mode) as [c m'] eqn:E. cbn [fst snd] in Hc, Hm'.
  destruct (IH m' Hm') as [Hcs Hm''].
  destruct (FactoryMap.getCalculators m' rest) as [cs m''] eqn:E'. cbn [fst snd] in *.
  split; [now rewrite Hc, Hcs | exact Hm''].
Qed.

(** X27: the map of the factory is not seen from outside: called any
    number of times in any order, starting from the empty map,
    [getCalculator] always returns a calculator, the one a new
    construction for the mode would give, and the map never holds more
    than one calculator per mode, four in all. *)
Theorem factory_map_transparent (modes : list TransportMode) :
  fst (FactoryMap.getCalculators (num := num) FactoryMap.calculators modes)
  = map (fun mode => Some (CalculatorFactory.createCalculator mode)) modes
  /\ NoDup (map fst (snd (FactoryMap.getCalculators (num := num) FactoryMap.calculators modes)))
  /\ (length (snd (FactoryMap.getCalculators (num := num) FactoryMap.calculators modes))
      <= 4)%nat.
Proof.
  destruct (getCalculators_invariant modes FactoryMap.calculators) as [Hc [Hnd _]].
  { split; [constructor | intros k v []]. }
  split; [exact Hc |]. split; [exact Hnd |].
  rewrite <- (length_map fst).
  change 4%nat with (length [road; rail; sea; air]).
  apply NoDup_incl_length; [exact Hnd |].
  intros k _. destruct k; simpl; tauto.
Qed.

End Factory.
